(** * Attestation verification and reward execution pipeline

  A shallow embedding of the attestation checker ([check_attestation.js]),
  the reward flow ([run_reward_flow.js]), the mode selector
  ([attestation_mode.js]) and the on-ledger recorder
  ([contracts/RewardExecutor.sol]), with the properties the design
  document states about them. *)

From Stdlib Require Import ZArith String Ascii List Bool Lia.
From stdpp Require Import base option strings gmap.
Import ListNotations.

Local Open Scope string_scope.
Local Open Scope Z_scope.
Local Open Scope list_scope.

(** ** The on-ledger recorder: [contracts/RewardExecutor.sol] *)

Module RewardExecutor.

(** [address] is a 160-bit and [bytes32]/[uint256] a 256-bit unsigned
    integer.  The contract does no arithmetic on them, so no wrap-around
    is involved: they are compared and stored only. *)
Definition address : Type := Z.
Definition bytes32 : Type := Z.
Definition uint256 : Type := Z.

(** [address(0)] *)
Definition zero_address : address := 0.

(** [event RewardExecuted(...)] *)
Record RewardExecuted : Type := mkRewardExecuted {
  ev_attestationTxHash : bytes32;
  ev_payloadHash : bytes32;
  ev_slotKey : bytes32;
  ev_participant : address;
  ev_shiftedKw : uint256
}.

(** Contract storage: [owner] and the [executedAttestations] mapping.  A
    Solidity mapping is total, an absent key reads as [false]. *)
Record State : Type := mkState {
  owner : address;
  executedAttestations : gmap Z bool
}.

Definition executed (st : State) (h : bytes32) : bool :=
  default false (executedAttestations st !! h).

(** The three [require] failures of the contract. *)
Inductive Revert : Type :=
| NotOwner          (* "RewardExecutor: not owner" *)
| OwnerIsZero       (* "RewardExecutor: owner is zero" *)
| AlreadyExecuted.  (* "RewardExecutor: already executed" *)

Definition revert_message (r : Revert) : string :=
  match r with
  | NotOwner => "RewardExecutor: not owner"
  | OwnerIsZero => "RewardExecutor: owner is zero"
  | AlreadyExecuted => "RewardExecutor: already executed"
  end.

(** A call either reverts or returns the new storage and the events it
    emitted. *)
Definition result (A : Type) : Type := (Revert + A)%type.

Definition require (c : bool) (r : Revert) : result unit :=
  if c then inr tt else inl r.

#[local] Instance result_bind : MBind result :=
  fun A B k m => match m with inl r => inl r | inr a => k a end.

(** [modifier onlyOwner] *)
Definition onlyOwner (sender : address) (st : State) : result unit :=
  require (sender =? owner st) NotOwner.

(** [constructor(address _owner)] *)
Definition constructor (_owner : address) : result State :=
  require (negb (_owner =? zero_address)) OwnerIsZero ;;
  inr {| owner := _owner; executedAttestations := ∅ |}.

(** [function setOwner(address _owner) external onlyOwner] *)
Definition setOwner (sender _owner : address) (st : State) : result State :=
  onlyOwner sender st ;;
  require (negb (_owner =? zero_address)) OwnerIsZero ;;
  inr {| owner := _owner; executedAttestations := executedAttestations st |}.

(** [function executeReward(...) external onlyOwner] *)
Definition executeReward (sender : address)
    (attestationTxHash payloadHash slotKey : bytes32)
    (participant : address) (shiftedKw : uint256) (st : State)
  : result (State * list RewardExecuted) :=
  onlyOwner sender st ;;
  require (negb (executed st attestationTxHash)) AlreadyExecuted ;;
  inr ({| owner := owner st;
          executedAttestations :=
            <[attestationTxHash := true]> (executedAttestations st) |},
       [mkRewardExecuted attestationTxHash payloadHash slotKey
          participant shiftedKw]).

(** *** The contract on the ledger

    The ledger runs transactions one after the other, each one atomically:
    a reverted call leaves storage and the event log as they were.
    Attempts made concurrently by several clients reach the contract as
    some interleaving, that is as a list of calls. *)

Inductive Call : Type :=
| CallSetOwner (sender _owner : address)
| CallExecuteReward (sender : address)
    (attestationTxHash payloadHash slotKey : bytes32)
    (participant : address) (shiftedKw : uint256).

Record Ledger : Type := mkLedger {
  storage : State;
  events : list RewardExecuted   (* oldest first *)
}.

Definition deploy (_owner : address) : result Ledger :=
  st ← constructor _owner; inr (mkLedger st []).

Definition call (l : Ledger) (c : Call) : result Ledger :=
  match c with
  | CallSetOwner sender o =>
      st ← setOwner sender o (storage l);
      inr (mkLedger st (events l))
  | CallExecuteReward sender h p s part kw =>
      '(st, evs) ← executeReward sender h p s part kw (storage l);
      inr (mkLedger st (events l ++ evs))
  end.

(** One transaction: the ledger after it (unchanged on revert). *)
Definition step (l : Ledger) (c : Call) : Ledger :=
  match call l c with
  | inl _ => l
  | inr l' => l'
  end.

Definition run (l : Ledger) (cs : list Call) : Ledger :=
  fold_left step cs l.

(** The reward records of an attestation: the [RewardExecuted] events
    carrying its transaction hash. *)
Definition records (h : bytes32) (evs : list RewardExecuted)
  : list RewardExecuted :=
  List.filter (fun e => ev_attestationTxHash e =? h) evs.

(** The ledger invariant: an attestation has one record when its flag is
    set and none otherwise, and the owner is not the zero address. *)
Definition consistent (l : Ledger) : Prop :=
  owner (storage l) ≠ zero_address /\
  forall h, length (records h (events l)) =
            if executed (storage l) h then 1%nat else 0%nat.

End RewardExecutor.

(** ** JavaScript values and built-ins used by the scripts *)

Module Js.

(** [process.env]: an object used as a map from names to strings; a
    variable that is not set reads as [undefined] (here [None]). *)
Abbreviation Env := (gmap string string).

(** [v || d] for a string-or-undefined [v]: [undefined] and the empty
    string are falsy. *)
Definition or_else (v : option string) (d : string) : string :=
  match v with
  | Some s => if String.eqb s EmptyString then d else s
  | None => d
  end.

(** [v ? String(v) : null], as in [optionalEnv]. *)
Definition nonempty (v : option string) : option string :=
  match v with
  | Some s => if String.eqb s EmptyString then None else Some s
  | None => None
  end.

(** White space removed by [String.prototype.trim], on ASCII text: tab,
    line feed, vertical tab, form feed, carriage return and space. *)
Definition is_space (c : ascii) : bool :=
  let n := nat_of_ascii c in
  ((9 <=? n)%nat && (n <=? 13)%nat) || (n =? 32)%nat.

Fixpoint trimStart (s : string) : string :=
  match s with
  | EmptyString => EmptyString
  | String c s' => if is_space c then trimStart s' else s
  end.

Fixpoint trimEnd (s : string) : string :=
  match s with
  | EmptyString => EmptyString
  | String c s' =>
      let t := trimEnd s' in
      if is_space c && String.eqb t EmptyString then EmptyString else String c t
  end.

Definition trim (s : string) : string := trimEnd (trimStart s).

(** [String.prototype.toLowerCase] on ASCII text. *)
Definition lower_ascii (c : ascii) : ascii :=
  let n := nat_of_ascii c in
  if (65 <=? n)%nat && (n <=? 90)%nat then ascii_of_nat (n + 32) else c.

Fixpoint toLowerCase (s : string) : string :=
  match s with
  | EmptyString => EmptyString
  | String c s' => String (lower_ascii c) (toLowerCase s')
  end.

(** A JavaScript number holding a block height, a count or a time stamp:
    an integer, or [NaN] ([None]).  Every comparison with [NaN] is
    false. *)
Abbreviation num := (option Z).

Definition ge (a : Z) (b : num) : bool :=
  match b with Some b => b <=? a | None => false end.

Definition lt (a : Z) (b : num) : bool :=
  match b with Some b => a <? b | None => false end.

(** A boolean-or-null field of a JSON-like object, with the truthiness
    that [!x] and [if (x)] apply to it: [null] is falsy. *)
Abbreviation tri := (option bool).

Definition truthy_tri (v : tri) : bool :=
  match v with Some b => b | None => false end.

(** A parsed JSON document, as far as the scripts look into one. *)
#[warnings="-register-all"] Inductive Json : Type :=
| JNull
| JBool (b : bool)
| JNum (n : Z)
| JStr (s : string)
| JArr (items : list Json)
| JObj (fields : list (string * Json)).

(** Built-ins and library functions that the scripts call and that are
    not part of the repository; they are taken as they come. *)
Record Runtime : Type := mkRuntime {
  (** [Number(s)] of a string; [None] is [NaN] *)
  Number : string -> num;
  (** [BigInt(s)]; [None]: a [SyntaxError] is thrown *)
  BigInt : string -> option Z;
  (** [Date.parse(s)] in milliseconds; [None] is [NaN] *)
  Date_parse : string -> option Z;
  (** [JSON.parse(s)]; [None]: a [SyntaxError] is thrown *)
  JSON_parse : string -> option Json;
  (** [ethers.getAddress(s)]; [None]: the address is rejected *)
  getAddress : string -> option Z;
  (** ["0x" + sha256(bytes) in hex] *)
  sha256Hex : string -> string;
  (** [new ethers.Interface([abi]).encodeFunctionData(name, args)];
      [None]: the arguments do not fit the fragment *)
  encodeFunctionData : Json -> string -> list Json -> option string;
  (** address of [new ethers.Wallet(key)] *)
  walletAddress : string -> option Z
}.

End Js.

(** ** The mode selector: [attestation_mode.js] *)

Module AttestationMode.
Import Js.

Definition SIMULATION_VALUES : gset string :=
  {[ "1"; "true"; "yes"; "on"; "simulation" ]}.

Definition REAL_VALUES : gset string :=
  {[ "0"; "false"; "no"; "off"; "real" ]}.

(** [parseBooleanLike]: [true] for a simulation value, [false] for a real
    one, [null] for anything else and for a value that is not set. *)
Definition parseBooleanLike (value : option string) : option bool :=
  match value with
  | None => None
  | Some v =>
      let normalized := toLowerCase (trim v) in
      if bool_decide (normalized ∈ SIMULATION_VALUES) then Some true
      else if bool_decide (normalized ∈ REAL_VALUES) then Some false
      else None
  end.

Inductive Mode : Type := simulation | real.

(** [getAttestationMode]: [USE_SIMULATION] decides when it parses, else
    [ATTESTATION_MODE], which is real unless it says simulation. *)
Definition getAttestationMode (env : Env) : Mode :=
  match parseBooleanLike (env !! "USE_SIMULATION") with
  | Some true => simulation
  | Some false => real
  | None =>
      let mode :=
        toLowerCase (trim (or_else (env !! "ATTESTATION_MODE") "real")) in
      if String.eqb mode "simulation" then simulation else real
  end.

End AttestationMode.

(** ** Errors thrown by the scripts, and what the ledger client gives *)

Module Errors.
Import Js.

(** A rejected provider or contract call, by ethers' error code. *)
Inductive RpcError : Type :=
| BadData          (* BAD_DATA: the answer does not decode against the ABI *)
| CallException    (* CALL_EXCEPTION: the call reverted *)
| NetworkError     (* NETWORK_ERROR: the node cannot be reached *)
| TimedOut         (* TIMEOUT *)
| ServerError.     (* SERVER_ERROR *)

Inductive Error : Type :=
| RealModeRequired (context : string)     (* assertRealMode *)
| MissingEnvVar (name : string)           (* mustEnv *)
| BadBigInt (text : string)
| BadAddress (text : string)
| BadJson (text : string)
| TxHashMissing
| ChainIdMismatch (expected got : Z)
| TxOrReceiptNotFound (txHash : string)
| TargetMismatch (expected got : Z)
| DaProofFileMissing
| DaProofPayloadNotFound
| Rpc (e : RpcError)
| VerificationFailed      (* "Attestation verification failed. Reward flow blocked." *)
| TooFewConfirmations (have : Z) (need : num)
| HashOrTimestampInvalid  (* "Attestation payload hash/timestamp validation failed." *)
| ArgsNotArray
| EncodeFailed
| BadSignerKey
| RewardTxNotFound (rewardTxHash : string)
| RewardTxNotConfirmed.

Definition Rpc_ (A : Type) : Type := (RpcError + A)%type.
Definition Result (A : Type) : Type := (Error + A)%type.

Definition throw {A} (e : Error) : Result A := inl e.
Definition ok {A} (a : A) : Result A := inr a.

#[global] Instance Result_bind : MBind Result :=
  fun A B k m => match m with inl e => inl e | inr a => k a end.

(** [await] of a provider call that is not inside a [try]: a rejection is
    thrown on. *)
Definition await {A} (r : Rpc_ A) : Result A :=
  match r with inl e => inl (Rpc e) | inr a => inr a end.

(** A value that must be there, else [e] is thrown. *)
Definition must {A} (v : option A) (e : Error) : Result A :=
  match v with Some a => inr a | None => inl e end.

(** [mustEnv] *)
Definition mustEnv (env : Env) (name : string) : Result string :=
  must (nonempty (env !! name)) (MissingEnvVar name).

(** [assertRealMode] *)
Definition assertRealMode (env : Env) (context : string) : Result unit :=
  match AttestationMode.getAttestationMode env with
  | AttestationMode.real => ok tt
  | AttestationMode.simulation => throw (RealModeRequired context)
  end.

End Errors.

(** ** The attestation checker: [check_attestation.js] *)

Module CheckAttestation.
Import Js Errors.

Definition DEFAULT_VERIFICATION_ADDRESS : string :=
  "0x906507E0B64bcD494Db73bd0459d1C667e14B933".
Definition DEFAULT_CONFIRMATIONS : Z := 12.

(** [Number(process.env.CONFIRMATIONS || DEFAULT_CONFIRMATIONS)] *)
Definition confirmationsRequiredOf (rt : Runtime) (env : Env) : num :=
  match nonempty (env !! "CONFIRMATIONS") with
  | Some s => Number rt s
  | None => Some DEFAULT_CONFIRMATIONS
  end.

(** *** [parseRequestRange] *)

Record Range : Type := mkRange {
  startIso : string;
  endIso : string;
  startMs : Z;
  endMs : Z;
  valid : bool
}.

(** [s.slice(n)] *)
Fixpoint slice (n : nat) (s : string) : string :=
  match n, s with
  | O, _ => s
  | S n', String _ s' => slice n' s'
  | S _, EmptyString => EmptyString
  end.

(** [s.split(sep)] for a one-character separator: never empty. *)
Fixpoint split (sep : ascii) (s : string) : list string :=
  match s with
  | EmptyString => [EmptyString]
  | String c s' =>
      match split sep s' with
      | cur :: rest =>
          if Ascii.eqb c sep then EmptyString :: cur :: rest
          else String c cur :: rest
      | [] => [EmptyString]
      end
  end.

Definition marker : string := "/intensity/".

Definition parseRequestRange (rt : Runtime) (url : string) : option Range :=
  match String.index 0 marker url with
  | None => None
  | Some idx =>
      let tail := slice (idx + String.length marker) url in
      let chunks := split "/" tail in
      match chunks with
      | c0 :: c1 :: _ =>
          match Date_parse rt c0, Date_parse rt c1 with
          | Some start, Some end_ =>
              Some {| startIso := c0; endIso := c1;
                      startMs := start; endMs := end_;
                      valid := start <? end_ |}
          | _, _ => None
          end
      | _ => None
      end
  end.

(** *** [validatePayloadHash] *)

(** [request_submission.json], as far as it is read. *)
Record Submission : Type := mkSubmission {
  sub_txHash : option string;
  sub_computedMic : option string
}.

Record PayloadHash : Type := mkPayloadHash {
  computedMic : option string;
  micMatchesExpected : tri;
  micMatchesSubmission : tri;
  payloadHashValid : bool
}.

(** [x === false] on a boolean-or-null *)
Definition is_false (v : tri) : bool :=
  match v with Some false => true | _ => false end.

(** [apiResponse] holds the bytes of the attested data file when
    [apiResponsePath] is set and the file exists. *)
Definition validatePayloadHash (rt : Runtime) (apiResponse : option string)
    (expectedMic : option string) (submissionData : option Submission)
  : PayloadHash :=
  let computed := sha256Hex rt <$> apiResponse in
  let matchesExpected :=
    match computed, nonempty expectedMic with
    | Some c, Some e => Some (String.eqb (toLowerCase c) (toLowerCase e))
    | _, _ => None
    end in
  let matchesSubmission :=
    match computed, submissionData ≫= (fun d => nonempty (sub_computedMic d)) with
    | Some c, Some m => Some (String.eqb (toLowerCase c) (toLowerCase m))
    | _, _ => None
    end in
  {| computedMic := computed;
     micMatchesExpected := matchesExpected;
     micMatchesSubmission := matchesSubmission;
     payloadHashValid :=
       if is_false matchesExpected || is_false matchesSubmission
       then false else true |}.

(** *** The ledger client and the proof store, as the checker reads them *)

Record Receipt : Type := mkReceipt {
  receipt_to : string;
  receipt_blockNumber : Z
}.

(** The proof payload found in [da_proof.json] by [extractDaProofPayload].
    Of the claim body only the lower time-stamp bound and the request URL
    are looked at by the checker; everything else is handed to the
    verification contract as it is. *)
Record ProofPayload : Type := mkProofPayload {
  request_lowestUsedTimestamp : option Z;
  requestBody_url : option string
}.

(** Arguments of [verifyJsonApi(data, proofs)] *)
Record JsonApiProof : Type := mkJsonApiProof {
  lowestUsedTimestamp_ : Z;
  url_ : string;
  jsonapi_source : ProofPayload
}.

(** Argument of [verifyWeb2Json(_proof)] *)
Record Web2JsonProof : Type := mkWeb2JsonProof {
  web2json_source : ProofPayload
}.

(** [buildVerifyJsonApiProof] *)
Definition buildVerifyJsonApiProof (rawPayload : ProofPayload)
  : JsonApiProof :=
  {| lowestUsedTimestamp_ := default 0 (request_lowestUsedTimestamp rawPayload);
     url_ := or_else (requestBody_url rawPayload) EmptyString;
     jsonapi_source := rawPayload |}.

(** [buildVerifyWeb2JsonProof] *)
Definition buildVerifyWeb2JsonProof (rawPayload : ProofPayload)
  : Web2JsonProof :=
  {| web2json_source := rawPayload |}.

(** What to estimate gas for. *)
Record TxRequest : Type := mkTxRequest {
  tx_to : Z;
  tx_from : option Z;
  tx_data : string
}.

Record FeeData : Type := mkFeeData {
  maxFeePerGas : option Z;
  maxPriorityFeePerGas : option Z
}.

(** Read-only access to the ledger ([ethers.JsonRpcProvider] and the view
    calls of the verification contract).  Every call can be rejected. *)
Record Provider : Type := mkProvider {
  getNetwork : Rpc_ Z;                              (* chainId *)
  getTransaction : string -> Rpc_ bool;             (* found or null *)
  getTransactionReceipt : string -> Rpc_ (option Receipt);
  getBlockNumber : Rpc_ Z;
  getLogs : Z -> Rpc_ (list string);                (* tx hash of each log *)
  getBlock : Z -> Rpc_ Z;                           (* its timestamp *)
  verifyJsonApi : JsonApiProof -> Rpc_ bool;
  verifyWeb2Json : Web2JsonProof -> Rpc_ bool;
  getFeeData : Rpc_ FeeData;
  estimateGas : TxRequest -> Rpc_ Z
}.

(** The files at the paths the checker resolves
    ([REQUEST_SUBMISSION_PATH], [DA_PROOF_PATH], [API_RESPONSE_PATH] or
    their defaults): [None] when the file does not exist.  For the proof
    file the inner [None] is a document in which [extractDaProofPayload]
    finds no payload. *)
Record Files : Type := mkFiles {
  requestSubmission : option Submission;
  daProof : option (option ProofPayload);
  apiResponse : option string
}.

(** *** The proof-validity check: lines 361-384 of [checkAttestation] *)

Record Verification : Type := mkVerification {
  v_verificationPassed : bool;
  v_verificationFunction : string;
  v_verificationError : option RpcError
}.

(** Returns the verifier functions that were called, in order, and the
    outcome. *)
Definition proofValidity (p : Provider) (verifyProof : JsonApiProof)
    (verifyWeb2Proof : Web2JsonProof)
  : list string * Result Verification :=
  match verifyJsonApi p verifyProof with
  | inr passed =>
      (["verifyJsonApi"], ok (mkVerification passed "verifyJsonApi" None))
  | inl err =>
      match verifyWeb2Json p verifyWeb2Proof with
      | inr passed =>
          (["verifyJsonApi"; "verifyWeb2Json"],
           ok (mkVerification passed "verifyWeb2Json" None))
      | inl _fallbackErr =>
          (["verifyJsonApi"; "verifyWeb2Json"], throw (Rpc err))
      end
  end.

(** *** Confirmation depth and time window *)

(** [latestBlock - receipt.blockNumber + 1] *)
Definition confirmationsOf (latestBlock blockNumber : Z) : Z :=
  latestBlock - blockNumber + 1.

(** [confirmations >= confirmationsRequired] *)
Definition confirmedOf (confirmations : Z) (confirmationsRequired : num)
  : bool :=
  ge confirmations confirmationsRequired.

(** [(lowestUsedTimestamp === 0 || blockTimestamp >= lowestUsedTimestamp)
     && (!timestampRange || timestampRange.valid)] *)
Definition timestampValidOf (lowestUsedTimestamp blockTimestamp : Z)
    (timestampRange : option Range) : bool :=
  ((lowestUsedTimestamp =? 0) || (lowestUsedTimestamp <=? blockTimestamp))
  && match timestampRange with
     | None => true
     | Some r => valid r
     end.

(** *** [checkAttestation] *)

(** The verification report.  The four verdict fields are read by the
    reward flow through [!x], which also takes [null]; the checker itself
    only ever stores booleans there.  Diagnostic fields that nothing reads
    back (chain id, addresses, the log count of the receipt, the request
    fee, the time of the check) are left out. *)
Record Attestation : Type := mkAttestation {
  txHash : string;
  blockNumber : Z;
  confirmationsRequired : num;
  confirmations : Z;
  confirmed : tri;
  verificationPassed : tri;
  verificationFunction : string;
  payloadHashValid_ : tri;
  timestampValid : tri;
  attestationLogsInBlock : nat;
  payloadHash : PayloadHash;
  lowestUsedTimestamp : Z;
  blockTimestamp : Z;
  requestTimestampRange : option Range;
  verificationFallbackError : option RpcError
}.

(** [if (c) throw e] *)
Definition throwIf (c : bool) (e : Error) : Result unit :=
  if c then throw e else ok tt.

(** [process.env.ATTESTATION_TX_HASH || requestJson.txHash || null] *)
Definition txHashOf (env : Env) (fs : Files) : option string :=
  match nonempty (env !! "ATTESTATION_TX_HASH") with
  | Some h => Some h
  | None => requestSubmission fs ≫= (fun r => nonempty (sub_txHash r))
  end.

(** The report is also written to [check_attestation_result.json]; the
    value returned is what is written.  The call to [requestFee], whose
    failure is caught and whose answer is only reported, is left out. *)
Definition checkAttestation (rt : Runtime) (env : Env) (p : Provider)
    (fs : Files) : Result Attestation :=
  assertRealMode env "check_attestation.js" ;;
  _rpcUrl ← mustEnv env "FLARE_RPC_URL";
  chainText ← mustEnv env "FLARE_CHAIN_ID";
  expectedChainId ← must (BigInt rt chainText) (BadBigInt chainText);
  contractText ← mustEnv env "FDC_ATTESTATION_CONTRACT";
  fdcAttestationContract ←
    must (getAddress rt contractText) (BadAddress contractText);
  let verifierText :=
    or_else (env !! "FDC_VERIFICATION_CONTRACT") DEFAULT_VERIFICATION_ADDRESS in
  _verificationAddress ←
    must (getAddress rt verifierText) (BadAddress verifierText);
  let confirmationsRequired := confirmationsRequiredOf rt env in
  txHash ← must (txHashOf env fs) TxHashMissing;
  let expectedMic := nonempty (env !! "EXPECTED_MIC") in
  chainId ← await (getNetwork p);
  throwIf (negb (chainId =? expectedChainId))
          (ChainIdMismatch expectedChainId chainId) ;;
  tx ← await (getTransaction p txHash);
  receiptOpt ← await (getTransactionReceipt p txHash);
  receipt ← must (if (tx : bool) then receiptOpt else None) (TxOrReceiptNotFound txHash);
  receiptTo ←
    must (getAddress rt (receipt_to receipt)) (BadAddress (receipt_to receipt));
  throwIf (negb (receiptTo =? fdcAttestationContract))
          (TargetMismatch fdcAttestationContract receiptTo) ;;
  latestBlock ← await (getBlockNumber p);
  let confirmations := confirmationsOf latestBlock (receipt_blockNumber receipt) in
  let confirmed := confirmedOf confirmations confirmationsRequired in
  blockLogs ← await (getLogs p (receipt_blockNumber receipt));
  let matchingBlockLogs := List.filter (String.eqb txHash) blockLogs in
  daProofJson ← must (daProof fs) DaProofFileMissing;
  proofPayload ← must daProofJson DaProofPayloadNotFound;
  let verifyProof := buildVerifyJsonApiProof proofPayload in
  let verifyWeb2Proof := buildVerifyWeb2JsonProof proofPayload in
  verification ← snd (proofValidity p verifyProof verifyWeb2Proof);
  let payloadHash :=
    validatePayloadHash rt (apiResponse fs) expectedMic (requestSubmission fs) in
  blockTimestamp ← await (getBlock p (receipt_blockNumber receipt));
  let lowestUsedTimestamp := lowestUsedTimestamp_ verifyProof in
  let timestampRange := parseRequestRange rt (url_ verifyProof) in
  let timestampValid :=
    timestampValidOf lowestUsedTimestamp blockTimestamp timestampRange in
  ok {| txHash := txHash;
        blockNumber := receipt_blockNumber receipt;
        confirmationsRequired := confirmationsRequired;
        confirmations := confirmations;
        confirmed := Some confirmed;
        verificationPassed := Some (v_verificationPassed verification);
        verificationFunction := v_verificationFunction verification;
        payloadHashValid_ := Some (payloadHashValid payloadHash);
        timestampValid := Some timestampValid;
        attestationLogsInBlock := length matchingBlockLogs;
        payloadHash := payloadHash;
        lowestUsedTimestamp := lowestUsedTimestamp;
        blockTimestamp := blockTimestamp;
        requestTimestampRange := timestampRange;
        verificationFallbackError := v_verificationError verification |}.

End CheckAttestation.

(** ** The reward flow: [run_reward_flow.js] *)

Module RewardFlow.
Import Js Errors CheckAttestation.

Definition DEFAULT_CONFIRMATIONS : Z := 12.

Definition abiInput (name type : string) : Json :=
  JObj [("name", JStr name); ("type", JStr type)].

Definition DEFAULT_REWARD_FUNCTION_ABI : Json :=
  JObj [("inputs", JArr [abiInput "attestationTxHash" "bytes32";
                         abiInput "payloadHash" "bytes32";
                         abiInput "slotKey" "bytes32";
                         abiInput "participant" "address";
                         abiInput "shiftedKw" "uint256"]);
        ("name", JStr "executeReward");
        ("outputs", JArr []);
        ("stateMutability", JStr "nonpayable");
        ("type", JStr "function")].

Definition LEGACY_FLEXDAO_FUNCTION_ABI : Json :=
  JObj [("inputs",
         JArr [JObj [("components", JArr [abiInput "participant" "address";
                                          abiInput "shiftedKw" "uint256"]);
                     ("name", JStr "participants");
                     ("type", JStr "tuple[]")]]);
        ("name", JStr "submitFlexEvent");
        ("outputs", JArr []);
        ("stateMutability", JStr "nonpayable");
        ("type", JStr "function")].

(** *** The write side of the ledger client *)

(** A state-changing contract call sent by the signer:
    [rewardContract[functionName](...functionArgs)]. *)
Record SentTx : Type := mkSentTx {
  sent_from : Z;
  sent_to : Z;
  sent_abi : Json;
  sent_function : string;
  sent_args : list Json
}.

(** The ledger behind the client, with whatever state [L] it has: sending a
    transaction gives its hash or a rejection and the ledger afterwards;
    [tx.wait(1)] gives the block number of the receipt or a rejection. *)
Record LedgerClient (L : Type) : Type := mkLedgerClient {
  sendTransaction : L -> SentTx -> Rpc_ string * L;
  wait : L -> string -> Rpc_ Z
}.
Arguments sendTransaction {L}.
Arguments wait {L}.

(** What the flow does after the check, in order.  [StepSend] is the only
    state-changing ledger call among them. *)
Inductive Step : Type :=
| StepGetNetwork
| StepEncodeCalldata
| StepGetFeeData
| StepEstimateGas
| StepGetReceipt (rewardTxHash : string)
| StepGetBlockNumber
| StepSend (tx : SentTx)
| StepWait (hash : string).

Definition is_send (s : Step) : bool :=
  match s with StepSend _ => true | _ => false end.

Record FlowState (L : Type) : Type := mkFlowState {
  ledger : L;
  trace : list Step      (* oldest first *)
}.
Arguments mkFlowState {L}.
Arguments ledger {L}.
Arguments trace {L}.

(** A computation that may throw, over the ledger and the trace. *)
Definition Flow (L A : Type) : Type :=
  FlowState L -> Result A * FlowState L.

#[global] Instance Flow_bind {L} : MBind (Flow L) :=
  fun A B k m s =>
    match m s with
    | (inl e, s') => (inl e, s')
    | (inr a, s') => k a s'
    end.

Definition pure {L A} (a : A) : Flow L A := fun s => (inr a, s).

(** A step that touches neither the ledger nor the network. *)
Definition lift {L A} (r : Result A) : Flow L A := fun s => (r, s).

Definition record {L} (st : Step) : Flow L unit :=
  fun s => (inr tt, mkFlowState (ledger s) (trace s ++ [st])).

(** [await] of a read-only call: a rejection is thrown on. *)
Definition perform {L A} (st : Step) (r : Rpc_ A) : Flow L A :=
  record st ;; lift (await r).

(** [try { x = await call } catch { x = null }] *)
Definition attempt {L A} (st : Step) (r : Rpc_ A) : Flow L (option A) :=
  record st ;;
  pure (match r with inl _ => None | inr a => Some a end).

(** The state-changing call. *)
Definition send {L} (client : LedgerClient L) (tx : SentTx)
  : Flow L string :=
  fun s =>
    let '(r, l') := sendTransaction client (ledger s) tx in
    (await r, mkFlowState l' (trace s ++ [StepSend tx])).

Definition waitFor {L} (client : LedgerClient L) (hash : string)
  : Flow L Z :=
  fun s =>
    (await (wait client (ledger s) hash),
     mkFlowState (ledger s) (trace s ++ [StepWait hash])).

(** *** [runRewardFlow] *)

Inductive RewardOutcome : Type :=
| DryRunOutcome (attestation : Attestation) (estimatedGas : option Z)
    (maxFeePerGas_ : Z) (rewardContractAddress : Z)
    (functionName calldata : string)
| LiveOutcome (attestation : Attestation) (rewardTxHash : option string)
    (rewardBlockNumber : option Z).

(** [Number(process.env.CONFIRMATIONS || DEFAULT_CONFIRMATIONS)] *)
Definition confirmationsRequiredOf (rt : Runtime) (env : Env) : num :=
  match nonempty (env !! "CONFIRMATIONS") with
  | Some s => Number rt s
  | None => Some DEFAULT_CONFIRMATIONS
  end.

(** [process.env.DRY_RUN !== "0"] *)
Definition dryRunOf (env : Env) : bool :=
  negb (bool_decide (env !! "DRY_RUN" = Some "0")).

(** [(process.env.SIGNER_MODE || "private_key").trim().toLowerCase()] *)
Definition signerModeOf (env : Env) : string :=
  toLowerCase (trim (or_else (env !! "SIGNER_MODE") "private_key")).

(** Lines 117-127: the three checks on the report of the checker. *)
Definition gate (confirmationsRequired : num) (attestation : Attestation)
  : Result unit :=
  throwIf (negb (truthy_tri (verificationPassed attestation)))
          VerificationFailed ;;
  throwIf (negb (truthy_tri (confirmed attestation))
           || lt (confirmations attestation) confirmationsRequired)
          (TooFewConfirmations (confirmations attestation)
                               confirmationsRequired) ;;
  throwIf (negb (truthy_tri (payloadHashValid_ attestation))
           || negb (truthy_tri (timestampValid attestation)))
          HashOrTimestampInvalid.

(** The ABI fragment chosen from the environment. *)
Definition functionAbiOf (rt : Runtime) (env : Env) : Result Json :=
  match nonempty (env !! "REWARD_FUNCTION_ABI_JSON") with
  | Some text => must (JSON_parse rt text) (BadJson text)
  | None =>
      if bool_decide (env !! "REWARD_FUNCTION_NAME" = Some "submitFlexEvent")
      then ok LEGACY_FLEXDAO_FUNCTION_ABI
      else ok DEFAULT_REWARD_FUNCTION_ABI
  end.

(** [REWARD_FUNCTION_ARGS_JSON], parsed ([null] when it is not set); the
    flow throws unless [Array.isArray] holds of it. *)
Definition functionArgsOf (rt : Runtime) (env : Env) : Result (list Json) :=
  parsed ← match nonempty (env !! "REWARD_FUNCTION_ARGS_JSON") with
           | Some text => must (JSON_parse rt text) (BadJson text)
           | None => ok JNull
           end;
  match parsed with
  | JArr items => ok items
  | _ => throw ArgsNotArray
  end.

(** [x ? x : null] of a bigint: [0n] is falsy. *)
Definition nonzero (v : option Z) : option Z :=
  match v with
  | Some n => if n =? 0 then None else Some n
  | None => None
  end.

(** Lines 129-289: what follows the gate.  Console output is left out. *)
Definition proceed {L} (rt : Runtime) (env : Env) (p : Provider)
    (client : LedgerClient L) (confirmationsRequired : num)
    (attestation : Attestation) : Flow L RewardOutcome :=
  let dryRun := dryRunOf env in
  let signerMode := signerModeOf env in
  _rpcUrl ← lift (mustEnv env "FLARE_RPC_URL");
  chainText ← lift (mustEnv env "FLARE_CHAIN_ID");
  expectedChainId ← lift (must (BigInt rt chainText) (BadBigInt chainText));
  rewardText ← lift (mustEnv env "REWARD_CONTRACT_ADDRESS");
  rewardContractAddress ←
    lift (must (getAddress rt rewardText) (BadAddress rewardText));
  let functionName := or_else (env !! "REWARD_FUNCTION_NAME") "executeReward" in
  functionAbi ← lift (functionAbiOf rt env);
  functionArgs ← lift (functionArgsOf rt env);
  chainId ← perform StepGetNetwork (getNetwork p);
  lift (throwIf (negb (chainId =? expectedChainId))
                (ChainIdMismatch expectedChainId chainId)) ;;
  record StepEncodeCalldata ;;
  calldata ← lift (must (encodeFunctionData rt functionAbi functionName
                                            functionArgs) EncodeFailed);
  feeData ← perform StepGetFeeData (getFeeData p);
  estimateFrom ←
    lift (match nonempty (env !! "SIGNER_ADDRESS") with
          | Some text =>
              a ← must (getAddress rt text) (BadAddress text); ok (Some a)
          | None => ok None
          end);
  estimatedGas ←
    attempt StepEstimateGas
      (estimateGas p (mkTxRequest rewardContractAddress estimateFrom calldata));
  if dryRun then
    pure (DryRunOutcome attestation (nonzero estimatedGas)
            (default 0 (nonzero (maxFeePerGas feeData)))
            rewardContractAddress functionName calldata)
  else if String.eqb signerMode "metamask" then
    match nonempty (env !! "REWARD_TX_HASH") with
    | None => pure (LiveOutcome attestation None None)
    | Some rewardTxHash =>
        receiptOpt ← perform (StepGetReceipt rewardTxHash)
                             (getTransactionReceipt p rewardTxHash);
        receipt ← lift (must receiptOpt (RewardTxNotFound rewardTxHash));
        latestBlock ← perform StepGetBlockNumber (getBlockNumber p);
        let confirmations :=
          latestBlock - receipt_blockNumber receipt + 1 in
        let confirmed := ge confirmations confirmationsRequired in
        lift (throwIf (negb confirmed) RewardTxNotConfirmed) ;;
        pure (LiveOutcome attestation (Some rewardTxHash)
                (Some (receipt_blockNumber receipt)))
    end
  else
    signerKey ← lift (mustEnv env "FLARE_SIGNER_KEY");
    signer ← lift (must (walletAddress rt signerKey) BadSignerKey);
    hash ← send client (mkSentTx signer rewardContractAddress functionAbi
                                 functionName functionArgs);
    rewardBlock ← waitFor client hash;
    pure (LiveOutcome attestation (Some hash) (Some rewardBlock)).

(** The flow on the report of the checker: gate, then the rest. *)
Definition rewardAttestation {L} (rt : Runtime) (env : Env) (p : Provider)
    (client : LedgerClient L) (attestation : Attestation)
  : Flow L RewardOutcome :=
  let confirmationsRequired := confirmationsRequiredOf rt env in
  lift (gate confirmationsRequired attestation) ;;
  proceed rt env p client confirmationsRequired attestation.

Definition runRewardFlow {L} (rt : Runtime) (env : Env) (p : Provider)
    (fs : Files) (client : LedgerClient L) : Flow L RewardOutcome :=
  lift (assertRealMode env "run_reward_flow.js") ;;
  attestation ← lift (checkAttestation rt env p fs);
  rewardAttestation rt env p client attestation.

(** A run from a ledger, with an empty trace. *)
Definition start {L} (l : L) : FlowState L := mkFlowState l [].

(** *** The two ways a run can go

    Either the flow only reads: it ends with a result and some steps, none
    of them a send, that are the same whatever the ledger holds.  Or it
    reads, sends one transaction and waits for it. *)

Definition extend {L} (s : FlowState L) (steps : list Step) : FlowState L :=
  mkFlowState (ledger s) (trace s ++ steps).

(** The steps that change nothing on the ledger, and those of them that
    only work out the call data and the gas and fee estimate. *)
Definition is_quiet (st : Step) : bool := negb (is_send st).

Definition is_estimate (st : Step) : bool :=
  match st with
  | StepGetNetwork | StepEncodeCalldata | StepGetFeeData | StepEstimateGas =>
      true
  | _ => false
  end.

Definition all_steps (q : Step -> bool) (steps : list Step) : Prop :=
  Forall (fun st => q st = true) steps.

Definition quiet_steps (steps : list Step) : Prop := all_steps is_quiet steps.

(** [m] only takes steps allowed by [q], ends the same way whatever the
    ledger holds and leaves the ledger alone; a value it returns
    satisfies [P]. *)
Definition yields {A} (q : Step -> bool) (P : A -> Prop)
    (m : forall L, LedgerClient L -> Flow L A) : Prop :=
  exists steps r,
    all_steps q steps /\
    (forall a, r = inr a -> P a) /\
    forall L (client : LedgerClient L) (s : FlowState L),
      m L client s = (r, extend s steps).

Definition oblivious {A} (m : forall L, LedgerClient L -> Flow L A) : Prop :=
  yields is_quiet (fun _ => True) m.

Definition sent {L} (client : LedgerClient L) (attestation : Attestation)
    (steps : list Step) (tx : SentTx) (s : FlowState L)
  : Result RewardOutcome * FlowState L :=
  let '(answer, l') := sendTransaction client (ledger s) tx in
  match answer with
  | inl e =>
      (inl (Rpc e), mkFlowState l' (trace s ++ steps ++ [StepSend tx]))
  | inr hash =>
      (match wait client l' hash with
       | inl e => inl (Rpc e)
       | inr rewardBlock =>
           inr (LiveOutcome attestation (Some hash) (Some rewardBlock))
       end,
       mkFlowState l' (trace s ++ steps ++ [StepSend tx; StepWait hash]))
  end.

Definition sends (m : forall L, LedgerClient L -> Flow L RewardOutcome)
    (attestation : Attestation) : Prop :=
  exists steps tx,
    quiet_steps steps /\
    forall L (client : LedgerClient L) (s : FlowState L),
      m L client s = sent client attestation steps tx s.

(** What a dry run gives back. *)
Definition is_dry_run_of (att : Attestation) (out : RewardOutcome) : Prop :=
  exists gas fee address name calldata,
    out = DryRunOutcome att gas fee address name calldata.

(** The gate lets a report through. *)
Definition passes (confirmationsRequired : num) (attestation : Attestation)
  : Prop :=
  verificationPassed attestation = Some true /\
  confirmed attestation = Some true /\
  lt (confirmations attestation) confirmationsRequired = false /\
  payloadHashValid_ attestation = Some true /\
  timestampValid attestation = Some true.

End RewardFlow.

(** ** The reward contract on a ledger behind the client *)

Module ExecutorNode.
Import Js Errors RewardFlow.

(** A ledger on which a [RewardExecutor] is deployed at [executorAddress].
    [decodeArgs] is the ABI decoding of the five arguments of
    [executeReward], [hashOf] the hash of a transaction and [minedAt] the
    block that includes it. *)
Record Node : Type := mkNode {
  executorAddress : Z;
  decodeArgs : list Json -> option (Z * Z * Z * Z * Z);
  hashOf : SentTx -> string;
  minedAt : Z
}.

Definition toCall (n : Node) (tx : SentTx) : option RewardExecutor.Call :=
  if (sent_to tx =? executorAddress n)
     && String.eqb (sent_function tx) "executeReward"
  then
    '(h, p, s, part, kw) ← decodeArgs n (sent_args tx);
    Some (RewardExecutor.CallExecuteReward (sent_from tx) h p s part kw)
  else None.

(** A call that reverts is rejected with [CALL_EXCEPTION] and changes
    nothing; so is a call that is not an [executeReward] of the contract. *)
Definition client (n : Node) : LedgerClient RewardExecutor.Ledger :=
  {| sendTransaction := fun l tx =>
       match toCall n tx with
       | Some c =>
           match RewardExecutor.call l c with
           | inr l' => (inr (hashOf n tx), l')
           | inl _ => (inl CallException, l)
           end
       | None => (inl CallException, l)
       end;
     wait := fun _ _ => inr (minedAt n) |}.

End ExecutorNode.

(** ** Three statements of the design document, as it words them *)

Module Claimed.
Import Js Errors CheckAttestation RewardFlow.

(** Proof validity: the secondary signature is tried only after a decoding
    (ABI) mismatch of the primary one; a primary answer, true or false,
    stands; any other failure of the primary attempt is thrown on with no
    second attempt. *)
Definition fallback_only_on_mismatch (p : Provider) (a : JsonApiProof)
    (b : Web2JsonProof) : Prop :=
  (forall v, verifyJsonApi p a = inr v ->
     proofValidity p a b =
       (["verifyJsonApi"], ok (mkVerification v "verifyJsonApi" None))) /\
  (verifyJsonApi p a = inl BadData ->
     fst (proofValidity p a b) = ["verifyJsonApi"; "verifyWeb2Json"]) /\
  (forall err, verifyJsonApi p a = inl err -> err <> BadData ->
     proofValidity p a b = (["verifyJsonApi"], throw (Rpc err))).

(** Aggregation: when the checker's report has an indeterminate ([null])
    entry, be it one of the four verdicts or one of the digest comparisons
    behind the integrity verdict, the reward flow throws and changes
    nothing. *)
Definition indeterminate_blocks {L} (rt : Runtime) (env : Env) (p : Provider)
    (fs : Files) (client : LedgerClient L) (s : FlowState L) : Prop :=
  forall att,
    checkAttestation rt env p fs = inr att ->
    confirmed att = None \/ verificationPassed att = None \/
    payloadHashValid_ att = None \/ timestampValid att = None \/
    micMatchesExpected (payloadHash att) = None \/
    micMatchesSubmission (payloadHash att) = None ->
    exists e, runRewardFlow rt env p fs client s = (inl e, s).

(** Client-side replay guard: a reward call for an attestation is sent only
    when the ledger holds no record for it. *)
Definition sends_only_unrecorded (n : ExecutorNode.Node) (rt : Runtime)
    (env : Env) (p : Provider) (fs : Files) (l : RewardExecutor.Ledger)
  : Prop :=
  forall tx sender h ph sk part kw,
    In (StepSend tx)
       (trace (snd (runRewardFlow rt env p fs (ExecutorNode.client n)
                                  (start l)))) ->
    ExecutorNode.toCall n tx =
      Some (RewardExecutor.CallExecuteReward sender h ph sk part kw) ->
    RewardExecutor.executed (RewardExecutor.storage l) h = false.

End Claimed.

(** ** Concrete inputs on which the statements below are run *)

Module Fixture.
Import Js Errors CheckAttestation RewardFlow.

(** A recorder owned by account 7, and two attempts to record a reward for
    attestation 1. *)
Definition ledger7 : RewardExecutor.Ledger :=
  RewardExecutor.mkLedger (RewardExecutor.mkState 7 ∅) [].

Definition twice : list RewardExecutor.Call :=
  [RewardExecutor.CallExecuteReward 7 1 2 3 4 5;
   RewardExecutor.CallExecuteReward 7 1 2 3 4 5].

(** A runtime double: numbers and addresses are written in decimal, two
    dates and one argument array are known, every file hashes to
    ["0xdef"]. *)
Definition digit (c : ascii) : option Z :=
  let n := nat_of_ascii c in
  if (48 <=? n)%nat && (n <=? 57)%nat then Some (Z.of_nat n - 48) else None.

Fixpoint decimalFrom (acc : Z) (s : string) : option Z :=
  match s with
  | EmptyString => Some acc
  | String c s' =>
      match digit c with
      | Some d => decimalFrom (10 * acc + d) s'
      | None => None
      end
  end.

Definition decimal (s : string) : option Z :=
  match s with
  | EmptyString => None
  | _ => decimalFrom 0 s
  end.

Definition rt : Runtime :=
  {| Number := decimal;
     BigInt := decimal;
     Date_parse := fun s =>
       if String.eqb s "2024-01-01T00:00Z" then Some 1704067200000
       else if String.eqb s "2024-01-02T00:00Z" then Some 1704153600000
       else None;
     JSON_parse := fun s =>
       if String.eqb s "[1,2,3,4,5]"
       then Some (JArr [JNum 1; JNum 2; JNum 3; JNum 4; JNum 5])
       else None;
     getAddress := decimal;
     sha256Hex := fun _ => "0xdef";
     encodeFunctionData := fun _ name _ => Some name;
     walletAddress := decimal |}.

(** The environment of a live run with a private key: chain 114, the
    attestation contract at 77, the recorder at 99, the signer 7. *)
Definition env_execute : Env :=
  {[ "FLARE_RPC_URL" := "http://node";
     "FLARE_CHAIN_ID" := "114";
     "FDC_ATTESTATION_CONTRACT" := "77";
     "FDC_VERIFICATION_CONTRACT" := "88";
     "ATTESTATION_TX_HASH" := "0xa77e";
     "REWARD_CONTRACT_ADDRESS" := "99";
     "REWARD_FUNCTION_ARGS_JSON" := "[1,2,3,4,5]";
     "FLARE_SIGNER_KEY" := "7";
     "DRY_RUN" := "0" ]}.

(** The same without [DRY_RUN]: a dry run. *)
Definition env_default : Env := delete "DRY_RUN" env_execute.

(** The live environment in MetaMask mode, polling the reward
    transaction "0x4e". *)
Definition env_metamask : Env :=
  <["SIGNER_MODE" := " MetaMask "]>
    (<["REWARD_TX_HASH" := "0x4e"]> env_execute).

(** The same with an expected digest. *)
Definition env_expected (mic : string) : Env :=
  <["EXPECTED_MIC" := mic]> env_execute.

Definition url_ok : string :=
  "https://api/intensity/2024-01-01T00:00Z/2024-01-02T00:00Z".

Definition url_inverted : string :=
  "https://api/intensity/2024-01-02T00:00Z/2024-01-01T00:00Z".

Definition payload : ProofPayload :=
  {| request_lowestUsedTimestamp := Some 1000; requestBody_url := Some url_ok |}.

(** A node at height [height] that holds the attestation transaction in
    block 100, stamped 2000, and whose verifier answers [primary] to
    [verifyJsonApi] and [secondary] to [verifyWeb2Json]. *)
Definition provider (height : Z) (primary secondary : Rpc_ bool) : Provider :=
  {| getNetwork := inr 114;
     getTransaction := fun _ => inr true;
     getTransactionReceipt := fun _ => inr (Some (mkReceipt "77" 100));
     getBlockNumber := inr height;
     getLogs := fun _ => inr ["0xa77e"];
     getBlock := fun _ => inr 2000;
     verifyJsonApi := fun _ => primary;
     verifyWeb2Json := fun _ => secondary;
     getFeeData := inr (mkFeeData (Some 25) (Some 1));
     estimateGas := fun _ => inr 21000 |}.

(** A node of chain 16 that rejects every other call. *)
Definition provider_chain16 : Provider :=
  {| getNetwork := inr 16;
     getTransaction := fun _ => inl NetworkError;
     getTransactionReceipt := fun _ => inl NetworkError;
     getBlockNumber := inl NetworkError;
     getLogs := fun _ => inl NetworkError;
     getBlock := fun _ => inl NetworkError;
     verifyJsonApi := fun _ => inl NetworkError;
     verifyWeb2Json := fun _ => inl NetworkError;
     getFeeData := inl NetworkError;
     estimateGas := fun _ => inl NetworkError |}.

(** The proof and the submission record, with or without the attested
    data file. *)
Definition files (api : option string) : Files :=
  {| requestSubmission := Some (mkSubmission (Some "0xa77e") None);
     daProof := Some (Some payload);
     apiResponse := api |}.

(** The recorder at 99; arguments are five JSON numbers. *)
Definition node : ExecutorNode.Node :=
  {| ExecutorNode.executorAddress := 99;
     ExecutorNode.decodeArgs := fun args =>
       match args with
       | [JNum h; JNum p; JNum s; JNum part; JNum kw] =>
           Some (h, p, s, part, kw)
       | _ => None
       end;
     ExecutorNode.hashOf := fun _ => "0x4e";
     ExecutorNode.minedAt := 120 |}.

(** The reward call of that environment, sent by the signer 7. *)
Definition reward_tx : SentTx :=
  mkSentTx 7 99 DEFAULT_REWARD_FUNCTION_ABI "executeReward"
           [JNum 1; JNum 2; JNum 3; JNum 4; JNum 5].

(** A report on another attestation transaction that passes the gate as
    well. *)
Definition report_other : Attestation :=
  {| txHash := "0x07he4";
     blockNumber := 90;
     confirmationsRequired := Some 12;
     confirmations := 31;
     confirmed := Some true;
     verificationPassed := Some true;
     verificationFunction := "verifyWeb2Json";
     payloadHashValid_ := Some true;
     timestampValid := Some true;
     attestationLogsInBlock := 1;
     payloadHash := mkPayloadHash None None None true;
     lowestUsedTimestamp := 0;
     blockTimestamp := 1900;
     requestTimestampRange := None;
     verificationFallbackError := None |}.

(** The recorder after the reward of attestation 1 has been recorded. *)
Definition ledger_recorded : RewardExecutor.Ledger :=
  RewardExecutor.step ledger7 (RewardExecutor.CallExecuteReward 7 1 2 3 4 5).

(** The report on that attestation when the node is at [height] and the
    verifier says yes: nothing to compare the digest with, a well-formed
    range. *)
Definition report (height : Z) : Attestation :=
  {| txHash := "0xa77e";
     blockNumber := 100;
     confirmationsRequired := Some 12;
     confirmations := height - 100 + 1;
     confirmed := Some (12 <=? height - 100 + 1);
     verificationPassed := Some true;
     verificationFunction := "verifyJsonApi";
     payloadHashValid_ := Some true;
     timestampValid := Some true;
     attestationLogsInBlock := 1;
     payloadHash := mkPayloadHash None None None true;
     lowestUsedTimestamp := 1000;
     blockTimestamp := 2000;
     requestTimestampRange :=
       Some (mkRange "2024-01-01T00:00Z" "2024-01-02T00:00Z"
                     1704067200000 1704153600000 true);
     verificationFallbackError := None |}.

End Fixture.

(** ** The simulation-only scripts ([deploy.js], [demoFlow.js],
    [backend/fdc_stub.js], [backend/fdc_to_contract_stub.js]) *)

Module SimulationOnly.
Import Js.

(** "... is simulation-only. Set ATTESTATION_MODE=simulation (or
    USE_SIMULATION=1)." *)
Inductive ModeError : Type :=
| SimulationModeRequired (context : string).

(** [assertSimulationMode] *)
Definition assertSimulationMode (env : Env) (context : string)
  : ModeError + unit :=
  match AttestationMode.getAttestationMode env with
  | AttestationMode.simulation => inr tt
  | AttestationMode.real => inl (SimulationModeRequired context)
  end.

(** White space only. *)
Fixpoint all_space (s : string) : bool :=
  match s with
  | EmptyString => true
  | String c s' => is_space c && all_space s'
  end.

End SimulationOnly.

(** ** What the checker needs from the environment before it reads the
    ledger *)

Module Configured.
Import Js Errors CheckAttestation.

(** Real mode, [FLARE_RPC_URL] set, [FLARE_CHAIN_ID] a big integer,
    [FDC_ATTESTATION_CONTRACT] an address and the verification address (the
    default one unless [FDC_VERIFICATION_CONTRACT] is set) an address. *)
Definition configured (rt : Runtime) (env : Env)
    (expectedChainId fdcAttestationContract : Z) : Prop :=
  AttestationMode.getAttestationMode env = AttestationMode.real /\
  nonempty (env !! "FLARE_RPC_URL") <> None /\
  (exists text, nonempty (env !! "FLARE_CHAIN_ID") = Some text /\
                BigInt rt text = Some expectedChainId) /\
  (exists text, nonempty (env !! "FDC_ATTESTATION_CONTRACT") = Some text /\
                getAddress rt text = Some fdcAttestationContract) /\
  getAddress rt (or_else (env !! "FDC_VERIFICATION_CONTRACT")
                         DEFAULT_VERIFICATION_ADDRESS) <> None.
(** [s.includes(c)] for a character. *)
Fixpoint has_char (c : ascii) (s : string) : bool :=
  match s with
  | EmptyString => false
  | String c' s' => Ascii.eqb c' c || has_char c s'
  end.

End Configured.

(** ** More on the shape of a run *)

Module FlowShape.
Import Js Errors CheckAttestation RewardFlow.

(** [m] reads, then sends one transaction, which satisfies [T], and waits
    for it. *)
Definition sends_such (T : SentTx -> Prop)
    (m : forall L, LedgerClient L -> Flow L RewardOutcome)
    (attestation : Attestation) : Prop :=
  exists steps tx,
    quiet_steps steps /\ T tx /\
    forall L (client : LedgerClient L) (s : FlowState L),
      m L client s = sent client attestation steps tx s.

(** The outcome with another report in it. *)
Definition with_attestation (attestation : Attestation) (out : RewardOutcome)
  : RewardOutcome :=
  match out with
  | DryRunOutcome _ gas fee address name calldata =>
      DryRunOutcome attestation gas fee address name calldata
  | LiveOutcome _ hash block => LiveOutcome attestation hash block
  end.

Definition relabel {L} (attestation : Attestation)
    (r : Result RewardOutcome * FlowState L)
  : Result RewardOutcome * FlowState L :=
  (match fst r with
   | inl e => inl e
   | inr out => inr (with_attestation attestation out)
   end, snd r).

(** The transaction that a live run with a private key sends: from the
    wallet of [FLARE_SIGNER_KEY] to [REWARD_CONTRACT_ADDRESS], calling
    [REWARD_FUNCTION_NAME] (or [executeReward]) of the chosen ABI fragment
    with the array of [REWARD_FUNCTION_ARGS_JSON]. *)
Definition is_reward_call (rt : Runtime) (env : Env) (tx : SentTx) : Prop :=
  exists key addressText,
    nonempty (env !! "FLARE_SIGNER_KEY") = Some key /\
    walletAddress rt key = Some (sent_from tx) /\
    nonempty (env !! "REWARD_CONTRACT_ADDRESS") = Some addressText /\
    getAddress rt addressText = Some (sent_to tx) /\
    functionAbiOf rt env = inr (sent_abi tx) /\
    sent_function tx = or_else (env !! "REWARD_FUNCTION_NAME") "executeReward" /\
    functionArgsOf rt env = inr (sent_args tx).

(** What has been settled when a run sends: a live run, not in MetaMask
    mode, on the expected chain, with call data that encodes. *)
Definition ready_to_send (rt : Runtime) (env : Env) (p : Provider)
    (tx : SentTx) : Prop :=
  is_reward_call rt env tx /\
  dryRunOf env = false /\
  String.eqb (signerModeOf env) "metamask" = false /\
  (exists chainText expected,
      nonempty (env !! "FLARE_CHAIN_ID") = Some chainText /\
      BigInt rt chainText = Some expected /\
      getNetwork p = inr expected) /\
  (exists calldata,
      encodeFunctionData rt (sent_abi tx) (sent_function tx) (sent_args tx)
      = Some calldata) /\
  (exists fees, getFeeData p = inr fees).
(** What a run that returns without having sent gives back: the dry-run
    outcome in a dry run; in a live run, which is then in MetaMask mode,
    nothing when no [REWARD_TX_HASH] is given, and else that hash with the
    block of its receipt, which has enough confirmations. *)
Definition quiet_outcome (rt : Runtime) (env : Env) (p : Provider)
    (confirmationsRequired : num) (att : Attestation) (out : RewardOutcome)
  : Prop :=
  (dryRunOf env = true /\ is_dry_run_of att out) \/
  (dryRunOf env = false /\
   String.eqb (signerModeOf env) "metamask" = true /\
   ((nonempty (env !! "REWARD_TX_HASH") = None /\
     out = LiveOutcome att None None) \/
    (exists hash receipt latestBlock,
        nonempty (env !! "REWARD_TX_HASH") = Some hash /\
        getTransactionReceipt p hash = inr (Some receipt) /\
        getBlockNumber p = inr latestBlock /\
        ge (latestBlock - receipt_blockNumber receipt + 1)
           confirmationsRequired = true /\
        out = LiveOutcome att (Some hash)
                (Some (receipt_blockNumber receipt))))).

(** What the flow needs from the environment before it asks the node
    anything: the RPC URL, a chain id, the address of the reward contract,
    an ABI fragment and an array of arguments. *)
Definition reward_configured (rt : Runtime) (env : Env) : Prop :=
  nonempty (env !! "FLARE_RPC_URL") <> None /\
  (exists text expected,
      nonempty (env !! "FLARE_CHAIN_ID") = Some text /\
      BigInt rt text = Some expected) /\
  (exists text address,
      nonempty (env !! "REWARD_CONTRACT_ADDRESS") = Some text /\
      getAddress rt text = Some address) /\
  (exists abi, functionAbiOf rt env = inr abi) /\
  (exists text items,
      nonempty (env !! "REWARD_FUNCTION_ARGS_JSON") = Some text /\
      JSON_parse rt text = Some (JArr items) /\
      functionArgsOf rt env = inr items).

End FlowShape.

(** ** The command lines of the two scripts *)

(** [process.argv.slice(2)] is a list of strings.  [args[i + 1]] past the end
    is [undefined] and an empty argument is falsy: in both cases the option
    takes no value and the loop goes on with the next argument. *)
Module CheckAttestationCli.
Import Js Errors CheckAttestation.

(** [parseCliArgs] of check_attestation.js: [--id <hash>] sets
    [ATTESTATION_TX_HASH]. *)
Fixpoint parseCliArgs (args : list string) (env : Env) : Env :=
  match args with
  | [] => env
  | a :: rest =>
      if String.eqb a "--id" then
        match rest with
        | v :: rest' =>
            if String.eqb v EmptyString then parseCliArgs rest env
            else parseCliArgs rest' (<["ATTESTATION_TX_HASH" := v]> env)
        | [] => env
        end
      else parseCliArgs rest env
  end.

(** The script run from the command line: [parseCliArgs(); checkAttestation()]. *)
Definition main (rt : Runtime) (args : list string) (env : Env)
    (p : Provider) (fs : Files) : Result Attestation :=
  checkAttestation rt (parseCliArgs args env) p fs.

End CheckAttestationCli.

Module RewardFlowCli.
Import Js Errors CheckAttestation RewardFlow.

(** [parseCliArgs] of run_reward_flow.js: [--attestation <hash>] sets
    [ATTESTATION_TX_HASH], [--dry-run] sets [DRY_RUN] to 1 and [--execute]
    sets it to 0. *)
Fixpoint parseCliArgs (args : list string) (env : Env) : Env :=
  match args with
  | [] => env
  | a :: rest =>
      if String.eqb a "--attestation" then
        match rest with
        | v :: rest' =>
            if String.eqb v EmptyString then parseCliArgs rest env
            else parseCliArgs rest' (<["ATTESTATION_TX_HASH" := v]> env)
        | [] => env
        end
      else if String.eqb a "--dry-run" then
        parseCliArgs rest (<["DRY_RUN" := "1"]> env)
      else if String.eqb a "--execute" then
        parseCliArgs rest (<["DRY_RUN" := "0"]> env)
      else parseCliArgs rest env
  end.

(** The script run from the command line: [parseCliArgs(); runRewardFlow()]. *)
Definition main {L} (rt : Runtime) (args : list string) (env : Env)
    (p : Provider) (fs : Files) (client : LedgerClient L)
  : Flow L RewardOutcome :=
  runRewardFlow rt (parseCliArgs args env) p fs client.

End RewardFlowCli.

(** ** The proof document: written by fetch_da_proof.js, read by the checker
    and by verify_with_fdc_verification.js *)

Module DaProofJson.
Import Js Errors.

(** JavaScript truthiness of a parsed JSON value. *)
Definition truthy (v : Json) : bool :=
  match v with
  | JNull => false
  | JBool b => b
  | JNum n => negb (n =? 0)
  | JStr s => negb (String.eqb s EmptyString)
  | JArr _ | JObj _ => true
  end.

Fixpoint field_of (name : string) (fields : list (string * Json))
  : option Json :=
  match fields with
  | [] => None
  | (k, v) :: rest => if String.eqb k name then Some v else field_of name rest
  end.

(** [v.name] on a value that is not [null]: the field of an object,
    [undefined] (here [None]) on anything else. *)
Definition get (v : Json) (name : string) : option Json :=
  match v with
  | JObj fields => field_of name fields
  | _ => None
  end.

(** Truthiness of a value that may be [undefined]. *)
Definition the (v : option Json) : bool :=
  match v with
  | Some x => truthy x
  | None => false
  end.

(** [v && v.name]: the field when [v] is truthy. *)
Definition sub (v : option Json) (name : string) : option Json :=
  v ≫= (fun x => if truthy x then get x name else None).

(** [extractDaProofPayload] of check_attestation.js.  A branch that is
    taken has found [daProofJson.response] truthy, so what it returns is
    there. *)
Definition extractDaProofPayload (daProofJson : Json) : Result Json :=
  let response := sub (Some daProofJson) "response" in
  if the response && the (sub response "proof")
  then must response DaProofPayloadNotFound
  else if the response && the (sub response "response")
          && the (sub response "proof")
  then must response DaProofPayloadNotFound
  else if the (sub (Some daProofJson) "proof") && the response
  then ok daProofJson
  else throw DaProofPayloadNotFound.

(** [rawPayload.proof || []], the proof list that [buildVerifyJsonApiProof]
    and [buildVerifyWeb2JsonProof] hand to the verifier. *)
Definition proofsOf (rawPayload : Json) : Json :=
  match get rawPayload "proof" with
  | Some proof => if truthy proof then proof else JArr []
  | None => JArr []
  end.

(** What verify_with_fdc_verification.js throws before it calls the node. *)
Inductive VerifyError : Type :=
| ProofFileNotFound (path : string)
| ProofPayloadNotLocated.

Definition located (v : option Json) : VerifyError + Json :=
  match v with
  | Some x => inr x
  | None => inl ProofPayloadNotLocated
  end.

(** [extractProofPayload] of verify_with_fdc_verification.js. *)
Definition extractProofPayload (daProofJson : Json) : VerifyError + Json :=
  let response := sub (Some daProofJson) "response" in
  if the response && the (sub response "proof")
  then located response
  else if the response && the (sub response "response")
  then located (sub response "response")
  else if the response && the (sub response "proof")
  then located response
  else if the (sub (Some daProofJson) "proof")
          && the (sub (Some daProofJson) "data")
  then inr daProofJson
  else inl ProofPayloadNotLocated.

(** [hasNonEmptyProof] of fetch_da_proof.js. *)
Definition hasNonEmptyProof (data : Json) : bool :=
  truthy data &&
  match get data "proof" with
  | Some (JArr (_ :: _)) => true
  | _ => false
  end.

(** The document that fetch_da_proof.js writes around an answer [data] of
    the data-availability layer; [votingRoundId] is a number or [null]. *)
Definition proofDocument (votingRoundId : Json)
    (requestBytes daBase endpoint fetchedAtIso : string) (data : Json) : Json :=
  JObj [ ("votingRoundId", votingRoundId);
         ("requestBytes", JStr requestBytes);
         ("daBase", JStr daBase);
         ("endpoint", JStr endpoint);
         ("fetchedAtIso", JStr fetchedAtIso);
         ("response", data) ].

End DaProofJson.

(** ** request_jsonapi_attestation.js: the script that submits the request
    and writes [request_submission.json] *)

Module RequestAttestation.
Import Js CheckAttestation DaProofJson.

Definition DEFAULT_rpcUrl : string :=
  "https://coston2-api.flare.network/ext/C/rpc".
Definition DEFAULT_verifierBase : string :=
  "https://fdc-verifiers-testnet.flare.network".
Definition DEFAULT_fdcHubAddress : string :=
  "0x48aC463d7975828989331F4De43341627b9c5f1D".
Definition DEFAULT_apiUrl : string :=
  "https://api.carbonintensity.org.uk/intensity/2026-01-31T00:00Z/2026-02-07T00:00Z".
Definition DEFAULT_jq : string := ".data | tostring".

Definition WEB2JSON_ATTESTATION_TYPE : string :=
  "0x576562324a736f6e000000000000000000000000000000000000000000000000".
Definition PUBLIC_WEB2_SOURCE_ID : string :=
  "0x5075626c69635765623200000000000000000000000000000000000000000000".

Inductive RequestError : Type :=
| MissingEnvVar (name : string)
| ApiResponseNotFound (path : string)
| MicMismatch (expected computed : string)
| PrepareRequestFailed (status : Z) (data : Json)
| AbiEncodedRequestMissing
| MicFailed (status : Z) (data : Json)
| MicStatusNotValid (data : Json)
| MicCodeMissing
| VerifierMicMismatch (expected verifierMic : string)
(** an exception of [fetch], [res.json()], a property access or ethers *)
| Thrown.

(** What the script does to the world outside, in order. *)
Inductive Effect : Type :=
| Posted (url apiKey : string) (body : Json)
| AskedFee (rpcUrl fdcHubAddress : string)
| Submitted (rpcUrl fdcHubAddress : string) (signer : Z) (data : string)
            (value : Z)
| Waited (hash : string)
| Wrote (path : string).

Definition Script (A : Type) : Type := list Effect * (RequestError + A).

#[export] Instance Script_bind : MBind Script := fun A B k m =>
  match m with
  | (done, inl e) => (done, inl e)
  | (done, inr a) => let '(more, r) := k a in (done ++ more, r)
  end.

Definition pure {A} (a : A) : Script A := ([], inr a).
Definition throw {A} (e : RequestError) : Script A := ([], inl e).
(** An effect and what came back; [None] is an exception. *)
Definition effect {A} (what : Effect) (answer : option A) : Script A :=
  ([what], match answer with Some a => inr a | None => inl Thrown end).

(** An HTTP answer: [res.ok], [res.status] and [await res.json()], which
    rejects ([None]) when the body is not JSON. *)
Record Http : Type := mkHttp {
  res_ok : bool;
  res_status : Z;
  res_json : option Json
}.

(** The file system, the verifier, the hub and the clock. *)
Record Host : Type := mkHost {
  (** [path.join(__dirname, "api_response.json")] *)
  defaultApiResponsePath : string;
  (** [path.join(__dirname, "out", "request_submission.json")] *)
  defaultOutPath : string;
  (** the bytes of a file; [None] when [fs.existsSync] is false *)
  readFile : string -> option string;
  (** [fetch(url, { method: "POST", headers, body })]; [None]: it rejects *)
  fetch : string -> string -> Json -> option Http;
  (** [fdcHub.requestFee()] *)
  requestFee : string -> string -> option Z;
  (** [ethers.parseEther] *)
  parseEther : string -> option Z;
  (** [fdcHub.requestAttestation(data, { value })]: the transaction hash *)
  requestAttestation : string -> string -> Z -> string -> Z -> option string;
  (** [tx.wait()]: block number and block hash of the receipt *)
  wait : string -> option (Z * string);
  (** [fs.mkdirSync] and [fs.writeFileSync] of the record *)
  writeFile : string -> option unit;
  (** [new Date().toISOString()] *)
  now : string
}.

(** [must] *)
Definition must (env : Env) (name : string) : Script string :=
  match nonempty (env !! name) with
  | Some value => pure value
  | None => throw (MissingEnvVar name)
  end.

Definition buildWeb2JsonRequest (apiUrl postProcessJq abiSignature : string)
  : Json :=
  JObj [ ("attestationType", JStr WEB2JSON_ATTESTATION_TYPE);
         ("sourceId", JStr PUBLIC_WEB2_SOURCE_ID);
         ("requestBody",
          JObj [ ("url", JStr apiUrl);
                 ("httpMethod", JStr "GET");
                 ("headers", JStr EmptyString);
                 ("queryParams", JStr EmptyString);
                 ("body", JStr EmptyString);
                 ("postProcessJq", JStr postProcessJq);
                 ("abiSignature", JStr abiSignature) ]) ].

(** [await res.json()] after the POST. *)
Definition post (host : Host) (url apiKey : string) (body : Json)
  : Script (Http * Json) :=
  res ← effect (Posted url apiKey body) (fetch host url apiKey body);
  match res_json res with
  | Some data => pure (res, data)
  | None => throw Thrown
  end.

(** [prepareRequest]: the encoded request and the whole answer.  Calling
    [startsWith] on a truthy value that is not a string throws. *)
Definition prepareRequest (host : Host)
    (verifierBase verifierApiKey apiUrl postProcessJq abiSignature : string)
  : Script (string * Json) :=
  let payload := buildWeb2JsonRequest apiUrl postProcessJq abiSignature in
  '(res, data) ← post host
                   (verifierBase ++ "/verifier/web2/Web2Json/prepareRequest")
                   verifierApiKey payload;
  if negb (res_ok res) then throw (PrepareRequestFailed (res_status res) data)
  else if negb (truthy data) then throw AbiEncodedRequestMissing
  else
    match get data "abiEncodedRequest" with
    | Some (JStr abiEncodedRequest) =>
        if String.eqb abiEncodedRequest EmptyString
           || negb (String.prefix "0x" abiEncodedRequest)
        then throw AbiEncodedRequestMissing
        else pure (abiEncodedRequest, data)
    | Some other =>
        if truthy other then throw Thrown else throw AbiEncodedRequestMissing
    | None => throw AbiEncodedRequestMissing
    end.

(** [fetchVerifierMic]: the answer, whose [status] is VALID and whose
    [messageIntegrityCode] is truthy.  Reading [status] off [null] throws. *)
Definition fetchVerifierMic (host : Host)
    (verifierBase verifierApiKey : string) (requestPayload : Json)
  : Script Json :=
  '(res, data) ← post host (verifierBase ++ "/verifier/web2/Web2Json/mic")
                   verifierApiKey requestPayload;
  if negb (res_ok res) then throw (MicFailed (res_status res) data)
  else
    match data with
    | JNull => throw Thrown
    | _ =>
        match get data "status" with
        | Some (JStr status) =>
            if negb (String.eqb status "VALID")
            then throw (MicStatusNotValid data)
            else if the (get data "messageIntegrityCode") then pure data
            else throw MicCodeMissing
        | _ => throw (MicStatusNotValid data)
        end
    end.

(** The record written to [OUT_PATH]. *)
Record Output : Type := mkOutput {
  network : string;
  rpcUrl : string;
  verifierBase : string;
  fdcHubAddress : string;
  apiUrl : string;
  postProcessJq : string;
  abiSignature : string;
  apiResponsePath : string;
  computedMic : string;
  verifierMic : option Json;
  expectedMic : option string;
  strictVerifierMicCheck : bool;
  abiEncodedRequest : string;
  requestFeeWei : Z;
  txHash : string;
  blockNumber : Z;
  blockHash : string;
  submittedAtIso : string;
  prepareResponse : Json;
  micResponse : Json
}.

(** Lines 177-185: the strict comparison of the verifier's code. *)
Definition strictCheck (strict : bool) (expectedMic : option string)
    (verifierMic : option Json) : Script unit :=
  match strict, expectedMic with
  | true, Some expected =>
      match verifierMic with
      | Some (JStr code) =>
          if String.eqb (toLowerCase expected) (toLowerCase code)
          then pure tt
          else throw (VerifierMicMismatch expected code)
      | _ => throw Thrown
      end
  | _, _ => pure tt
  end.

(** Lines 192-197: the fee of the hub, else the configured one. *)
Definition feeOf (host : Host) (rpcUrl fdcHubAddress fallbackFeeEther : string)
  : Script Z :=
  match requestFee host rpcUrl fdcHubAddress with
  | Some fee => effect (AskedFee rpcUrl fdcHubAddress) (Some fee)
  | None =>
      effect (AskedFee rpcUrl fdcHubAddress) (parseEther host fallbackFeeEther)
  end.

Definition main (rt : Runtime) (host : Host) (env : Env) : Script Output :=
  privateKey ← must env "PRIVATE_KEY";
  verifierApiKey ← must env "VERIFIER_API_KEY";
  let rpcUrl := or_else (env !! "RPC_URL") DEFAULT_rpcUrl in
  let verifierBase := or_else (env !! "VERIFIER_BASE") DEFAULT_verifierBase in
  let fdcHubAddress :=
    or_else (env !! "FDC_HUB_ADDRESS") DEFAULT_fdcHubAddress in
  let apiUrl := or_else (env !! "API_URL") DEFAULT_apiUrl in
  let postProcessJq := or_else (env !! "POST_PROCESS_JQ") DEFAULT_jq in
  let abiSignature := or_else (env !! "ABI_SIGNATURE") "string" in
  let apiResponsePath :=
    or_else (env !! "API_RESPONSE_PATH") (defaultApiResponsePath host) in
  let outPath := or_else (env !! "OUT_PATH") (defaultOutPath host) in
  let expectedMic := nonempty (env !! "EXPECTED_MIC") in
  let strictVerifierMicCheck :=
    bool_decide (env !! "STRICT_VERIFIER_MIC" = Some "1") in
  let fallbackFeeEther := or_else (env !! "FDC_FEE_C2FLR") "0.01" in
  exactBytes ← match readFile host apiResponsePath with
               | Some bytes => pure bytes
               | None => throw (ApiResponseNotFound apiResponsePath)
               end;
  let computedMic := sha256Hex rt exactBytes in
  match expectedMic with
  | Some expected =>
      if String.eqb (toLowerCase expected) (toLowerCase computedMic)
      then pure tt
      else throw (MicMismatch expected computedMic)
  | None => pure tt
  end ;;
  let requestPayload := buildWeb2JsonRequest apiUrl postProcessJq abiSignature in
  '(abiEncodedRequest, prepareResponse) ←
    prepareRequest host verifierBase verifierApiKey apiUrl postProcessJq
                   abiSignature;
  micResponse ← fetchVerifierMic host verifierBase verifierApiKey requestPayload;
  let verifierMic := get micResponse "messageIntegrityCode" in
  strictCheck strictVerifierMicCheck expectedMic verifierMic ;;
  signer ← match walletAddress rt privateKey with
           | Some address => pure address
           | None => throw Thrown
           end;
  requestFee ← feeOf host rpcUrl fdcHubAddress fallbackFeeEther;
  hash ← effect (Submitted rpcUrl fdcHubAddress signer abiEncodedRequest requestFee)
                (requestAttestation host rpcUrl fdcHubAddress signer
                                    abiEncodedRequest requestFee);
  '(blockNumber, blockHash) ← effect (Waited hash) (wait host hash);
  let output :=
    {| network := "coston2";
          rpcUrl := rpcUrl;
          verifierBase := verifierBase;
          fdcHubAddress := fdcHubAddress;
          apiUrl := apiUrl;
          postProcessJq := postProcessJq;
          abiSignature := abiSignature;
          apiResponsePath := apiResponsePath;
          computedMic := computedMic;
          verifierMic := verifierMic;
          expectedMic := expectedMic;
          strictVerifierMicCheck := strictVerifierMicCheck;
          abiEncodedRequest := abiEncodedRequest;
          requestFeeWei := requestFee;
          txHash := hash;
          blockNumber := blockNumber;
          blockHash := blockHash;
          submittedAtIso := now host;
          prepareResponse := prepareResponse;
          micResponse := micResponse |} in
  effect (Wrote outPath) (writeFile host outPath) ;;
  pure output.

(** [request_submission.json] as the checker reads it back: the
    transaction hash and the digest. *)
Definition submissionOf (output : Output) : Submission :=
  mkSubmission (Some (txHash output)) (Some (computedMic output)).

End RequestAttestation.

(** What the properties of the request script speak of. *)
Module RequestShape.
Import Js DaProofJson RequestAttestation.

Definition is_submitted (e : Effect) : bool :=
  match e with
  | Submitted _ _ _ _ _ => true
  | _ => false
  end.

Definition verifierBaseOf (env : Env) : string :=
  or_else (env !! "VERIFIER_BASE") DEFAULT_verifierBase.

(** The request that is posted to both endpoints of the verifier. *)
Definition requestPayloadOf (env : Env) : Json :=
  buildWeb2JsonRequest (or_else (env !! "API_URL") DEFAULT_apiUrl)
    (or_else (env !! "POST_PROCESS_JQ") DEFAULT_jq)
    (or_else (env !! "ABI_SIGNATURE") "string").

(** The verifier answered both POSTs of the run with success: an encoded
    request [request] that starts with 0x, and a VALID status with an
    integrity code. *)
Definition verifier_accepted (host : Host) (env : Env) (request : string)
  : Prop :=
  exists apiKey prepared prepareData answered micData,
    nonempty (env !! "VERIFIER_API_KEY") = Some apiKey /\
    fetch host (verifierBaseOf env ++ "/verifier/web2/Web2Json/prepareRequest")
          apiKey (requestPayloadOf env) = Some prepared /\
    res_ok prepared = true /\ res_json prepared = Some prepareData /\
    get prepareData "abiEncodedRequest" = Some (JStr request) /\
    String.prefix "0x" request = true /\
    fetch host (verifierBaseOf env ++ "/verifier/web2/Web2Json/mic")
          apiKey (requestPayloadOf env) = Some answered /\
    res_ok answered = true /\ res_json answered = Some micData /\
    get micData "status" = Some (JStr "VALID") /\
    the (get micData "messageIntegrityCode") = true.

(** The attested file is there and, when [EXPECTED_MIC] is set, has that
    digest. *)
Definition file_as_expected (rt : Runtime) (host : Host) (env : Env) : Prop :=
  exists bytes,
    readFile host
      (or_else (env !! "API_RESPONSE_PATH") (defaultApiResponsePath host))
    = Some bytes /\
    forall expected,
      nonempty (env !! "EXPECTED_MIC") = Some expected ->
      toLowerCase expected = toLowerCase (sha256Hex rt bytes).

End RequestShape.

Module RequestFixture.
Import Js DaProofJson RequestAttestation.

(** A runtime whose digest of a text is 0x followed by the text. *)
Definition rt : Runtime :=
  {| Number := Fixture.decimal;
     BigInt := Fixture.decimal;
     Date_parse := fun _ => None;
     JSON_parse := fun _ => None;
     getAddress := Fixture.decimal;
     sha256Hex := fun bytes => ("0x" ++ bytes)%string;
     encodeFunctionData := fun _ name _ => Some name;
     walletAddress := Fixture.decimal |}.

(** A verifier that accepts every request, a hub that has no [requestFee]
    and mines every request in block 100, and the attested file. *)
Definition host : Host :=
  {| defaultApiResponsePath := "api_response.json";
     defaultOutPath := "out/request_submission.json";
     readFile := fun path =>
       if String.eqb path "api_response.json" then Some "AB" else None;
     fetch := fun _ _ _ =>
       Some (mkHttp true 200
               (Some (JObj [ ("status", JStr "VALID");
                             ("abiEncodedRequest", JStr "0x5e");
                             ("messageIntegrityCode", JStr "0xffff") ])));
     requestFee := fun _ _ => None;
     parseEther := fun s => if String.eqb s "0.01" then Some 10 else None;
     requestAttestation := fun _ _ _ _ _ => Some "0xa77e";
     wait := fun _ => Some (100, "0xb10c");
     writeFile := fun _ => Some tt;
     now := "2026-02-07T00:00:00.000Z" |}.

Definition env : Env :=
  {[ "PRIVATE_KEY" := "7"; "VERIFIER_API_KEY" := "key" ]}.

End RequestFixture.

(** ** fetch_da_proof.js: polling the data-availability layer *)

Module FetchDaProof.
Import Js DaProofJson.

Definition DEFAULT_daBase : string :=
  "https://ctn2-data-availability.flare.network".
Definition DEFAULT_endpointLatest : string :=
  "/api/v0/fdc/get-proof-round-bytes".
Definition DEFAULT_endpointRound : string :=
  "/api/v1/fdc/proof-by-request-round".
Definition DEFAULT_maxAttempts : Z := 40.
Definition DEFAULT_intervalMs : Z := 15000.

(** The text of the last error does not keep the last answer. *)
Inductive FetchError : Type :=
| RequestSubmissionNotFound (path : string)
| AbiEncodedRequestMissing (path : string)
| ProofNotAvailable (maxAttempts : num)
(** an exception of [fetch], [res.json()], [JSON.parse] of the request
    file, a property access or the file system *)
| Thrown.

(** What the script asks of the world outside, in order. *)
Inductive Request : Type :=
| GetLatestRound (url : string)
| PostProof (url : string) (body : Json)
| Sleep (ms : num)
| WriteProof (path : string) (document : Json).

Definition is_post (r : Request) : bool :=
  match r with
  | PostProof _ _ => true
  | _ => false
  end.

(** [{ status: res.status, ok: res.ok }] and [await res.text()]. *)
Record DaAnswer : Type := mkDaAnswer {
  da_status : Z;
  da_ok : bool;
  da_text : string
}.

(** The file system, the data-availability layer in a state [W] that every
    call may change, and the clock. *)
Record Host (W : Type) : Type := mkHost {
  (** [path.join(__dirname, "out", "request_submission.json")] *)
  defaultRequestPath : string;
  (** [path.join(__dirname, "out", "da_proof.json")] *)
  defaultOutPath : string;
  (** the text of a file; [None] when [fs.existsSync] is false *)
  readFile : string -> option string;
  (** [Number(x)] of a JSON value or of [undefined] *)
  numberOf : option Json -> num;
  (** [fetch(url)]: [res.ok] and, asked only when that is true,
      [await res.json()]; [None] is a rejection *)
  getJson : string -> W -> option (bool * option Json) * W;
  (** [fetch(url, { method: "POST", body })] and [await res.text()] *)
  postText : string -> Json -> W -> option DaAnswer * W;
  sleep : num -> W -> W;
  (** [fs.mkdirSync] and [fs.writeFileSync] *)
  writeFile : string -> Json -> W -> option unit * W;
  (** [new Date().toISOString()] *)
  now : W -> string
}.
Arguments defaultRequestPath {W}.
Arguments defaultOutPath {W}.
Arguments readFile {W}.
Arguments numberOf {W}.
Arguments getJson {W}.
Arguments postText {W}.
Arguments sleep {W}.
Arguments writeFile {W}.
Arguments now {W}.

Record PollState (W : Type) : Type := mkPollState {
  world : W;
  requests : list Request
}.
Arguments mkPollState {W}.
Arguments world {W}.
Arguments requests {W}.

Definition Poll (W A : Type) : Type :=
  PollState W -> (FetchError + A) * PollState W.

#[export] Instance Poll_bind {W} : MBind (Poll W) := fun A B k m s =>
  match m s with
  | (inl e, s') => (inl e, s')
  | (inr a, s') => k a s'
  end.

Definition pure {W A} (a : A) : Poll W A := fun s => (inr a, s).
Definition throw {W A} (e : FetchError) : Poll W A := fun s => (inl e, s).

(** A call of the world outside: it is logged, the world moves on, and
    [None] is an exception. *)
Definition ask {W A} (what : Request) (call : W -> option A * W) : Poll W A :=
  fun s =>
    let '(answer, w) := call (world s) in
    (match answer with Some a => inr a | None => inl Thrown end,
     mkPollState w (requests s ++ [what])).

(** [process.env.X || default] read as a number. *)
Definition numberEnv (rt : Runtime) (env : Env) (name : string) (d : Z) : num :=
  match nonempty (env !! name) with
  | Some s => Number rt s
  | None => Some d
  end.

(** A number as [JSON.stringify] writes it: [NaN] becomes [null]. *)
Definition numberJson (n : num) : Json :=
  match n with
  | Some z => JNum z
  | None => JNull
  end.

(** [fetchLatestVotingRound]: [null] (here [None]) when the answer is not
    ok, else [Number(data.voting_round_id)]; reading the field off [null]
    throws. *)
Definition fetchLatestVotingRound {W} (host : Host W) (daBase : string)
  : Poll W (option num) :=
  let url := (daBase ++ "/api/v0/fsp/latest-voting-round")%string in
  res ← ask (GetLatestRound url) (getJson host url);
  match res with
  | (false, _) => pure None
  | (true, None) => throw Thrown
  | (true, Some JNull) => throw Thrown
  | (true, Some data) => pure (Some (numberOf host (get data "voting_round_id")))
  end.

(** [data] of [fetchOnceLatest] and [fetchOnceRound]: the parsed text, or
    [{ raw: text }] when it does not parse. *)
Definition dataOf (rt : Runtime) (answer : DaAnswer) : Json :=
  match JSON_parse rt (da_text answer) with
  | Some data => data
  | None => JObj [("raw", JStr (da_text answer))]
  end.

Definition fetchOnceLatest {W} (host : Host W) (daBase endpoint : string)
    (requestBytes : string) : Poll W DaAnswer :=
  let url := (daBase ++ endpoint)%string in
  let body := JObj [("requestBytes", JStr requestBytes)] in
  ask (PostProof url body) (postText host url body).

Definition fetchOnceRound {W} (host : Host W) (daBase endpoint : string)
    (votingRoundId : num) (requestBytes : string) : Poll W DaAnswer :=
  let url := (daBase ++ endpoint)%string in
  let body := JObj [ ("votingRoundId", numberJson votingRoundId);
                     ("requestBytes", JStr requestBytes) ] in
  ask (PostProof url body) (postText host url body).

(** [last.ok && hasNonEmptyProof(last.data)], and then the document is
    written and returned. *)
Definition save {W} (rt : Runtime) (host : Host W) (outPath : string)
    (votingRoundId : Json) (requestBytes daBase endpoint : string)
    (last : DaAnswer) : Poll W (option Json) :=
  if da_ok last && hasNonEmptyProof (dataOf rt last)
  then
    fun s =>
      let output :=
        proofDocument votingRoundId requestBytes daBase endpoint
                      (now host (world s)) (dataOf rt last) in
      (ask (WriteProof outPath output) (writeFile host outPath output) ;;
       pure (Some output)) s
  else pure None.

(** The inner loop over the rounds around the latest one. *)
Fixpoint tryRounds {W} (rt : Runtime) (host : Host W)
    (outPath requestBytes daBase endpointRound : string) (rounds : list Z)
  : Poll W (option Json) :=
  match rounds with
  | [] => pure None
  | round :: rest =>
      last ← fetchOnceRound host daBase endpointRound (Some round) requestBytes;
      saved ← save rt host outPath (JNum round) requestBytes daBase
                   endpointRound last;
      match saved with
      | Some output => pure (Some output)
      | None =>
          tryRounds rt host outPath requestBytes daBase endpointRound rest
      end
  end.

(** One turn of the outer loop: the document when a proof was found. *)
Definition attempt {W} (rt : Runtime) (host : Host W) (env : Env)
    (outPath requestBytes daBase endpointLatest endpointRound : string)
  : Poll W (option Json) :=
  match nonempty (env !! "VOTING_ROUND_ID") with
  | Some votingRoundId =>
      last ← fetchOnceRound host daBase endpointRound (Number rt votingRoundId)
                            requestBytes;
      save rt host outPath (numberJson (Number rt votingRoundId)) requestBytes
           daBase endpointRound last
  | None =>
      latestRound ← fetchLatestVotingRound host daBase;
      found ← match latestRound with
              | Some (Some latest) =>
                  tryRounds rt host outPath requestBytes daBase endpointRound
                            [latest - 2; latest - 1; latest; latest + 1]
              | _ => pure None
              end;
      match found with
      | Some output => pure (Some output)
      | None =>
          last ← fetchOnceLatest host daBase endpointLatest requestBytes;
          save rt host outPath JNull requestBytes daBase endpointLatest last
      end
  end.

(** The outer loop, [left] turns before it gives up. *)
Fixpoint poll {W} (rt : Runtime) (host : Host W) (env : Env)
    (outPath requestBytes daBase endpointLatest endpointRound : string)
    (maxAttempts intervalMs : num) (left : nat) : Poll W Json :=
  match left with
  | O => throw (ProofNotAvailable maxAttempts)
  | S left' =>
      found ← attempt rt host env outPath requestBytes daBase endpointLatest
                      endpointRound;
      match found with
      | Some output => pure output
      | None =>
          ask (Sleep intervalMs) (fun w => (Some tt, sleep host intervalMs w)) ;;
          poll rt host env outPath requestBytes daBase endpointLatest
               endpointRound maxAttempts intervalMs left'
      end
  end.

(** [for (let i = 1; i <= maxAttempts; i++)]: no turn when [maxAttempts] is
    [NaN] or below one. *)
Definition turns (maxAttempts : num) : nat :=
  match maxAttempts with
  | Some n => Z.to_nat n
  | None => O
  end.

(** [main]: the document that was written. *)
Definition main {W} (rt : Runtime) (host : Host W) (env : Env) : Poll W Json :=
  let daBase := or_else (env !! "DA_BASE") DEFAULT_daBase in
  let endpointLatest :=
    or_else (env !! "DA_ENDPOINT_LATEST") DEFAULT_endpointLatest in
  let endpointRound :=
    or_else (env !! "DA_ENDPOINT_ROUND") DEFAULT_endpointRound in
  let requestPath :=
    or_else (env !! "REQUEST_SUBMISSION_PATH") (defaultRequestPath host) in
  let outPath := or_else (env !! "OUT_PATH") (defaultOutPath host) in
  let maxAttempts := numberEnv rt env "MAX_ATTEMPTS" DEFAULT_maxAttempts in
  let intervalMs := numberEnv rt env "INTERVAL_MS" DEFAULT_intervalMs in
  match readFile host requestPath with
  | None => throw (RequestSubmissionNotFound requestPath)
  | Some text =>
      match JSON_parse rt text with
      | None | Some JNull => throw Thrown
      | Some requestJson =>
          match get requestJson "abiEncodedRequest" with
          | Some (JStr requestBytes) =>
              if String.eqb requestBytes EmptyString
                 || negb (String.prefix "0x" requestBytes)
              then throw (AbiEncodedRequestMissing requestPath)
              else poll rt host env outPath requestBytes daBase endpointLatest
                        endpointRound maxAttempts intervalMs
                        (turns maxAttempts)
          | Some other =>
              if truthy other then throw Thrown
              else throw (AbiEncodedRequestMissing requestPath)
          | None => throw (AbiEncodedRequestMissing requestPath)
          end
      end
  end.

(** The state in which a run starts. *)
Definition start {W} (w : W) : PollState W := mkPollState w [].

End FetchDaProof.

(** What the properties of the fetch script speak of. *)
Module FetchShape.
Import Js DaProofJson FetchDaProof.

(** The POSTs among some requests. *)
Definition posts (rs : list Request) : nat := length (List.filter is_post rs).

(** A step of the script only adds to the log: at most [bound] POSTs, and
    what it adds satisfies [P] when the step returns. *)
Definition adds {W A} (m : Poll W A) (P : A -> list Request -> Prop)
    (bound : nat) : Prop :=
  forall s, exists added,
    requests (snd (m s)) = requests s ++ added /\
    (posts added <= bound)%nat /\
    forall a, fst (m s) = inr a -> P a added.

(** [document] is written around an accepted answer of the layer, and
    writing it to [outPath] is the last thing done. *)
Definition written (requestBytes daBase outPath : string) (document : Json)
    (added : list Request) : Prop :=
  exists votingRoundId endpoint fetchedAtIso data before,
    document = proofDocument votingRoundId requestBytes daBase endpoint
                             fetchedAtIso data /\
    hasNonEmptyProof data = true /\
    added = before ++ [WriteProof outPath document].

(** POSTs in one turn of the outer loop. *)
Definition postsPerTurn (env : Env) : nat :=
  match nonempty (env !! "VOTING_ROUND_ID") with
  | Some _ => 1
  | None => 5
  end.

End FetchShape.

Module FetchFixture.
Import Js DaProofJson FetchDaProof.

(** A runtime that parses the two texts of this example. *)
Definition rt : Runtime :=
  {| Number := Fixture.decimal;
     BigInt := Fixture.decimal;
     Date_parse := fun _ => None;
     JSON_parse := fun s =>
       if String.eqb s "request"
       then Some (JObj [("abiEncodedRequest", JStr "0x5e")])
       else if String.eqb s "proved"
       then Some (JObj [("response", JObj [("votingRound", JNum 1200)]);
                        ("proof", JArr [JStr "0x01"])])
       else None;
     getAddress := Fixture.decimal;
     sha256Hex := fun _ => "0xdef";
     encodeFunctionData := fun _ name _ => Some name;
     walletAddress := Fixture.decimal |}.

(** The world is the number of POSTs so far: the layer has the proof from
    the third POST on. *)
Definition host : Host nat :=
  {| defaultRequestPath := "out/request_submission.json";
     defaultOutPath := "out/da_proof.json";
     readFile := fun path =>
       if String.eqb path "out/request_submission.json"
       then Some "request" else None;
     numberOf := fun v =>
       match v with
       | Some (JNum n) => Some n
       | _ => None
       end;
     getJson := fun _ w => (Some (false, None), w);
     postText := fun _ _ w =>
       (Some (if (2 <=? w)%nat then mkDaAnswer 200 true "proved"
              else mkDaAnswer 404 false "not yet"),
        S w);
     sleep := fun _ w => w;
     writeFile := fun _ _ w => (Some tt, w);
     now := fun _ => "2026-02-07T00:00:00.000Z" |}.

Definition env : Env := {[ "VOTING_ROUND_ID" := "1200" ]}.

End FetchFixture.

(** * Properties *)

(** ** The model on small inputs *)

Module Examples.
Import Js Errors CheckAttestation RewardFlow.

Example trim_lower : toLowerCase (trim "  Simulation ") = "simulation".
Proof. reflexivity. Qed.

Example split_keeps_empty_chunks :
  split "/" "a//b/" = ["a"; EmptyString; "b"; EmptyString].
Proof. reflexivity. Qed.

Example split_of_empty : split "/" EmptyString = [EmptyString].
Proof. reflexivity. Qed.

Example marker_first_occurrence :
  String.index 0 marker "abc/intensity/x/intensity/" = Some 3%nat.
Proof. reflexivity. Qed.

Example range_of_fixture_url :
  parseRequestRange Fixture.rt Fixture.url_ok =
  Some (mkRange "2024-01-01T00:00Z" "2024-01-02T00:00Z"
                1704067200000 1704153600000 true).
Proof. reflexivity. Qed.

Example range_needs_two_segments :
  parseRequestRange Fixture.rt "https://api/intensity/2024-01-01T00:00Z" = None.
Proof. reflexivity. Qed.

Example use_simulation_wins :
  AttestationMode.getAttestationMode
    {[ "USE_SIMULATION" := " Yes "; "ATTESTATION_MODE" := "real" ]}
  = AttestationMode.simulation.
Proof. vm_compute. reflexivity. Qed.

Example real_by_default :
  AttestationMode.getAttestationMode ∅ = AttestationMode.real.
Proof. vm_compute. reflexivity. Qed.

Example simulation_mode_is_refused :
  exists e,
    runRewardFlow Fixture.rt (<["USE_SIMULATION" := "1"]> Fixture.env_execute)
      (Fixture.provider 120 (inr true) (inr true)) (Fixture.files None)
      (ExecutorNode.client Fixture.node) (start Fixture.ledger7)
    = (inl (RealModeRequired e), start Fixture.ledger7).
Proof. eexists. vm_compute. reflexivity. Qed.

Example live_run_records_once :
  let run :=
    runRewardFlow Fixture.rt Fixture.env_execute
      (Fixture.provider 120 (inr true) (inr true)) (Fixture.files None)
      (ExecutorNode.client Fixture.node) (start Fixture.ledger7) in
  fst run = inr (LiveOutcome (Fixture.report 120) (Some "0x4e") (Some 120)) /\
  ledger (snd run) = Fixture.ledger_recorded.
Proof. vm_compute. split; reflexivity. Qed.

Example chain_mismatch_aborts :
  checkAttestation Fixture.rt (<["FLARE_CHAIN_ID" := "16"]> Fixture.env_execute)
    (Fixture.provider 120 (inr true) (inr true)) (Fixture.files None)
  = inl (ChainIdMismatch 16 114).
Proof. vm_compute. reflexivity. Qed.

End Examples.

(** ** The recorder contract *)

Module RewardExecutorFacts.
Import RewardExecutor.

Ltac unfold_calls :=
  unfold deploy, call, executeReward, setOwner, constructor, onlyOwner,
    require, mbind, result_bind in *.

Lemma executed_insert_eq (m : gmap Z bool) (o : address) (h : bytes32) :
  executed (mkState o (<[h := true]> m)) h = true.
Proof. unfold executed; simpl. by rewrite lookup_insert_eq. Qed.

Lemma executed_insert_ne (m : gmap Z bool) (o : address) (h h' : bytes32) :
  h ≠ h' ->
  executed (mkState o (<[h := true]> m)) h' = executed (mkState o m) h'.
Proof. intros Hne. unfold executed; simpl. by rewrite lookup_insert_ne. Qed.

(** What a successful [executeReward] did. *)
Lemma executeReward_inr sender h p s part kw st st' evs :
  executeReward sender h p s part kw st = inr (st', evs) ->
  sender = owner st /\ executed st h = false /\
  st' = mkState (owner st) (<[h := true]> (executedAttestations st)) /\
  evs = [mkRewardExecuted h p s part kw].
Proof.
  unfold_calls.
  destruct (sender =? owner st) eqn:Hs; simpl; [|discriminate].
  destruct (executed st h) eqn:He; simpl; [discriminate|].
  intros [= <- <-]. apply Z.eqb_eq in Hs. auto.
Qed.

Lemma executeReward_not_owner sender h p s part kw st :
  sender ≠ owner st ->
  executeReward sender h p s part kw st = inl NotOwner.
Proof.
  intros Hne. unfold_calls.
  destruct (sender =? owner st) eqn:Hs; [|reflexivity].
  apply Z.eqb_eq in Hs. contradiction.
Qed.

Lemma executeReward_executed sender h p s part kw st :
  executed st h = true ->
  exists r, executeReward sender h p s part kw st = inl r.
Proof.
  intros He. unfold_calls.
  destruct (sender =? owner st); simpl; [|eauto].
  rewrite He. simpl. eauto.
Qed.

Lemma setOwner_inr sender o st st' :
  setOwner sender o st = inr st' ->
  sender = owner st /\ o ≠ zero_address /\
  st' = mkState o (executedAttestations st).
Proof.
  unfold_calls.
  destruct (sender =? owner st) eqn:Hs; simpl; [|discriminate].
  destruct (o =? zero_address) eqn:Ho; simpl; [discriminate|].
  intros [= <-]. apply Z.eqb_eq in Hs. apply Z.eqb_neq in Ho. auto.
Qed.

Lemma records_app h evs evs' :
  records h (evs ++ evs') = records h evs ++ records h evs'.
Proof. unfold records. apply List.filter_app. Qed.

Lemma records_single h h' p s part kw :
  records h [mkRewardExecuted h' p s part kw] =
  if h' =? h then [mkRewardExecuted h' p s part kw] else [].
Proof. unfold records. simpl. destruct (h' =? h); reflexivity. Qed.

Lemma deploy_consistent o l : deploy o = inr l -> consistent l.
Proof.
  unfold_calls. destruct (o =? zero_address) eqn:Ho; simpl; [discriminate|].
  intros [= <-]. apply Z.eqb_neq in Ho. split; [exact Ho|].
  intros h. reflexivity.
Qed.

Lemma step_consistent l c : consistent l -> consistent (step l c).
Proof.
  intros [Hown Hrec]. unfold step.
  destruct (call l c) as [r|l'] eqn:Hc; [split; assumption|].
  destruct c as [sender o|sender h p s part kw]; simpl in Hc.
  - destruct (setOwner sender o (storage l)) as [r|st'] eqn:Hs;
      simpl in Hc; [discriminate|].
    injection Hc as <-. apply setOwner_inr in Hs as (_ & Ho & ->).
    split; [exact Ho|]. intros h. apply Hrec.
  - destruct (executeReward sender h p s part kw (storage l))
      as [r|[st' evs]] eqn:He; simpl in Hc; [discriminate|].
    injection Hc as <-.
    apply executeReward_inr in He as (_ & Hfresh & -> & ->).
    split; [exact Hown|]. intros h'. simpl.
    rewrite records_app, length_app, records_single, Hrec.
    destruct (Z.eq_dec h h') as [<-|Hne].
    + rewrite Z.eqb_refl, executed_insert_eq, Hfresh. reflexivity.
    + rewrite executed_insert_ne by exact Hne.
      apply Z.eqb_neq in Hne. rewrite Hne. simpl.
      destruct (storage l); simpl. lia.
Qed.

Lemma run_consistent cs : forall l, consistent l -> consistent (run l cs).
Proof.
  induction cs as [|c cs IH]; intros l Hl; [exact Hl|].
  simpl. apply IH, step_consistent, Hl.
Qed.

(** A flag that is set stays set. *)
Lemma step_executed l c h :
  executed (storage l) h = true -> executed (storage (step l c)) h = true.
Proof.
  intros Hex. unfold step.
  destruct (call l c) as [r|l'] eqn:Hc; [exact Hex|].
  destruct c as [sender o|sender h' p s part kw]; simpl in Hc.
  - destruct (setOwner sender o (storage l)) as [r|st'] eqn:Hs;
      simpl in Hc; [discriminate|].
    injection Hc as <-. apply setOwner_inr in Hs as (_ & _ & ->). exact Hex.
  - destruct (executeReward sender h' p s part kw (storage l))
      as [r|[st' evs]] eqn:He; simpl in Hc; [discriminate|].
    injection Hc as <-.
    apply executeReward_inr in He as (_ & _ & -> & _). simpl.
    destruct (Z.eq_dec h' h) as [->|Hne].
    + apply executed_insert_eq.
    + rewrite executed_insert_ne by exact Hne.
      destruct (storage l); exact Hex.
Qed.

Lemma run_executed cs h : forall l,
  executed (storage l) h = true -> executed (storage (run l cs)) h = true.
Proof.
  induction cs as [|c cs IH]; intros l Hl; [exact Hl|].
  simpl. apply IH, step_executed, Hl.
Qed.

End RewardExecutorFacts.

(** ** Replay protection and access control of the recorder *)

Section Recorder.
Import RewardExecutor RewardExecutorFacts.

(** C2: at most one reward record per attestation transaction hash.  On a
    deployed recorder, after any sequence of calls (any interleaving of
    retried or concurrent attempts), an attestation hash has at most one
    [RewardExecuted] event, and has one exactly when its flag is set; a
    successful [executeReward] finds the flag clear, sets it and emits one
    event; once the flag is set every later [executeReward] for that hash
    reverts and leaves the ledger as it is, with exactly one record. *)
Theorem at_most_one_reward_record
    (o : address) (l0 : Ledger) (cs : list Call) (h : bytes32) :
  deploy o = inr l0 ->
  let l := run l0 cs in
  (length (records h (events l)) <= 1)%nat /\
  (length (records h (events l)) = 1%nat <-> executed (storage l) h = true) /\
  (forall sender p s part kw l',
      call l (CallExecuteReward sender h p s part kw) = inr l' ->
      executed (storage l) h = false /\
      executed (storage l') h = true /\
      events l' = events l ++ [mkRewardExecuted h p s part kw] /\
      length (records h (events l')) = 1%nat) /\
  (executed (storage l) h = true ->
   forall sender p s part kw cs',
     let later := run l cs' in
     (exists r, call later (CallExecuteReward sender h p s part kw) = inl r) /\
     step later (CallExecuteReward sender h p s part kw) = later /\
     length (records h (events later)) = 1%nat).
Proof.
  intros Hdep l.
  assert (Hl : consistent l) by (apply run_consistent, (deploy_consistent o), Hdep).
  destruct Hl as [Hown Hrec].
  split; [|split; [|split]].
  - rewrite Hrec. destruct (executed (storage l) h); lia.
  - rewrite Hrec. destruct (executed (storage l) h); split; congruence.
  - intros sender p s part kw l' Hcall. simpl in Hcall.
    destruct (executeReward sender h p s part kw (storage l))
      as [r|[st' evs]] eqn:He; simpl in Hcall; [discriminate|].
    injection Hcall as <-.
    apply executeReward_inr in He as (_ & Hfresh & -> & ->). simpl.
    split; [exact Hfresh|]. split; [apply executed_insert_eq|].
    split; [reflexivity|].
    rewrite records_app, length_app, records_single, Z.eqb_refl, Hrec, Hfresh.
    reflexivity.
  - intros Hex sender p s part kw cs' later.
    assert (Hex' : executed (storage later) h = true)
      by (apply run_executed, Hex).
    assert (Hlater : consistent later)
      by (apply run_consistent; split; assumption).
    destruct (executeReward_executed sender h p s part kw _ Hex') as [r Hr].
    assert (Hcall : call later (CallExecuteReward sender h p s part kw) = inl r)
      by (simpl; rewrite Hr; reflexivity).
    split; [eauto|]. split.
    + unfold step. rewrite Hcall. reflexivity.
    + destruct Hlater as [_ Hrec']. rewrite Hrec', Hex'. reflexivity.
Qed.

Lemma at_most_one_reward_record_witness :
  deploy 7 = inr Fixture.ledger7 /\
  length (records 1 (events (run Fixture.ledger7 Fixture.twice))) = 1%nat.
Proof.
  split; [reflexivity|].
  apply (at_most_one_reward_record 7 Fixture.ledger7 Fixture.twice 1);
    reflexivity.
Defined.

(** C10: [executeReward] is owner-restricted.  For a caller other than the
    stored owner the call reverts with "not owner" and the transaction
    leaves the ledger (owner, [executedAttestations], events) as it was; a
    call that succeeds came from the owner; the constructor and [setOwner]
    reject the zero address, so on a deployed recorder the owner is never
    the zero address, whatever calls have been made. *)
Theorem executeReward_owner_only :
  (forall l sender h p s part kw,
      sender <> owner (storage l) ->
      executeReward sender h p s part kw (storage l) = inl NotOwner /\
      step l (CallExecuteReward sender h p s part kw) = l) /\
  (forall st sender h p s part kw st' evs,
      executeReward sender h p s part kw st = inr (st', evs) ->
      sender = owner st) /\
  constructor zero_address = inl OwnerIsZero /\
  (forall sender st, exists r, setOwner sender zero_address st = inl r) /\
  (forall o l0 cs,
      deploy o = inr l0 -> owner (storage (run l0 cs)) <> zero_address).
Proof.
  split; [|split; [|split; [|split]]].
  - intros l sender h p s part kw Hne.
    pose proof (executeReward_not_owner sender h p s part kw _ Hne) as Hr.
    split; [exact Hr|]. unfold step. simpl. rewrite Hr. reflexivity.
  - intros st sender h p s part kw st' evs He.
    apply executeReward_inr in He. tauto.
  - reflexivity.
  - intros sender st. unfold_calls.
    destruct (sender =? owner st); simpl; eauto.
  - intros o l0 cs Hdep.
    apply (run_consistent cs l0), (deploy_consistent o), Hdep.
Qed.

Lemma executeReward_owner_only_witness :
  8 <> owner (storage Fixture.ledger7) /\
  deploy 7 = inr Fixture.ledger7 /\
  step Fixture.ledger7 (CallExecuteReward 8 1 2 3 4 5) = Fixture.ledger7 /\
  owner (storage (run Fixture.ledger7 Fixture.twice)) <> zero_address.
Proof.
  assert (Hne : 8 <> owner (storage Fixture.ledger7)) by (simpl; lia).
  assert (Hdep : deploy 7 = inr Fixture.ledger7) by reflexivity.
  destruct executeReward_owner_only as (Hother & _ & _ & _ & Hzero).
  split; [exact Hne|]. split; [exact Hdep|]. split.
  - exact (proj2 (Hother Fixture.ledger7 8 1 2 3 4 5 Hne)).
  - exact (Hzero 7 Fixture.ledger7 Fixture.twice Hdep).
Defined.

End Recorder.

(** ** The checker *)

Module CheckAttestationFacts.
Import Js Errors CheckAttestation.

Lemma bind_inr {A B} (m : Result A) (k : A -> Result B) (b : B) :
  m ≫= k = inr b -> exists a, m = inr a /\ k a = inr b.
Proof. destruct m as [e|a]; simpl; [discriminate|]. eauto. Qed.

Lemma await_inr {A} (r : Rpc_ A) (a : A) : await r = inr a -> r = inr a.
Proof. destruct r; simpl; congruence. Qed.

Lemma must_inr {A} (v : option A) (e : Error) (a : A) :
  must v e = inr a -> v = Some a.
Proof. destruct v; simpl; congruence. Qed.

Lemma throwIf_inr (c : bool) (e : Error) (u : unit) :
  throwIf c e = inr u -> c = false.
Proof. destruct c; simpl; [discriminate|reflexivity]. Qed.

Lemma assertRealMode_inr env context u :
  assertRealMode env context = inr u ->
  AttestationMode.getAttestationMode env = AttestationMode.real.
Proof.
  unfold assertRealMode.
  destruct (AttestationMode.getAttestationMode env); [discriminate|reflexivity].
Qed.

Ltac invert_binds H :=
  repeat (apply bind_inr in H; destruct H as (? & ? & H); cbv zeta in H).

(** What a report that was produced says, in terms of what was read. *)
Lemma checkAttestation_inr rt env p fs att :
  checkAttestation rt env p fs = inr att ->
  exists receipt latestBlock proofPayload blockTs verification,
    AttestationMode.getAttestationMode env = AttestationMode.real /\
    txHashOf env fs = Some (txHash att) /\
    getTransactionReceipt p (txHash att) = inr (Some receipt) /\
    getBlockNumber p = inr latestBlock /\
    daProof fs = Some (Some proofPayload) /\
    getBlock p (receipt_blockNumber receipt) = inr blockTs /\
    snd (proofValidity p (buildVerifyJsonApiProof proofPayload)
                       (buildVerifyWeb2JsonProof proofPayload))
      = inr verification /\
    blockNumber att = receipt_blockNumber receipt /\
    confirmationsRequired att = confirmationsRequiredOf rt env /\
    confirmations att = confirmationsOf latestBlock (receipt_blockNumber receipt) /\
    confirmed att =
      Some (confirmedOf (confirmations att) (confirmationsRequiredOf rt env)) /\
    verificationPassed att = Some (v_verificationPassed verification) /\
    verificationFunction att = v_verificationFunction verification /\
    payloadHash att =
      validatePayloadHash rt (apiResponse fs) (nonempty (env !! "EXPECTED_MIC"))
                          (requestSubmission fs) /\
    payloadHashValid_ att = Some (payloadHashValid (payloadHash att)) /\
    lowestUsedTimestamp att =
      default 0 (request_lowestUsedTimestamp proofPayload) /\
    blockTimestamp att = blockTs /\
    requestTimestampRange att =
      parseRequestRange rt (or_else (requestBody_url proofPayload) EmptyString) /\
    timestampValid att =
      Some (timestampValidOf (lowestUsedTimestamp att) (blockTimestamp att)
                             (requestTimestampRange att)).
Proof.
  intros H. unfold checkAttestation in H. invert_binds H.
  injection H as <-. simpl.
  repeat match goal with
         | E : await _ = inr _ |- _ => apply await_inr in E
         | E : must _ _ = inr _ |- _ => apply must_inr in E
         | E : assertRealMode _ _ = inr _ |- _ => apply assertRealMode_inr in E
         end.
  match goal with
  | E : (if ?tx then ?r else None) = Some _ |- _ =>
      destruct tx; [|discriminate]
  end.
  subst. do 5 eexists. repeat split; eauto.
Qed.

End CheckAttestationFacts.

(** ** Confirmation depth, payload integrity, time window, proof validity *)

Section Evaluators.
Import Js Errors CheckAttestation CheckAttestationFacts.

(** C7: the confirmations of a report are
    [currentHeight - blockHeight + 1], the required count is the one
    configured and 12 when none is, and the confirmation-depth verdict is
    true exactly when [confirmations >= required]; at block 100, height 105
    and 12 required confirmations that gives 6 and the verdict false. *)
Theorem confirmation_depth
    (rt : Runtime) (env : Env) (p : Provider) (fs : Files) (att : Attestation) :
  checkAttestation rt env p fs = inr att ->
  (exists receipt latestBlock,
      getTransactionReceipt p (txHash att) = inr (Some receipt) /\
      getBlockNumber p = inr latestBlock /\
      confirmations att = latestBlock - receipt_blockNumber receipt + 1) /\
  confirmationsRequired att = confirmationsRequiredOf rt env /\
  (nonempty (env !! "CONFIRMATIONS") = None ->
   confirmationsRequired att = Some 12) /\
  (forall required, confirmationsRequired att = Some required ->
     (confirmed att = Some true <-> confirmations att >= required) /\
     (confirmed att = Some false <-> confirmations att < required)) /\
  (confirmationsRequired att = None -> confirmed att = Some false) /\
  (confirmationsOf 105 100 = 6 /\
   confirmedOf (confirmationsOf 105 100) (Some 12) = false).
Proof.
  intros H.
  apply checkAttestation_inr in H
    as (receipt & latestBlock & pp & ts & v & _ & _ & Hrec & Hlatest & _ & _
        & _ & _ & Hreq & Hconf & Hconfirmed & _).
  split; [exists receipt, latestBlock; auto|].
  split; [exact Hreq|].
  split.
  { intros Hnone. rewrite Hreq. unfold confirmationsRequiredOf.
    rewrite Hnone. reflexivity. }
  split.
  { intros required Hr. rewrite Hconfirmed, <- Hreq, Hr.
    unfold confirmedOf, ge.
    destruct (required <=? confirmations att) eqn:Hle.
    - apply Z.leb_le in Hle. split; split; intros; try lia; congruence.
    - apply Z.leb_gt in Hle. split; split; intros; try lia; congruence. }
  split.
  { intros Hnan. rewrite Hconfirmed, <- Hreq, Hnan. reflexivity. }
  split; reflexivity.
Qed.

Lemma confirmation_depth_witness :
  checkAttestation Fixture.rt Fixture.env_default
    (Fixture.provider 105 (inr true) (inr true)) (Fixture.files None)
  = inr (Fixture.report 105) /\
  confirmations (Fixture.report 105) = 6 /\
  (confirmed (Fixture.report 105) = Some false <->
   confirmations (Fixture.report 105) < 12).
Proof.
  assert (H : checkAttestation Fixture.rt Fixture.env_default
                (Fixture.provider 105 (inr true) (inr true))
                (Fixture.files None)
              = inr (Fixture.report 105)) by (vm_compute; reflexivity).
  split; [exact H|]. split; [reflexivity|].
  destruct (confirmation_depth _ _ _ _ _ H) as (_ & _ & _ & Hiff & _).
  exact (proj2 (Hiff 12 eq_refl)).
Defined.

Lemma eqb_lower_false (a b : string) :
  toLowerCase a <> toLowerCase b ->
  String.eqb (toLowerCase a) (toLowerCase b) = false.
Proof. intros Hne. apply String.eqb_neq, Hne. Qed.

(** C8: the payload-integrity verdict is true exactly when no comparison
    that was made disagrees.  When the data file is there and an expected
    digest is supplied, or a digest was recorded at submission, the
    recomputed digest is compared with it (as hexadecimal text, letter case
    apart) and a difference makes the verdict false, which blocks the
    reward flow whatever the other verdicts are; without the file, or with
    neither digest to compare with, no comparison is made and the verdict is
    true. *)
Theorem payload_integrity
    (rt : Runtime) (apiResponse expectedMic : option string)
    (submissionData : option Submission) :
  let recorded := submissionData ≫= (fun d => nonempty (sub_computedMic d)) in
  let r := validatePayloadHash rt apiResponse expectedMic submissionData in
  (payloadHashValid r = true <->
   micMatchesExpected r <> Some false /\ micMatchesSubmission r <> Some false) /\
  (forall bytes e,
      apiResponse = Some bytes -> nonempty expectedMic = Some e ->
      micMatchesExpected r =
        Some (String.eqb (toLowerCase (sha256Hex rt bytes)) (toLowerCase e)) /\
      (toLowerCase (sha256Hex rt bytes) <> toLowerCase e ->
       payloadHashValid r = false)) /\
  (forall bytes m,
      apiResponse = Some bytes -> recorded = Some m ->
      micMatchesSubmission r =
        Some (String.eqb (toLowerCase (sha256Hex rt bytes)) (toLowerCase m)) /\
      (toLowerCase (sha256Hex rt bytes) <> toLowerCase m ->
       payloadHashValid r = false)) /\
  (nonempty expectedMic = None -> micMatchesExpected r = None) /\
  (recorded = None -> micMatchesSubmission r = None) /\
  (apiResponse = None ->
   micMatchesExpected r = None /\ micMatchesSubmission r = None) /\
  (nonempty expectedMic = None -> recorded = None ->
   payloadHashValid r = true) /\
  (forall required att,
      payloadHashValid_ att = Some false ->
      exists e, RewardFlow.gate required att = inl e).
Proof.
  intros recorded r. subst r recorded. unfold validatePayloadHash. simpl.
  split.
  { destruct apiResponse, (nonempty expectedMic),
      (submissionData ≫= (fun d => nonempty (sub_computedMic d)));
      simpl; repeat match goal with |- context [String.eqb ?a ?b] =>
                      destruct (String.eqb a b) end;
      simpl; intuition congruence. }
  split.
  { intros bytes e -> ->. simpl. split; [reflexivity|].
    intros Hne. rewrite (eqb_lower_false _ _ Hne). reflexivity. }
  split.
  { intros bytes m -> ->. simpl. split; [reflexivity|].
    intros Hne. rewrite (eqb_lower_false _ _ Hne).
    destruct (nonempty expectedMic); simpl; [|reflexivity].
    destruct (String.eqb _ _); reflexivity. }
  split.
  { intros ->. destruct apiResponse; reflexivity. }
  split.
  { intros ->. destruct apiResponse; reflexivity. }
  split.
  { intros ->. split; reflexivity. }
  split.
  { intros -> ->. destruct apiResponse; reflexivity. }
  intros required att Hfalse. unfold RewardFlow.gate.
  destruct (truthy_tri (verificationPassed att)); simpl; [|eauto].
  destruct (negb (truthy_tri (confirmed att))
            || lt (confirmations att) required); simpl; [eauto|].
  rewrite Hfalse. simpl. eauto.
Qed.

Lemma payload_integrity_witness :
  nonempty (Some "0xabc") = Some "0xabc" /\
  toLowerCase (sha256Hex Fixture.rt "{}") <> toLowerCase "0xabc" /\
  payloadHashValid
    (validatePayloadHash Fixture.rt (Some "{}") (Some "0xabc") None) = false.
Proof.
  assert (Hne : toLowerCase (sha256Hex Fixture.rt "{}") <> toLowerCase "0xabc")
    by (vm_compute; discriminate).
  split; [reflexivity|]. split; [exact Hne|].
  destruct (payload_integrity Fixture.rt (Some "{}") (Some "0xabc") None)
    as (_ & Hexp & _).
  exact (proj2 (Hexp "{}" "0xabc" eq_refl eq_refl) Hne).
Defined.

Lemma parseRequestRange_Some rt url r :
  parseRequestRange rt url = Some r ->
  exists idx c0 c1 rest,
    String.index 0 marker url = Some idx /\
    split "/" (slice (idx + String.length marker) url) = c0 :: c1 :: rest /\
    Date_parse rt c0 = Some (startMs r) /\
    Date_parse rt c1 = Some (endMs r) /\
    valid r = (startMs r <? endMs r).
Proof.
  unfold parseRequestRange.
  destruct (String.index 0 marker url) as [idx|]; [|discriminate].
  destruct (split "/" (slice (idx + String.length marker) url))
    as [|c0 [|c1 rest]] eqn:Hseg; try discriminate.
  destruct (Date_parse rt c0) as [start|] eqn:Hs; [|discriminate].
  destruct (Date_parse rt c1) as [end_|] eqn:He; [|discriminate].
  intros [= <-]. simpl. exists idx, c0, c1, rest. auto.
Qed.

(** C9: the time-window verdict is the conjunction of (a) the lower bound is
    zero or the block time stamp is at or after it and (b) the range found
    in the request URL, if one is found, has its end strictly after its
    start.  No range is found when the marker is missing, when fewer than
    two segments follow it or when a date does not parse, and then (b)
    holds; (b) fails only for a range whose end is not after its start. *)
Theorem time_window (rt : Runtime) (lowest blockTs : Z) (url : string) :
  let range := parseRequestRange rt url in
  let segments idx := split "/" (slice (idx + String.length marker) url) in
  (timestampValidOf lowest blockTs range = true <->
   (lowest = 0 \/ blockTs >= lowest) /\
   (forall r, range = Some r -> endMs r > startMs r)) /\
  (String.index 0 marker url = None -> range = None) /\
  (forall idx,
      String.index 0 marker url = Some idx ->
      (length (segments idx) < 2)%nat -> range = None) /\
  (forall idx c0 c1 rest,
      String.index 0 marker url = Some idx ->
      segments idx = c0 :: c1 :: rest ->
      Date_parse rt c0 = None \/ Date_parse rt c1 = None -> range = None) /\
  (forall idx c0 c1 rest start end_,
      String.index 0 marker url = Some idx ->
      segments idx = c0 :: c1 :: rest ->
      Date_parse rt c0 = Some start -> Date_parse rt c1 = Some end_ ->
      range = Some (mkRange c0 c1 start end_ (start <? end_))) /\
  (range = None ->
   (timestampValidOf lowest blockTs range = true <->
    lowest = 0 \/ blockTs >= lowest)) /\
  (timestampValidOf lowest blockTs range = false <->
   (lowest <> 0 /\ blockTs < lowest) \/
   (exists r, range = Some r /\ endMs r <= startMs r)) /\
  (forall env p fs att,
      checkAttestation rt env p fs = inr att ->
      exists proofPayload,
        daProof fs = Some (Some proofPayload) /\
        getBlock p (blockNumber att) = inr (blockTimestamp att) /\
        timestampValid att =
          Some (timestampValidOf
                  (default 0 (request_lowestUsedTimestamp proofPayload))
                  (blockTimestamp att)
                  (parseRequestRange rt
                     (or_else (requestBody_url proofPayload) EmptyString)))).
Proof.
  intros range segments.
  assert (Hvalid : forall r, range = Some r -> valid r = (startMs r <? endMs r)).
  { intros r Hr. apply parseRequestRange_Some in Hr
      as (? & ? & ? & ? & _ & _ & _ & _ & Hv). exact Hv. }
  assert (Hbound : (lowest =? 0) || (lowest <=? blockTs) = true <->
                   lowest = 0 \/ blockTs >= lowest).
  { rewrite orb_true_iff, Z.eqb_eq, Z.leb_le. lia. }
  split.
  { unfold timestampValidOf. rewrite andb_true_iff, Hbound.
    destruct range as [r|] eqn:Hrange.
    - rewrite (Hvalid r eq_refl), Z.ltb_lt. split.
      + intros [Hb Hlt]. split; [exact Hb|]. intros r' [= <-]. lia.
      + intros [Hb Hall]. split; [exact Hb|]. specialize (Hall r eq_refl). lia.
    - split; [|tauto]. intros [Hb _]. split; [exact Hb|]. discriminate. }
  split.
  { intros Hidx. subst range. unfold parseRequestRange. rewrite Hidx.
    reflexivity. }
  split.
  { intros idx Hidx Hlen. subst range segments. unfold parseRequestRange.
    rewrite Hidx. cbv beta in Hlen.
    destruct (split "/" (slice (idx + String.length marker) url))
      as [|c0 [|c1 rest]]; try reflexivity. simpl in Hlen. lia. }
  split.
  { intros idx c0 c1 rest Hidx Hseg Hnan. subst range segments.
    unfold parseRequestRange. rewrite Hidx. cbv beta in Hseg. rewrite Hseg.
    destruct Hnan as [-> | ->]; [reflexivity|].
    destruct (Date_parse rt c0); reflexivity. }
  split.
  { intros idx c0 c1 rest start end_ Hidx Hseg Hs He. subst range segments.
    unfold parseRequestRange. rewrite Hidx. cbv beta in Hseg.
    rewrite Hseg, Hs, He. reflexivity. }
  split.
  { intros ->. unfold timestampValidOf. rewrite andb_true_r. exact Hbound. }
  split.
  { unfold timestampValidOf. rewrite andb_false_iff.
    rewrite <- not_true_iff_false, Hbound.
    destruct range as [r|] eqn:Hrange.
    - rewrite (Hvalid r eq_refl), Z.ltb_ge. split.
      + intros [Hb | Hle]; [left; lia | right; eauto].
      + intros [Hb | (r' & [= <-] & Hle)]; [left; lia | right; exact Hle].
    - split.
      + intros [Hb | Hf]; [left; lia | discriminate].
      + intros [Hb | (r' & Hr & _)]; [left; lia | discriminate]. }
  intros env p fs att H.
  apply checkAttestation_inr in H
    as (receipt & latestBlock & pp & ts & v & _ & _ & _ & _ & Hproof & Hblock
        & _ & Hbn & _ & _ & _ & _ & _ & _ & _ & Hlow & Hts & Hrange & Hvalid').
  exists pp. split; [exact Hproof|].
  split; [rewrite Hbn, Hts; exact Hblock|].
  rewrite Hvalid', Hlow, Hrange. reflexivity.
Qed.

Lemma time_window_witness :
  String.index 0 marker Fixture.url_inverted = Some 11%nat /\
  timestampValidOf 1000 2000
    (parseRequestRange Fixture.rt Fixture.url_inverted) = false.
Proof.
  assert (Hidx : String.index 0 marker Fixture.url_inverted = Some 11%nat)
    by reflexivity.
  split; [exact Hidx|].
  destruct (time_window Fixture.rt 1000 2000 Fixture.url_inverted)
    as (_ & _ & _ & _ & Hrange & _ & Hfalse & _).
  apply (proj2 Hfalse). right.
  exists (mkRange "2024-01-02T00:00Z" "2024-01-01T00:00Z"
                  1704153600000 1704067200000 false).
  split.
  - exact (Hrange 11%nat "2024-01-02T00:00Z" "2024-01-01T00:00Z" []
                  1704153600000 1704067200000 Hidx eq_refl eq_refl eq_refl).
  - simpl. lia.
Defined.

(** C4, as worded, fails: a network error of the primary attempt is not
    thrown on, the secondary signature is tried and its answer taken. *)
Lemma fallback_on_network_error :
  ~ Claimed.fallback_only_on_mismatch
      (Fixture.provider 120 (inl NetworkError) (inr true))
      (buildVerifyJsonApiProof Fixture.payload)
      (buildVerifyWeb2JsonProof Fixture.payload).
Proof.
  intros (_ & _ & Hother).
  specialize (Hother NetworkError eq_refl). simpl in Hother.
  assert (Hne : NetworkError <> BadData) by discriminate.
  specialize (Hother Hne). discriminate Hother.
Qed.

(** C4, amended: the primary signature ([verifyJsonApi]) is tried first;
    when it answers, true or false, the answer stands and nothing else is
    called; when it fails in any way (a decoding mismatch, a network error
    or anything else) the secondary signature ([verifyWeb2Json]) is tried,
    and its answer is taken; when that fails too, the error of the primary
    attempt is thrown.  The report carries the answer and the name of the
    function that gave it. *)
Theorem proof_validity_fallback
    (p : Provider) (a : JsonApiProof) (b : Web2JsonProof) :
  (exists rest, fst (proofValidity p a b) = "verifyJsonApi" :: rest) /\
  (forall v, verifyJsonApi p a = inr v ->
     proofValidity p a b =
       (["verifyJsonApi"], ok (mkVerification v "verifyJsonApi" None))) /\
  (forall err, verifyJsonApi p a = inl err ->
     fst (proofValidity p a b) = ["verifyJsonApi"; "verifyWeb2Json"] /\
     (forall v, verifyWeb2Json p b = inr v ->
        snd (proofValidity p a b) =
          ok (mkVerification v "verifyWeb2Json" None)) /\
     (forall err2, verifyWeb2Json p b = inl err2 ->
        snd (proofValidity p a b) = throw (Rpc err))) /\
  (forall rt env fs att,
     checkAttestation rt env p fs = inr att ->
     exists proofPayload v,
       daProof fs = Some (Some proofPayload) /\
       snd (proofValidity p (buildVerifyJsonApiProof proofPayload)
                          (buildVerifyWeb2JsonProof proofPayload)) = inr v /\
       verificationPassed att = Some (v_verificationPassed v) /\
       verificationFunction att = v_verificationFunction v).
Proof.
  unfold proofValidity. split; [|split; [|split]].
  - destruct (verifyJsonApi p a); [destruct (verifyWeb2Json p b)|];
      simpl; eauto.
  - intros v ->. reflexivity.
  - intros err ->. split; [destruct (verifyWeb2Json p b); reflexivity|].
    split; [intros v ->|intros err2 ->]; reflexivity.
  - intros rt env fs att H.
    apply checkAttestation_inr in H
      as (receipt & latestBlock & pp & ts & v & _ & _ & _ & _ & Hproof & _
          & Hv & _ & _ & _ & _ & Hpassed & Hfun & _).
    exists pp, v. auto.
Qed.

Lemma proof_validity_fallback_witness :
  verifyJsonApi (Fixture.provider 120 (inl TimedOut) (inr true))
    (buildVerifyJsonApiProof Fixture.payload) = inl TimedOut /\
  proofValidity (Fixture.provider 120 (inl TimedOut) (inr true))
    (buildVerifyJsonApiProof Fixture.payload)
    (buildVerifyWeb2JsonProof Fixture.payload) =
  (["verifyJsonApi"; "verifyWeb2Json"],
   ok (mkVerification true "verifyWeb2Json" None)).
Proof.
  pose (p := Fixture.provider 120 (inl TimedOut) (inr true)).
  pose (a := buildVerifyJsonApiProof Fixture.payload).
  pose (b := buildVerifyWeb2JsonProof Fixture.payload).
  assert (H : verifyJsonApi p a = inl TimedOut) by reflexivity.
  split; [exact H|].
  destruct (proof_validity_fallback p a b) as (_ & _ & Herr & _).
  destruct (Herr TimedOut H) as (Hcalls & Hok & _).
  specialize (Hok true eq_refl).
  change (proofValidity p a b =
          (["verifyJsonApi"; "verifyWeb2Json"],
           ok (mkVerification true "verifyWeb2Json" None))).
  destruct (proofValidity p a b) as [calls outcome].
  simpl in Hcalls, Hok. rewrite Hcalls, Hok. reflexivity.
Defined.

End Evaluators.

(** ** The reward flow *)

Module RewardFlowFacts.
Import Js Errors CheckAttestation RewardFlow.

Lemma extend_nil {L} (s : FlowState L) : extend s [] = s.
Proof. destruct s. unfold extend. simpl. by rewrite app_nil_r. Qed.

Lemma extend_extend {L} (s : FlowState L) (a b : list Step) :
  extend (extend s a) b = extend s (a ++ b).
Proof. unfold extend. simpl. by rewrite app_assoc. Qed.

Lemma all_steps_app q a b :
  all_steps q a -> all_steps q b -> all_steps q (a ++ b).
Proof. unfold all_steps. intros. by apply Forall_app. Qed.

Lemma estimate_quiet steps : all_steps is_estimate steps -> quiet_steps steps.
Proof.
  unfold quiet_steps, all_steps. apply List.Forall_impl.
  intros st. destruct st; simpl; intros H; first [reflexivity | discriminate H].
Qed.

Lemma quiet_not_sent steps tx : quiet_steps steps -> ~ In (StepSend tx) steps.
Proof.
  unfold quiet_steps, all_steps. rewrite Forall_forall.
  intros Hq Hin. apply list_elem_of_In in Hin. specialize (Hq _ Hin).
  discriminate.
Qed.

Lemma yields_lift {A} q (r : Result A) :
  yields q (fun _ => True) (fun L _ => lift (L:=L) r).
Proof.
  exists [], r. split; [constructor|]. split; [trivial|]. intros.
  unfold lift. by rewrite extend_nil.
Qed.

Lemma yields_pure {A} q (P : A -> Prop) (a : A) :
  P a -> yields q P (fun L _ => pure (L:=L) a).
Proof.
  intros HP. exists [], (inr a). split; [constructor|].
  split; [by intros ? [= <-]|]. intros. unfold pure. by rewrite extend_nil.
Qed.

Lemma yields_record q (st : Step) :
  q st = true -> yields q (fun _ => True) (fun L _ => record (L:=L) st).
Proof.
  intros Hq. exists [st], (inr tt).
  split; [repeat constructor; exact Hq|]. split; [trivial|]. reflexivity.
Qed.

Lemma yields_perform {A} q (st : Step) (r : Rpc_ A) :
  q st = true -> yields q (fun _ => True) (fun L _ => perform (L:=L) st r).
Proof.
  intros Hq. exists [st], (await r).
  split; [repeat constructor; exact Hq|]. split; [trivial|]. reflexivity.
Qed.

Lemma yields_attempt {A} q (st : Step) (r : Rpc_ A) :
  q st = true -> yields q (fun _ => True) (fun L _ => attempt (L:=L) st r).
Proof.
  intros Hq.
  exists [st], (inr (match r with inl _ => None | inr a => Some a end)).
  split; [repeat constructor; exact Hq|]. split; [trivial|]. reflexivity.
Qed.

Lemma yields_bind {A B} q (P : B -> Prop)
    (m : forall L, LedgerClient L -> Flow L A)
    (k : A -> forall L, LedgerClient L -> Flow L B) :
  yields q (fun _ => True) m -> (forall a, yields q P (k a)) ->
  yields q P (fun L c => m L c ≫= (fun a => k a L c)).
Proof.
  intros (steps & r & Hq & _ & Hm) Hk. destruct r as [e|a].
  - exists steps, (inl e). split; [exact Hq|]. split; [discriminate|].
    intros L c s. unfold mbind, Flow_bind. rewrite Hm. reflexivity.
  - destruct (Hk a) as (steps' & r' & Hq' & HP & Hk').
    exists (steps ++ steps'), r'. split; [by apply all_steps_app|].
    split; [exact HP|].
    intros L c s. unfold mbind, Flow_bind. rewrite Hm, Hk'.
    by rewrite extend_extend.
Qed.

Lemma sends_bind {A} (m : forall L, LedgerClient L -> Flow L A)
    (k : A -> forall L, LedgerClient L -> Flow L RewardOutcome) att :
  oblivious m -> (forall a, oblivious (k a) \/ sends (k a) att) ->
  oblivious (fun L c => m L c ≫= (fun a => k a L c)) \/
  sends (fun L c => m L c ≫= (fun a => k a L c)) att.
Proof.
  intros Hm Hk. pose proof Hm as (steps & r & Hq & _ & Hm').
  destruct r as [e|a].
  - left. exists steps, (inl e). split; [exact Hq|]. split; [trivial|].
    intros L c s. unfold mbind, Flow_bind. rewrite Hm'. reflexivity.
  - destruct (Hk a) as [Hobl|(steps' & tx & Hq' & Hk')].
    + left. destruct Hobl as (steps' & r' & Hq' & _ & Hk').
      exists (steps ++ steps'), r'. split; [by apply all_steps_app|].
      split; [trivial|].
      intros L c s. unfold mbind, Flow_bind. rewrite Hm', Hk'.
      by rewrite extend_extend.
    + right. exists (steps ++ steps'), tx. split; [by apply all_steps_app|].
      intros L c s. unfold mbind, Flow_bind. rewrite Hm', Hk'.
      unfold sent, extend. simpl.
      destruct (sendTransaction c (ledger s) tx) as [[e|hash] l'];
        by rewrite <- !app_assoc.
Qed.

Lemma sends_tail att tx :
  sends (fun L c =>
           send c tx ≫= (fun hash =>
           waitFor c hash ≫= (fun rewardBlock =>
           pure (LiveOutcome att (Some hash) (Some rewardBlock))))) att.
Proof.
  exists [], tx. split; [constructor|]. intros L c s.
  unfold mbind, Flow_bind, send, waitFor, pure, sent. simpl.
  destruct (sendTransaction c (ledger s) tx) as [[e|hash] l']; simpl;
    [reflexivity|].
  rewrite <- app_assoc. destruct (wait c l' hash); reflexivity.
Qed.

Ltac head_yields :=
  unfold oblivious;
  first [ apply yields_lift
        | apply yields_perform; reflexivity
        | apply yields_attempt; reflexivity
        | apply yields_record; reflexivity ].

(** Walks down a flow written with binds, branch by branch. *)
Ltac shape :=
  cbv beta zeta;
  lazymatch goal with
  | |- _ \/ sends (fun L c => mbind _ (send _ _)) _ =>
      right; apply sends_tail
  | |- _ \/ sends (fun L c => mbind (@?k L c) (@?m L c)) _ =>
      apply (sends_bind m (fun a L c => k L c a));
      [head_yields | intros ?; shape]
  | |- _ \/ sends (fun L c => if ?b then _ else _) _ =>
      destruct b; shape
  | |- _ \/ sends (fun L c => match ?x with _ => _ end) _ =>
      destruct x; shape
  | |- _ \/ sends (fun L c => pure _) _ =>
      left; apply yields_pure; trivial
  end.

(** The same for a flow that never reaches a send. *)
Ltac quietly :=
  cbv beta zeta;
  lazymatch goal with
  | |- yields _ _ (fun L c => mbind (@?k L c) (@?m L c)) =>
      apply (yields_bind _ _ m (fun a L c => k L c a));
      [head_yields | intros ?; quietly]
  | |- yields _ _ (fun L c => if ?b then _ else _) =>
      destruct b; quietly
  | |- yields _ _ (fun L c => match ?x with _ => _ end) =>
      destruct x; quietly
  | |- yields _ _ (fun L c => pure _) =>
      apply yields_pure; eauto 10
  end.

Lemma proceed_shape rt env p required att :
  oblivious (fun L c => proceed rt env p c required att) \/
  sends (fun L c => proceed rt env p c required att) att.
Proof. unfold proceed. shape. Qed.

Lemma proceed_dry rt env p required att :
  dryRunOf env = true ->
  yields is_estimate (is_dry_run_of att)
         (fun L c => proceed rt env p c required att).
Proof.
  intros Hdry. unfold proceed. rewrite Hdry. unfold is_dry_run_of. quietly.
Qed.

Lemma truthy_tri_true (v : tri) : truthy_tri v = true <-> v = Some true.
Proof. destruct v as [[|]|]; simpl; split; congruence. Qed.

(** The gate lets through exactly the reports with four true verdicts and
    enough confirmations; otherwise it throws one of its three errors. *)
Lemma gate_inr required att : gate required att = inr tt <-> passes required att.
Proof.
  unfold gate, passes, throwIf, mbind, Result_bind, throw, ok.
  rewrite <- !truthy_tri_true.
  destruct (truthy_tri (verificationPassed att)),
    (truthy_tri (confirmed att)), (lt (confirmations att) required),
    (truthy_tri (payloadHashValid_ att)), (truthy_tri (timestampValid att));
    simpl; intuition congruence.
Qed.

Lemma gate_inl required att :
  ~ passes required att ->
  exists e,
    (e = VerificationFailed \/
     e = TooFewConfirmations (confirmations att) required \/
     e = HashOrTimestampInvalid) /\
    gate required att = inl e.
Proof.
  rewrite <- gate_inr.
  unfold gate, throwIf, mbind, Result_bind, throw, ok.
  destruct (truthy_tri (verificationPassed att)),
    (truthy_tri (confirmed att)), (lt (confirmations att) required),
    (truthy_tri (payloadHashValid_ att)), (truthy_tri (timestampValid att));
    simpl; intros Hno; try (exfalso; apply Hno; reflexivity); eauto 6.
Qed.

Lemma rewardAttestation_blocked {L} rt env p (client : LedgerClient L) att e s :
  gate (confirmationsRequiredOf rt env) att = inl e ->
  rewardAttestation rt env p client att s = (inl e, s).
Proof.
  intros Hg. unfold rewardAttestation, mbind, Flow_bind, lift.
  rewrite Hg. reflexivity.
Qed.

Lemma rewardAttestation_passed {L} rt env p (client : LedgerClient L) att s :
  gate (confirmationsRequiredOf rt env) att = inr tt ->
  rewardAttestation rt env p client att s =
  proceed rt env p client (confirmationsRequiredOf rt env) att s.
Proof.
  intros Hg. unfold rewardAttestation, mbind, Flow_bind, lift.
  rewrite Hg. reflexivity.
Qed.

Lemma runRewardFlow_eq {L} rt env p fs (client : LedgerClient L) s :
  runRewardFlow rt env p fs client s =
  match assertRealMode env "run_reward_flow.js" with
  | inl e => (inl e, s)
  | inr _ =>
      match checkAttestation rt env p fs with
      | inl e => (inl e, s)
      | inr att => rewardAttestation rt env p client att s
      end
  end.
Proof.
  unfold runRewardFlow, mbind, Flow_bind, lift.
  destruct (assertRealMode env "run_reward_flow.js"); [reflexivity|].
  destruct (checkAttestation rt env p fs); reflexivity.
Qed.

Lemma yields_throw {A} q (P : A -> Prop) (e : Error) :
  yields q P (fun L _ => lift (L:=L) (inl e)).
Proof.
  exists [], (inl e). split; [constructor|]. split; [discriminate|].
  intros. unfold lift. by rewrite extend_nil.
Qed.

Lemma yields_ext {A} q (P P' : A -> Prop)
    (m m' : forall L, LedgerClient L -> Flow L A) :
  (forall L c s, m L c s = m' L c s) -> (forall a, P a -> P' a) ->
  yields q P m' -> yields q P' m.
Proof.
  intros Heq HP (steps & r & Hq & Hr & Hm). exists steps, r.
  split; [exact Hq|]. split; [intros a Ha; apply HP, Hr, Ha|].
  intros L c s. rewrite Heq. apply Hm.
Qed.

Lemma sends_ext (m m' : forall L, LedgerClient L -> Flow L RewardOutcome) att :
  (forall L c s, m L c s = m' L c s) -> sends m' att -> sends m att.
Proof.
  intros Heq (steps & tx & Hq & Hm). exists steps, tx.
  split; [exact Hq|]. intros L c s. rewrite Heq. apply Hm.
Qed.

(** A whole run either only reads, or passes the gate and sends. *)
Lemma runRewardFlow_shape rt env p fs :
  oblivious (fun L c => runRewardFlow rt env p fs c) \/
  exists att,
    checkAttestation rt env p fs = inr att /\
    passes (confirmationsRequiredOf rt env) att /\
    sends (fun L c => runRewardFlow rt env p fs c) att.
Proof.
  destruct (assertRealMode env "run_reward_flow.js") as [e|u] eqn:Hmode.
  { left. apply (yields_ext _ (fun _ => True) _ _ (fun L _ => lift (L:=L) (inl e)));
      [|trivial|apply yields_throw].
    intros. rewrite runRewardFlow_eq, Hmode. reflexivity. }
  destruct (checkAttestation rt env p fs) as [e|att] eqn:Hcheck.
  { left. apply (yields_ext _ (fun _ => True) _ _ (fun L _ => lift (L:=L) (inl e)));
      [|trivial|apply yields_throw].
    intros. rewrite runRewardFlow_eq, Hmode, Hcheck. reflexivity. }
  destruct (gate (confirmationsRequiredOf rt env) att) as [e|[]] eqn:Hgate.
  { left. apply (yields_ext _ (fun _ => True) _ _ (fun L _ => lift (L:=L) (inl e)));
      [|trivial|apply yields_throw].
    intros. rewrite runRewardFlow_eq, Hmode, Hcheck.
    apply rewardAttestation_blocked, Hgate. }
  assert (Heq : forall L (c : LedgerClient L) s,
             runRewardFlow rt env p fs c s =
             proceed rt env p c (confirmationsRequiredOf rt env) att s).
  { intros. rewrite runRewardFlow_eq, Hmode, Hcheck.
    apply rewardAttestation_passed, Hgate. }
  destruct (proceed_shape rt env p (confirmationsRequiredOf rt env) att)
    as [Hobl|Hsends].
  - left. exact (yields_ext _ _ _ _ _ Heq (fun _ H => H) Hobl).
  - right. exists att. split; [reflexivity|].
    split; [apply gate_inr, Hgate|]. exact (sends_ext _ _ _ Heq Hsends).
Qed.

(** A dry run only estimates. *)
Lemma runRewardFlow_dry rt env p fs :
  dryRunOf env = true ->
  yields is_estimate
         (fun out => exists att,
              checkAttestation rt env p fs = inr att /\
              passes (confirmationsRequiredOf rt env) att /\
              is_dry_run_of att out)
         (fun L c => runRewardFlow rt env p fs c).
Proof.
  intros Hdry.
  destruct (assertRealMode env "run_reward_flow.js") as [e|u] eqn:Hmode.
  { apply (yields_ext _ (fun _ => False) _ _ (fun L _ => lift (L:=L) (inl e)));
      [|tauto|apply yields_throw].
    intros. rewrite runRewardFlow_eq, Hmode. reflexivity. }
  destruct (checkAttestation rt env p fs) as [e|att] eqn:Hcheck.
  { apply (yields_ext _ (fun _ => False) _ _ (fun L _ => lift (L:=L) (inl e)));
      [|tauto|apply yields_throw].
    intros. rewrite runRewardFlow_eq, Hmode, Hcheck. reflexivity. }
  destruct (gate (confirmationsRequiredOf rt env) att) as [e|[]] eqn:Hgate.
  { apply (yields_ext _ (fun _ => False) _ _ (fun L _ => lift (L:=L) (inl e)));
      [|tauto|apply yields_throw].
    intros. rewrite runRewardFlow_eq, Hmode, Hcheck.
    apply rewardAttestation_blocked, Hgate. }
  eapply yields_ext;
    [| |apply (proceed_dry rt env p (confirmationsRequiredOf rt env) att Hdry)].
  - intros. rewrite runRewardFlow_eq, Hmode, Hcheck.
    apply rewardAttestation_passed, Hgate.
  - intros out Hout. exists att. split; [reflexivity|].
    split; [apply gate_inr, Hgate|exact Hout].
Qed.

End RewardFlowFacts.

(** ** No reward without verification, dry runs, replay *)

Section Flow.
Import Js Errors CheckAttestation RewardFlow.
Import CheckAttestationFacts RewardFlowFacts.

Lemma assertRealMode_context env c1 c2 u :
  assertRealMode env c1 = inr u -> assertRealMode env c2 = inr tt.
Proof.
  unfold assertRealMode.
  destruct (AttestationMode.getAttestationMode env); [discriminate|reflexivity].
Qed.

Lemma checked_is_real rt env p fs att :
  checkAttestation rt env p fs = inr att ->
  assertRealMode env "run_reward_flow.js" = inr tt.
Proof.
  intros H. unfold checkAttestation in H. apply bind_inr in H as (u & Hm & _).
  exact (assertRealMode_context _ _ _ _ Hm).
Qed.

(** C1: a report whose verification did not pass (the proof is not
    verified, the attestation is not confirmed or has fewer confirmations
    than required, the payload hash or the time stamp is not valid; a null
    verdict counts as not passed) makes the reward flow throw one of its
    three gate errors with the ledger and the trace of steps exactly as
    they were: nothing is read, encoded or sent.  A run that took any step,
    and so a run that sent a transaction, had a report with all four
    verdicts true and enough confirmations. *)
Theorem no_reward_without_verification {L}
    (rt : Runtime) (env : Env) (p : Provider) (fs : Files)
    (client : LedgerClient L) (s : FlowState L) :
  let required := confirmationsRequiredOf rt env in
  (forall att,
      verificationPassed att <> Some true \/
      confirmed att <> Some true \/
      (exists n, required = Some n /\ confirmations att < n) \/
      payloadHashValid_ att <> Some true \/
      timestampValid att <> Some true ->
      exists e,
        (e = VerificationFailed \/
         e = TooFewConfirmations (confirmations att) required \/
         e = HashOrTimestampInvalid) /\
        rewardAttestation rt env p client att s = (inl e, s) /\
        (checkAttestation rt env p fs = inr att ->
         runRewardFlow rt env p fs client s = (inl e, s))) /\
  (forall r s',
      runRewardFlow rt env p fs client s = (r, s') ->
      s' <> s ->
      exists att,
        checkAttestation rt env p fs = inr att /\ passes required att) /\
  (forall r s' tx,
      runRewardFlow rt env p fs client s = (r, s') ->
      In (StepSend tx) (trace s') -> ~ In (StepSend tx) (trace s) ->
      exists att,
        checkAttestation rt env p fs = inr att /\
        verificationPassed att = Some true /\
        confirmed att = Some true /\
        (forall n, required = Some n -> confirmations att >= n) /\
        payloadHashValid_ att = Some true /\
        timestampValid att = Some true).
Proof.
  intros required.
  assert (Hany : forall r s',
             runRewardFlow rt env p fs client s = (r, s') -> s' <> s ->
             exists att,
               checkAttestation rt env p fs = inr att /\ passes required att).
  { intros r s' Hrun Hne. rewrite runRewardFlow_eq in Hrun.
    destruct (assertRealMode env "run_reward_flow.js");
      [injection Hrun as _ <-; contradiction|].
    destruct (checkAttestation rt env p fs) as [e|att];
      [injection Hrun as _ <-; contradiction|].
    exists att. split; [reflexivity|]. apply gate_inr.
    destruct (gate required att) as [e|[]] eqn:Hg; [|reflexivity].
    rewrite (rewardAttestation_blocked _ _ _ _ _ _ _ Hg) in Hrun.
    injection Hrun as _ <-. contradiction. }
  split; [|split; [exact Hany|]].
  - intros att Hbad.
    assert (Hno : ~ passes required att).
    { intros (Hv & Hc & Hlt & Hh & Ht).
      destruct Hbad as [H|[H|[(n & Hn & Hlow)|[H|H]]]]; try contradiction.
      rewrite Hn in Hlt. simpl in Hlt. apply Z.ltb_ge in Hlt. lia. }
    destruct (gate_inl required att Hno) as (e & He & Hg).
    exists e. split; [exact He|].
    split; [apply rewardAttestation_blocked, Hg|].
    intros Hcheck. rewrite runRewardFlow_eq, (checked_is_real _ _ _ _ _ Hcheck).
    rewrite Hcheck. apply rewardAttestation_blocked, Hg.
  - intros r s' tx Hrun Hin Hnot.
    destruct (Hany r s' Hrun) as (att & Hcheck & Hv & Hc & Hlt & Hh & Ht).
    { intros ->. contradiction. }
    exists att. repeat (split; [assumption|]). split; [|auto].
    intros n Hn. rewrite Hn in Hlt. simpl in Hlt. apply Z.ltb_ge in Hlt. lia.
Qed.

Lemma no_reward_without_verification_witness :
  confirmed (Fixture.report 105) <> Some true /\
  exists e,
    rewardAttestation Fixture.rt Fixture.env_execute
      (Fixture.provider 105 (inr true) (inr true))
      (ExecutorNode.client Fixture.node) (Fixture.report 105)
      (start Fixture.ledger7)
    = (inl e, start Fixture.ledger7).
Proof.
  assert (Hc : confirmed (Fixture.report 105) <> Some true)
    by (vm_compute; discriminate).
  split; [exact Hc|].
  destruct (no_reward_without_verification Fixture.rt Fixture.env_execute
              (Fixture.provider 105 (inr true) (inr true)) (Fixture.files None)
              (ExecutorNode.client Fixture.node) (start Fixture.ledger7))
    as (Hblocked & _).
  destruct (Hblocked (Fixture.report 105) (or_intror (or_introl Hc)))
    as (e & _ & Hrun & _).
  exists e. exact Hrun.
Defined.

Lemma dryRunOf_true env : dryRunOf env = true <-> env !! "DRY_RUN" <> Some "0".
Proof.
  unfold dryRunOf. rewrite negb_true_iff, bool_decide_eq_false. reflexivity.
Qed.

(** C6: the run is a dry run unless [DRY_RUN] is exactly ["0"].  A dry run
    leaves the ledger as it was; the only steps it takes are reading the
    network, encoding the call data and asking for fee data and a gas
    estimate, none of which is a send; when it succeeds it returns the
    dry-run outcome (call data, gas and fee estimate) for a report that
    passed the gate. *)
Theorem dry_run_default_and_pure {L}
    (rt : Runtime) (env : Env) (p : Provider) (fs : Files)
    (client : LedgerClient L) (s : FlowState L) :
  (dryRunOf env = true <-> env !! "DRY_RUN" <> Some "0") /\
  (env !! "DRY_RUN" <> Some "0" ->
   exists steps,
     all_steps is_estimate steps /\
     (forall tx, ~ In (StepSend tx) steps) /\
     ledger (snd (runRewardFlow rt env p fs client s)) = ledger s /\
     trace (snd (runRewardFlow rt env p fs client s)) = trace s ++ steps /\
     (forall out,
         fst (runRewardFlow rt env p fs client s) = inr out ->
         exists att,
           checkAttestation rt env p fs = inr att /\
           passes (confirmationsRequiredOf rt env) att /\
           is_dry_run_of att out)).
Proof.
  split; [apply dryRunOf_true|].
  intros Hdry. apply dryRunOf_true in Hdry.
  destruct (runRewardFlow_dry rt env p fs Hdry) as (steps & r & Hq & Hr & Hm).
  exists steps. split; [exact Hq|].
  split; [intros tx; apply quiet_not_sent, estimate_quiet, Hq|].
  rewrite Hm. simpl. repeat split. exact Hr.
Qed.

Lemma dry_run_default_and_pure_witness :
  Fixture.env_default !! "DRY_RUN" <> Some "0" /\
  ledger (snd (runRewardFlow Fixture.rt Fixture.env_default
                 (Fixture.provider 120 (inr true) (inr true))
                 (Fixture.files None) (ExecutorNode.client Fixture.node)
                 (start Fixture.ledger7)))
  = Fixture.ledger7.
Proof.
  assert (Hdry : Fixture.env_default !! "DRY_RUN" <> Some "0")
    by (vm_compute; discriminate).
  split; [exact Hdry|].
  destruct (dry_run_default_and_pure Fixture.rt Fixture.env_default
              (Fixture.provider 120 (inr true) (inr true))
              (Fixture.files None) (ExecutorNode.client Fixture.node)
              (start Fixture.ledger7)) as (_ & Hpure).
  destruct (Hpure Hdry) as (steps & _ & _ & Hledger & _).
  exact Hledger.
Defined.

(** C5, as worded, fails: with the reward of attestation 1 already on the
    ledger, a live run for attestation 1 still sends the reward call. *)
Lemma resubmits_recorded_attestation :
  ~ Claimed.sends_only_unrecorded Fixture.node Fixture.rt Fixture.env_execute
      (Fixture.provider 120 (inr true) (inr true)) (Fixture.files None)
      Fixture.ledger_recorded.
Proof.
  intros Hguard.
  specialize (Hguard Fixture.reward_tx 7 1 2 3 4 5).
  assert (Hrecorded :
            RewardExecutor.executed
              (RewardExecutor.storage Fixture.ledger_recorded) 1 = true)
    by reflexivity.
  rewrite Hguard in Hrecorded; [discriminate| |reflexivity].
  vm_compute. auto 10.
Qed.

(** C5, amended: the flow makes no query for an existing reward record.
    Whether a run sends the reward call, and which call, is settled by the
    environment, the files and what the node answers to the reads, with no
    regard to what the ledger holds: a run either only reads, or passes the
    gate and sends.  When the recorder already holds a record for the
    attestation of the call that is sent, the contract reverts, the flow
    throws that rejection and the ledger is as it was: the replay guard is
    the one on the ledger. *)
Theorem replay_guard_on_ledger_only
    (rt : Runtime) (env : Env) (p : Provider) (fs : Files) :
  (oblivious (fun L c => runRewardFlow rt env p fs c) \/
   exists att,
     checkAttestation rt env p fs = inr att /\
     passes (confirmationsRequiredOf rt env) att /\
     sends (fun L c => runRewardFlow rt env p fs c) att) /\
  (forall n l tx sender h ph sk part kw,
      let run := runRewardFlow rt env p fs (ExecutorNode.client n) (start l) in
      In (StepSend tx) (trace (snd run)) ->
      ExecutorNode.toCall n tx =
        Some (RewardExecutor.CallExecuteReward sender h ph sk part kw) ->
      RewardExecutor.executed (RewardExecutor.storage l) h = true ->
      fst run = inl (Rpc CallException) /\ ledger (snd run) = l).
Proof.
  split; [apply runRewardFlow_shape|].
  intros n l tx sender h ph sk part kw run Hin Hcall Hexec. subst run.
  destruct (runRewardFlow_shape rt env p fs)
    as [(steps & r & Hq & _ & Hm)|(att & _ & _ & steps & tx0 & Hq & Hm)].
  { rewrite Hm in Hin. simpl in Hin.
    exfalso. exact (quiet_not_sent _ _ Hq Hin). }
  rewrite Hm in Hin |- *. unfold sent in *.
  assert (Hrevert :
            exists r, RewardExecutor.call l
                        (RewardExecutor.CallExecuteReward sender h ph sk part kw)
                      = inl r).
  { destruct (RewardExecutorFacts.executeReward_executed
                sender h ph sk part kw _ Hexec) as [r Hr].
    exists r. simpl. rewrite Hr. reflexivity. }
  destruct Hrevert as [r Hrevert].
  assert (Htx : forall tail,
             (tail = [] \/ exists hash, tail = [StepWait hash]) ->
             In (StepSend tx) (steps ++ StepSend tx0 :: tail) -> tx0 = tx).
  { intros tail Htail Hin'. apply in_app_or in Hin' as [Hin'|[Heq|Hin']].
    - exfalso. exact (quiet_not_sent _ _ Hq Hin').
    - congruence.
    - destruct Htail as [->|[hash ->]]; simpl in Hin'; [tauto|].
      destruct Hin' as [?|[]]. discriminate. }
  change (sendTransaction (ExecutorNode.client n) (ledger (start l)) tx0)
    with (match ExecutorNode.toCall n tx0 with
          | Some c =>
              match RewardExecutor.call l c with
              | inr l' => (inr (ExecutorNode.hashOf n tx0), l')
              | inl _ => (inl CallException, l)
              end
          | None => (inl CallException, l)
          end) in *.
  destruct (ExecutorNode.toCall n tx0) as [c|] eqn:Hc0; [|split; reflexivity].
  destruct (RewardExecutor.call l c) as [r0|l'] eqn:Hc; [split; reflexivity|].
  simpl in Hin.
  assert (tx0 = tx)
    by (apply (Htx [StepWait (ExecutorNode.hashOf n tx0)]); eauto).
  subst tx0. rewrite Hcall in Hc0. injection Hc0 as <-.
  rewrite Hrevert in Hc. discriminate.
Qed.

Lemma replay_guard_on_ledger_only_witness :
  In (StepSend Fixture.reward_tx)
     (trace (snd (runRewardFlow Fixture.rt Fixture.env_execute
                    (Fixture.provider 120 (inr true) (inr true))
                    (Fixture.files None) (ExecutorNode.client Fixture.node)
                    (start Fixture.ledger_recorded)))) /\
  RewardExecutor.executed
    (RewardExecutor.storage Fixture.ledger_recorded) 1 = true /\
  ledger (snd (runRewardFlow Fixture.rt Fixture.env_execute
                 (Fixture.provider 120 (inr true) (inr true))
                 (Fixture.files None) (ExecutorNode.client Fixture.node)
                 (start Fixture.ledger_recorded)))
  = Fixture.ledger_recorded.
Proof.
  assert (Hin : In (StepSend Fixture.reward_tx)
                   (trace (snd (runRewardFlow Fixture.rt Fixture.env_execute
                      (Fixture.provider 120 (inr true) (inr true))
                      (Fixture.files None) (ExecutorNode.client Fixture.node)
                      (start Fixture.ledger_recorded)))))
    by (vm_compute; auto 10).
  split; [exact Hin|]. split; [reflexivity|].
  destruct (replay_guard_on_ledger_only Fixture.rt Fixture.env_execute
              (Fixture.provider 120 (inr true) (inr true))
              (Fixture.files None)) as (_ & Hguard).
  exact (proj2 (Hguard Fixture.node Fixture.ledger_recorded Fixture.reward_tx
                  7 1 2 3 4 5 Hin eq_refl eq_refl)).
Defined.

Lemma payloadHashValid_false rt api expected submission :
  let r := validatePayloadHash rt api expected submission in
  payloadHashValid r = false <->
  micMatchesExpected r = Some false \/ micMatchesSubmission r = Some false.
Proof.
  unfold validatePayloadHash. simpl.
  destruct api, (nonempty expected),
    (submission ≫= (fun d => nonempty (sub_computedMic d)));
    simpl; repeat match goal with |- context [String.eqb ?a ?b] =>
                    destruct (String.eqb a b) end;
    simpl; intuition congruence.
Qed.

(** C3, as worded, fails: an expected digest is configured but the attested
    data file is not there, so the digest comparison is indeterminate
    ([null]); the integrity verdict is nevertheless true and the live run
    goes on to send the reward call. *)
Lemma unchecked_digest_passes :
  ~ Claimed.indeterminate_blocks Fixture.rt (Fixture.env_expected "0xabc")
      (Fixture.provider 120 (inr true) (inr true)) (Fixture.files None)
      (ExecutorNode.client Fixture.node) (start Fixture.ledger7).
Proof.
  intros Hblocks.
  destruct (Hblocks (Fixture.report 120)) as [e He].
  - vm_compute. reflexivity.
  - right. right. right. right. left. reflexivity.
  - vm_compute in He. discriminate He.
Qed.

(** C3, amended: in the aggregation at the head of the reward flow a null
    verdict is never taken for a pass: the gate lets a report through
    exactly when the four verdicts ([verificationPassed], [confirmed],
    [payloadHashValid], [timestampValid]) are all [true] and the
    confirmations are not below the required count, and a report with a
    null verdict makes the flow throw with nothing changed.  The checker
    itself never stores a null verdict; inside its integrity check a digest
    comparison that could not be made ([null]) counts as not disagreeing:
    the integrity verdict is false exactly when a comparison came out
    false. *)
Theorem null_verdict_blocks {L}
    (rt : Runtime) (env : Env) (p : Provider) (fs : Files)
    (client : LedgerClient L) (s : FlowState L) :
  let required := confirmationsRequiredOf rt env in
  (forall att,
      gate required att = inr tt <->
      verificationPassed att = Some true /\
      confirmed att = Some true /\
      lt (confirmations att) required = false /\
      payloadHashValid_ att = Some true /\
      timestampValid att = Some true) /\
  (forall att,
      verificationPassed att = None \/ confirmed att = None \/
      payloadHashValid_ att = None \/ timestampValid att = None ->
      exists e, rewardAttestation rt env p client att s = (inl e, s)) /\
  (forall att,
      checkAttestation rt env p fs = inr att ->
      verificationPassed att <> None /\ confirmed att <> None /\
      payloadHashValid_ att <> None /\ timestampValid att <> None /\
      (payloadHashValid_ att = Some false <->
       micMatchesExpected (payloadHash att) = Some false \/
       micMatchesSubmission (payloadHash att) = Some false)).
Proof.
  intros required. split; [intros att; apply gate_inr|]. split.
  - intros att Hnull.
    assert (Hno : ~ passes required att).
    { intros (Hv & Hc & _ & Hh & Ht).
      destruct Hnull as [H|[H|[H|H]]]; congruence. }
    destruct (gate_inl required att Hno) as (e & _ & Hg).
    exists e. apply rewardAttestation_blocked, Hg.
  - intros att H.
    apply checkAttestation_inr in H
      as (receipt & latestBlock & pp & ts & v & _ & _ & _ & _ & _ & _ & _ & _
          & _ & _ & Hc & Hv & _ & Hhash & Hvalid & _ & _ & _ & Ht).
    rewrite Hc, Hv, Hvalid, Ht. repeat (split; [discriminate|]).
    rewrite Hhash. rewrite <- payloadHashValid_false.
    split; congruence.
Qed.

Lemma null_verdict_blocks_witness :
  checkAttestation Fixture.rt (Fixture.env_expected "0xabc")
    (Fixture.provider 120 (inr true) (inr true)) (Fixture.files None)
  = inr (Fixture.report 120) /\
  micMatchesExpected (payloadHash (Fixture.report 120)) = None /\
  payloadHashValid_ (Fixture.report 120) <> Some false.
Proof.
  assert (H : checkAttestation Fixture.rt (Fixture.env_expected "0xabc")
                (Fixture.provider 120 (inr true) (inr true))
                (Fixture.files None)
              = inr (Fixture.report 120)) by (vm_compute; reflexivity).
  split; [exact H|]. split; [reflexivity|].
  destruct (null_verdict_blocks Fixture.rt (Fixture.env_expected "0xabc")
              (Fixture.provider 120 (inr true) (inr true))
              (Fixture.files None) (ExecutorNode.client Fixture.node)
              (start Fixture.ledger7)) as (_ & _ & Hchecked).
  destruct (Hchecked _ H) as (_ & _ & _ & _ & Hiff).
  intros Hfalse. apply Hiff in Hfalse as [Hf|Hf]; discriminate Hf.
Defined.

End Flow.

(** * Further properties of the code *)

(** ** The recorder: ownership and batches of attestations *)

Section RecorderMore.
Import RewardExecutor RewardExecutorFacts.

Lemma call_executeReward_fresh l h p s part kw :
  executed (storage l) h = false ->
  call l (CallExecuteReward (owner (storage l)) h p s part kw) =
  inr (mkLedger (mkState (owner (storage l))
                         (<[h := true]> (executedAttestations (storage l))))
                (events l ++ [mkRewardExecuted h p s part kw])).
Proof.
  intros Hfresh. simpl. unfold_calls. rewrite Z.eqb_refl. simpl.
  rewrite Hfresh. reflexivity.
Qed.

(** X1: a successful [setOwner] comes from the owner, installs a non-zero
    new owner and touches neither the [executedAttestations] flags nor the
    events; from then on the former owner (when it is another account) is
    refused [executeReward] and [setOwner] with "not owner", the new owner
    can record every attestation that was not recorded before, and an
    attestation recorded under the former owner is still refused as already
    executed. *)
Theorem ownership_handover
    (l l' : Ledger) (sender newOwner : address) :
  call l (CallSetOwner sender newOwner) = inr l' ->
  sender = owner (storage l) /\
  newOwner <> zero_address /\
  owner (storage l') = newOwner /\
  executedAttestations (storage l') = executedAttestations (storage l) /\
  events l' = events l /\
  (sender <> newOwner ->
   (forall h p s part kw,
       call l' (CallExecuteReward sender h p s part kw) = inl NotOwner) /\
   (forall o, call l' (CallSetOwner sender o) = inl NotOwner)) /\
  (forall h p s part kw,
      executed (storage l) h = false ->
      exists l'',
        call l' (CallExecuteReward newOwner h p s part kw) = inr l'' /\
        events l'' = events l ++ [mkRewardExecuted h p s part kw]) /\
  (forall h p s part kw,
      executed (storage l) h = true ->
      call l' (CallExecuteReward newOwner h p s part kw) = inl AlreadyExecuted).
Proof.
  intros Hcall. simpl in Hcall.
  destruct (setOwner sender newOwner (storage l)) as [r|st'] eqn:Hs;
    simpl in Hcall; [discriminate|].
  injection Hcall as <-. apply setOwner_inr in Hs as (Hsender & Hnz & ->).
  simpl. repeat (split; [first [assumption|reflexivity]|]).
  split; [|split].
  - intros Hne. split.
    + intros h p s part kw. unfold_calls. simpl.
      destruct (sender =? newOwner) eqn:He; [|reflexivity].
      apply Z.eqb_eq in He. contradiction.
    + intros o. unfold_calls. simpl.
      destruct (sender =? newOwner) eqn:He; [|reflexivity].
      apply Z.eqb_eq in He. contradiction.
  - intros h p s part kw Hfresh. eexists. split.
    + unfold_calls. simpl. rewrite Z.eqb_refl. simpl.
      unfold executed in *. simpl. rewrite Hfresh. simpl. reflexivity.
    + reflexivity.
  - intros h p s part kw Hdone. unfold_calls. simpl. rewrite Z.eqb_refl. simpl.
    unfold executed in *. simpl. rewrite Hdone. reflexivity.
Qed.

Lemma ownership_handover_witness :
  call Fixture.ledger_recorded (CallSetOwner 7 8) =
    inr (mkLedger (mkState 8 (<[1 := true]> ∅)) [mkRewardExecuted 1 2 3 4 5]) /\
  call (mkLedger (mkState 8 (<[1 := true]> ∅)) [mkRewardExecuted 1 2 3 4 5])
       (CallExecuteReward 8 1 2 3 4 5) = inl AlreadyExecuted.
Proof.
  assert (H : call Fixture.ledger_recorded (CallSetOwner 7 8) =
              inr (mkLedger (mkState 8 (<[1 := true]> ∅))
                            [mkRewardExecuted 1 2 3 4 5])) by reflexivity.
  split; [exact H|].
  destruct (ownership_handover _ _ _ _ H) as (_ & _ & _ & _ & _ & _ & _ & Hdone).
  apply Hdone. reflexivity.
Defined.
Lemma run_app l cs cs' : run l (cs ++ cs') = run (run l cs) cs'.
Proof. unfold run. apply fold_left_app. Qed.

Lemma step_executeReward_fresh l h p s part kw :
  executed (storage l) h = false ->
  step l (CallExecuteReward (owner (storage l)) h p s part kw) =
  mkLedger (mkState (owner (storage l))
                    (<[h := true]> (executedAttestations (storage l))))
           (events l ++ [mkRewardExecuted h p s part kw]).
Proof.
  intros Hfresh. unfold step.
  rewrite (call_executeReward_fresh _ _ p s part kw Hfresh). reflexivity.
Qed.

(** X2: replay protection is keyed by the attestation hash alone.  The
    owner can record any list of pairwise distinct attestation hashes that
    are not recorded yet, all with the same payload hash, slot key,
    participant and amount: every call succeeds, the events are appended in
    the order of the calls, every one of the hashes ends up flagged and the
    owner stays. *)
Theorem distinct_attestations_all_recorded
    (hs : list bytes32) (p s : bytes32) (part : address) (kw : uint256) :
  forall l : Ledger,
  List.NoDup hs ->
  (forall h, In h hs -> executed (storage l) h = false) ->
  let calls :=
    map (fun h => CallExecuteReward (owner (storage l)) h p s part kw) hs in
  events (run l calls) =
    events l ++ map (fun h => mkRewardExecuted h p s part kw) hs /\
  (forall h, In h hs -> executed (storage (run l calls)) h = true) /\
  owner (storage (run l calls)) = owner (storage l).
Proof.
  induction hs as [|h hs IH]; intros l Hnd Hfresh calls; subst calls.
  - simpl. rewrite app_nil_r. split; [reflexivity|]. split; [tauto|reflexivity].
  - apply List.NoDup_cons_iff in Hnd as [Hnotin Hnd]. simpl.
    rewrite step_executeReward_fresh by (apply Hfresh; left; reflexivity).
    set (l1 := mkLedger _ _).
    assert (Hfresh1 : forall h', In h' hs -> executed (storage l1) h' = false).
    { intros h' Hin. subst l1. simpl.
      rewrite executed_insert_ne by (intros ->; contradiction).
      specialize (Hfresh h' (or_intror Hin)). destruct (storage l); exact Hfresh. }
    destruct (IH l1 Hnd Hfresh1) as (Hev & Hflag & Hown).
    change (owner (storage l1)) with (owner (storage l)) in *.
    split; [|split].
    + rewrite Hev. subst l1. simpl. rewrite <- app_assoc. reflexivity.
    + intros h' [<-|Hin]; [|exact (Hflag h' Hin)].
      apply run_executed. subst l1. simpl. apply executed_insert_eq.
    + exact Hown.
Qed.

Lemma distinct_attestations_all_recorded_witness :
  List.NoDup [10; 11; 12] /\
  events (run Fixture.ledger_recorded
            (map (fun h => CallExecuteReward 7 h 2 3 4 5) [10; 11; 12])) =
  [mkRewardExecuted 1 2 3 4 5; mkRewardExecuted 10 2 3 4 5;
   mkRewardExecuted 11 2 3 4 5; mkRewardExecuted 12 2 3 4 5].
Proof.
  assert (Hnd : List.NoDup [10; 11; 12]).
  { repeat constructor; simpl; intuition lia. }
  split; [exact Hnd|].
  refine (proj1 (distinct_attestations_all_recorded [10; 11; 12] 2 3 4 5
                   Fixture.ledger_recorded Hnd _)).
  intros h [<-|[<-|[<-|[]]]]; reflexivity.
Defined.

(** X3: calls from accounts other than the owner, in any number and order
    and mixing [setOwner] and [executeReward], leave the ledger exactly as it
    was: owner, flags and events. *)
Theorem outsiders_change_nothing (cs : list Call) (l : Ledger) :
  Forall (fun c => match c with
                   | CallSetOwner sender _ => sender <> owner (storage l)
                   | CallExecuteReward sender _ _ _ _ _ =>
                       sender <> owner (storage l)
                   end) cs ->
  run l cs = l.
Proof.
  induction cs as [|c cs IH]; intros Hall; [reflexivity|].
  apply Forall_cons in Hall as [Hc Hall]. simpl.
  assert (Hstep : step l c = l).
  { unfold step. destruct c as [sender o|sender h p s part kw]; simpl.
    - unfold_calls. destruct (sender =? owner (storage l)) eqn:He;
        [apply Z.eqb_eq in He; contradiction|reflexivity].
    - rewrite (executeReward_not_owner _ _ _ _ _ _ _ Hc). reflexivity. }
  rewrite Hstep. apply IH, Hall.
Qed.

Lemma outsiders_change_nothing_witness :
  run Fixture.ledger7
      [CallSetOwner 8 8; CallExecuteReward 9 1 2 3 4 5; CallSetOwner 0 9]
  = Fixture.ledger7.
Proof.
  apply outsiders_change_nothing.
  repeat constructor; simpl; lia.
Defined.

End RecorderMore.

(** ** The mode selector *)

Module ModeFacts.
Import Js AttestationMode SimulationOnly.

Lemma is_space_lower c : is_space (lower_ascii c) = is_space c.
Proof. destruct c as [[] [] [] [] [] [] [] []]; reflexivity. Qed.

Lemma lower_ascii_idem c : lower_ascii (lower_ascii c) = lower_ascii c.
Proof. destruct c as [[] [] [] [] [] [] [] []]; reflexivity. Qed.

Lemma toLowerCase_idem s : toLowerCase (toLowerCase s) = toLowerCase s.
Proof.
  induction s as [|c s IH]; simpl; [reflexivity|].
  by rewrite lower_ascii_idem, IH.
Qed.

Lemma toLowerCase_empty s : toLowerCase s = EmptyString -> s = EmptyString.
Proof. destruct s; simpl; [reflexivity|discriminate]. Qed.

Lemma trimStart_lower s : trimStart (toLowerCase s) = toLowerCase (trimStart s).
Proof.
  induction s as [|c s IH]; simpl; [reflexivity|].
  rewrite is_space_lower. destruct (is_space c); [exact IH|reflexivity].
Qed.

Lemma eqb_empty_lower s :
  String.eqb (toLowerCase s) EmptyString = String.eqb s EmptyString.
Proof. destruct s; reflexivity. Qed.

Lemma trimEnd_lower s : trimEnd (toLowerCase s) = toLowerCase (trimEnd s).
Proof.
  induction s as [|c s IH]; simpl; [reflexivity|].
  rewrite is_space_lower, IH, eqb_empty_lower.
  destruct (is_space c && String.eqb (trimEnd s) EmptyString); reflexivity.
Qed.

Lemma trim_commutes_lower s : trim (toLowerCase s) = toLowerCase (trim s).
Proof. unfold trim. by rewrite trimStart_lower, trimEnd_lower. Qed.

Lemma trimEnd_pad pad : all_space pad = true -> trimEnd pad = EmptyString.
Proof.
  induction pad as [|c pad IH]; simpl; [reflexivity|].
  intros [Hc Hpad]%andb_true_iff. rewrite (IH Hpad), Hc. reflexivity.
Qed.

Lemma trimEnd_app_pad s pad :
  all_space pad = true -> trimEnd (s ++ pad)%string = trimEnd s.
Proof.
  intros Hpad. induction s as [|c s IH]; simpl.
  - apply trimEnd_pad, Hpad.
  - rewrite IH. reflexivity.
Qed.

Lemma trimStart_pad_app pad s :
  all_space pad = true -> trimStart (pad ++ s)%string = trimStart s.
Proof.
  induction pad as [|c pad IH]; simpl; [reflexivity|].
  intros [Hc Hpad]%andb_true_iff. rewrite Hc. exact (IH Hpad).
Qed.

Lemma trimStart_pad pad : all_space pad = true -> trimStart pad = EmptyString.
Proof.
  induction pad as [|c pad IH]; simpl; [reflexivity|].
  intros [Hc Hpad]%andb_true_iff. rewrite Hc. exact (IH Hpad).
Qed.

Lemma trim_start_then_pad s pad :
  all_space pad = true ->
  trimEnd (trimStart (s ++ pad)%string) = trimEnd (trimStart s).
Proof.
  intros Hpad. induction s as [|c s IH].
  - change (EmptyString ++ pad)%string with pad.
    rewrite (trimStart_pad pad Hpad). reflexivity.
  - change (String c s ++ pad)%string with (String c (s ++ pad))%string.
    cbn [trimStart]. destruct (is_space c); [exact IH|].
    change (String c (s ++ pad))%string with (String c s ++ pad)%string.
    apply trimEnd_app_pad, Hpad.
Qed.

Lemma trim_padded pad1 pad2 s :
  all_space pad1 = true -> all_space pad2 = true ->
  trim (pad1 ++ s ++ pad2)%string = trim s.
Proof.
  intros H1 H2. unfold trim. rewrite trimStart_pad_app by exact H1.
  apply trim_start_then_pad, H2.
Qed.

(** The normal form of a padded value in another letter case. *)
Lemma normal_form_padded pad1 pad2 u v :
  all_space pad1 = true -> all_space pad2 = true ->
  toLowerCase u = toLowerCase v ->
  toLowerCase (trim (pad1 ++ u ++ pad2)%string) = toLowerCase (trim v).
Proof.
  intros H1 H2 Huv. rewrite trim_padded by assumption.
  rewrite <- !trim_commutes_lower. by rewrite Huv.
Qed.

End ModeFacts.

Section ModeProperties.
Import Js Errors AttestationMode SimulationOnly CheckAttestation RewardFlow.
Import CheckAttestationFacts RewardFlowFacts ModeFacts.

(** X4: the two modes exclude each other.  In every environment exactly
    one of [assertRealMode] and [assertSimulationMode] passes.  Where a
    simulation-only script passes its assertion, the checker and the reward
    flow throw their real-mode error at once, naming the script, with the
    ledger and the trace of steps untouched; where the checker returns a
    report, every simulation-only script is refused. *)
Theorem real_and_simulation_exclusive {L}
    (rt : Runtime) (env : Env) (p : Provider) (fs : Files)
    (client : LedgerClient L) (s : FlowState L) (context : string) :
  (assertSimulationMode env context = inr tt <->
   assertRealMode env context = inl (RealModeRequired context)) /\
  (assertRealMode env context = inr tt <->
   assertSimulationMode env context = inl (SimulationModeRequired context)) /\
  (assertSimulationMode env context = inr tt ->
   checkAttestation rt env p fs = inl (RealModeRequired "check_attestation.js") /\
   runRewardFlow rt env p fs client s =
     (inl (RealModeRequired "run_reward_flow.js"), s)) /\
  (forall att,
      checkAttestation rt env p fs = inr att ->
      assertSimulationMode env context = inl (SimulationModeRequired context)).
Proof.
  unfold assertSimulationMode, assertRealMode.
  split; [|split; [|split]].
  - destruct (getAttestationMode env); split; first [reflexivity|discriminate].
  - destruct (getAttestationMode env); split; first [reflexivity|discriminate].
  - intros Hsim. split.
    + unfold checkAttestation, assertRealMode.
      destruct (getAttestationMode env); [reflexivity|discriminate].
    + rewrite runRewardFlow_eq. unfold assertRealMode.
      destruct (getAttestationMode env); [reflexivity|discriminate].
  - intros att Hcheck. apply checkAttestation_inr in Hcheck
      as (? & ? & ? & ? & ? & Hreal & _).
    rewrite Hreal. reflexivity.
Qed.

Lemma real_and_simulation_exclusive_witness :
  assertSimulationMode (<["USE_SIMULATION" := "1"]> Fixture.env_execute)
    "scripts/deploy.js" = inr tt /\
  runRewardFlow Fixture.rt (<["USE_SIMULATION" := "1"]> Fixture.env_execute)
    (Fixture.provider 120 (inr true) (inr true)) (Fixture.files None)
    (ExecutorNode.client Fixture.node) (start Fixture.ledger7) =
  (inl (RealModeRequired "run_reward_flow.js"), start Fixture.ledger7).
Proof.
  assert (Hsim : assertSimulationMode
                   (<["USE_SIMULATION" := "1"]> Fixture.env_execute)
                   "scripts/deploy.js" = inr tt) by (vm_compute; reflexivity).
  split; [exact Hsim|].
  destruct (real_and_simulation_exclusive Fixture.rt
              (<["USE_SIMULATION" := "1"]> Fixture.env_execute)
              (Fixture.provider 120 (inr true) (inr true)) (Fixture.files None)
              (ExecutorNode.client Fixture.node) (start Fixture.ledger7)
              "scripts/deploy.js") as (_ & _ & Hblocked & _).
  exact (proj2 (Hblocked Hsim)).
Defined.

Lemma append_empty_inv (a b : string) :
  (a ++ b)%string = EmptyString -> a = EmptyString /\ b = EmptyString.
Proof. destruct a; simpl; [auto|discriminate]. Qed.

(** X5: mode values are read without regard to surrounding white space and
    letter case.  A value padded with white space on either side, in any
    letter case, is parsed by [parseBooleanLike] like the plain value, and
    gives the same mode whether it is put in [USE_SIMULATION] or in
    [ATTESTATION_MODE]. *)
Theorem mode_values_normalised (pad1 pad2 u v : string) (env : Env) :
  all_space pad1 = true -> all_space pad2 = true ->
  toLowerCase u = toLowerCase v ->
  let padded := (pad1 ++ u ++ pad2)%string in
  parseBooleanLike (Some padded) = parseBooleanLike (Some v) /\
  getAttestationMode (<["USE_SIMULATION" := padded]> env) =
    getAttestationMode (<["USE_SIMULATION" := v]> env) /\
  getAttestationMode (<["ATTESTATION_MODE" := padded]> env) =
    getAttestationMode (<["ATTESTATION_MODE" := v]> env).
Proof.
  intros H1 H2 Huv padded.
  assert (Hnorm : toLowerCase (trim padded) = toLowerCase (trim v))
    by (apply normal_form_padded; assumption).
  assert (Hparse : parseBooleanLike (Some padded) = parseBooleanLike (Some v))
    by (unfold parseBooleanLike; rewrite Hnorm; reflexivity).
  split; [exact Hparse|]. split.
  - unfold getAttestationMode.
    rewrite !lookup_insert_eq, Hparse.
    rewrite !lookup_insert_ne by discriminate. reflexivity.
  - unfold getAttestationMode.
    rewrite !(lookup_insert_ne _ "ATTESTATION_MODE" "USE_SIMULATION")
      by discriminate.
    destruct (parseBooleanLike (env !! "USE_SIMULATION")) as [[|]|];
      try reflexivity.
    rewrite !lookup_insert_eq. unfold or_else.
    destruct (String.eqb v EmptyString) eqn:Hv.
    + apply String.eqb_eq in Hv. subst v.
      destruct (String.eqb padded EmptyString) eqn:Hp; [reflexivity|].
      rewrite Hnorm. reflexivity.
    + destruct (String.eqb padded EmptyString) eqn:Hp; [|by rewrite Hnorm].
      apply String.eqb_eq in Hp. subst padded.
      apply append_empty_inv in Hp as [_ Hp].
      apply append_empty_inv in Hp as [Hu _]. subst u.
      symmetry in Huv. apply toLowerCase_empty in Huv. subst v. discriminate.
Qed.

Lemma mode_values_normalised_witness :
  all_space "  " = true /\
  toLowerCase "SIMulation" = toLowerCase "simulation" /\
  getAttestationMode (<["ATTESTATION_MODE" := "  SIMulation "]> ∅) =
  getAttestationMode (<["ATTESTATION_MODE" := "simulation"]> ∅).
Proof.
  split; [reflexivity|]. split; [reflexivity|].
  exact (proj2 (proj2 (mode_values_normalised "  " " " "SIMulation" "simulation"
                         ∅ eq_refl eq_refl eq_refl))).
Defined.

End ModeProperties.

(** ** The checker: provenance of a report, order of the checks *)

Module CheckerOrder.
Import Js Errors CheckAttestation CheckAttestationFacts Configured.

Lemma mustEnv_inr env name text :
  mustEnv env name = inr text <-> nonempty (env !! name) = Some text.
Proof.
  unfold mustEnv, must. destruct (nonempty (env !! name)); split; congruence.
Qed.

(** The checker, once its configuration is read: from the transaction hash
    on. *)
Lemma checkAttestation_configured rt env p fs expected contract :
  configured rt env expected contract ->
  checkAttestation rt env p fs =
  (txHash ← must (txHashOf env fs) TxHashMissing;
   chainId ← await (getNetwork p);
   throwIf (negb (chainId =? expected)) (ChainIdMismatch expected chainId) ;;
   tx ← await (getTransaction p txHash);
   receiptOpt ← await (getTransactionReceipt p txHash);
   receipt ← must (if (tx : bool) then receiptOpt else None)
                  (TxOrReceiptNotFound txHash);
   receiptTo ← must (getAddress rt (receipt_to receipt))
                    (BadAddress (receipt_to receipt));
   throwIf (negb (receiptTo =? contract)) (TargetMismatch contract receiptTo) ;;
   latestBlock ← await (getBlockNumber p);
   blockLogs ← await (getLogs p (receipt_blockNumber receipt));
   daProofJson ← must (daProof fs) DaProofFileMissing;
   proofPayload ← must daProofJson DaProofPayloadNotFound;
   verification ← snd (proofValidity p (buildVerifyJsonApiProof proofPayload)
                                       (buildVerifyWeb2JsonProof proofPayload));
   blockTimestamp ← await (getBlock p (receipt_blockNumber receipt));
   ok {| txHash := txHash;
         blockNumber := receipt_blockNumber receipt;
         confirmationsRequired := confirmationsRequiredOf rt env;
         confirmations :=
           confirmationsOf latestBlock (receipt_blockNumber receipt);
         confirmed :=
           Some (confirmedOf
                   (confirmationsOf latestBlock (receipt_blockNumber receipt))
                   (confirmationsRequiredOf rt env));
         verificationPassed := Some (v_verificationPassed verification);
         verificationFunction := v_verificationFunction verification;
         payloadHashValid_ :=
           Some (payloadHashValid
                   (validatePayloadHash rt (apiResponse fs)
                      (nonempty (env !! "EXPECTED_MIC")) (requestSubmission fs)));
         timestampValid :=
           Some (timestampValidOf
                   (lowestUsedTimestamp_ (buildVerifyJsonApiProof proofPayload))
                   blockTimestamp
                   (parseRequestRange rt
                      (url_ (buildVerifyJsonApiProof proofPayload))));
         attestationLogsInBlock :=
           length (List.filter (String.eqb txHash) blockLogs);
         payloadHash :=
           validatePayloadHash rt (apiResponse fs)
             (nonempty (env !! "EXPECTED_MIC")) (requestSubmission fs);
         lowestUsedTimestamp :=
           lowestUsedTimestamp_ (buildVerifyJsonApiProof proofPayload);
         blockTimestamp := blockTimestamp;
         requestTimestampRange :=
           parseRequestRange rt (url_ (buildVerifyJsonApiProof proofPayload));
         verificationFallbackError := v_verificationError verification |}).
Proof.
  intros (Hmode & Hrpc & (chainText & Hchain & Hbig) & (cText & Hc & Haddr) & Hver).
  unfold checkAttestation, assertRealMode. rewrite Hmode.
  unfold mustEnv at 1 2 3. rewrite Hchain, Hc.
  destruct (nonempty (env !! "FLARE_RPC_URL")) as [rpc|]; [|contradiction].
  simpl. rewrite Hbig. simpl. rewrite Haddr. simpl.
  destruct (getAddress rt (or_else (env !! "FDC_VERIFICATION_CONTRACT")
                                   DEFAULT_VERIFICATION_ADDRESS));
    [|contradiction].
  reflexivity.
Qed.

End CheckerOrder.

Section CheckerProperties.
Import Js Errors CheckAttestation CheckAttestationFacts Configured CheckerOrder.
Import RewardFlow RewardFlowFacts.

(** X6: chain identity comes first.  With the configuration in place and a
    transaction hash to check, a node that reports another chain id than
    [FLARE_CHAIN_ID] makes the checker throw the chain mismatch whatever
    the node would answer to any other call and whatever the files hold;
    the reward flow then throws the same error with the ledger and the
    trace untouched.  A node that cannot be asked makes the checker throw
    that rejection. *)
Theorem chain_identity_first {L}
    (rt : Runtime) (env : Env) (p : Provider) (fs : Files)
    (client : LedgerClient L) (s : FlowState L)
    (expected contract : Z) (hash : string) :
  configured rt env expected contract ->
  txHashOf env fs = Some hash ->
  (forall chainId,
      getNetwork p = inr chainId -> chainId <> expected ->
      checkAttestation rt env p fs = inl (ChainIdMismatch expected chainId) /\
      runRewardFlow rt env p fs client s =
        (inl (ChainIdMismatch expected chainId), s)) /\
  (forall err,
      getNetwork p = inl err ->
      checkAttestation rt env p fs = inl (Rpc err)).
Proof.
  intros Hconf Hhash.
  assert (Hreal : assertRealMode env "run_reward_flow.js" = inr tt).
  { unfold assertRealMode. destruct Hconf as (-> & _). reflexivity. }
  rewrite (checkAttestation_configured _ _ _ _ _ _ Hconf), Hhash. simpl.
  split.
  - intros chainId Hnet Hne.
    assert (Hcheck : checkAttestation rt env p fs =
                     inl (ChainIdMismatch expected chainId)).
    { rewrite (checkAttestation_configured _ _ _ _ _ _ Hconf), Hhash. simpl.
      rewrite Hnet. simpl.
      destruct (chainId =? expected) eqn:He;
        [apply Z.eqb_eq in He; contradiction|reflexivity]. }
    rewrite Hnet. simpl.
    destruct (chainId =? expected) eqn:He;
      [apply Z.eqb_eq in He; contradiction|].
    split; [reflexivity|].
    rewrite runRewardFlow_eq, Hreal, Hcheck. reflexivity.
  - intros err Hnet. rewrite Hnet. reflexivity.
Qed.

Lemma fixture_configured : configured Fixture.rt Fixture.env_execute 114 77.
Proof.
  unfold configured. split; [vm_compute; reflexivity|].
  split; [vm_compute; discriminate|].
  split; [exists "114"; split; vm_compute; reflexivity|].
  split; [exists "77"; split; vm_compute; reflexivity|].
  vm_compute. discriminate.
Defined.

Lemma chain_identity_first_witness :
  configured Fixture.rt Fixture.env_execute 114 77 /\
  txHashOf Fixture.env_execute (Fixture.files None) = Some "0xa77e" /\
  checkAttestation Fixture.rt Fixture.env_execute Fixture.provider_chain16
    (Fixture.files None) = inl (ChainIdMismatch 114 16).
Proof.
  assert (Hhash : txHashOf Fixture.env_execute (Fixture.files None)
                  = Some "0xa77e") by (vm_compute; reflexivity).
  split; [exact fixture_configured|]. split; [exact Hhash|].
  destruct (chain_identity_first Fixture.rt Fixture.env_execute
              Fixture.provider_chain16 (Fixture.files None)
              (ExecutorNode.client Fixture.node) (start Fixture.ledger7)
              114 77 "0xa77e" fixture_configured Hhash) as (Hmis & _).
  refine (proj1 (Hmis 16 eq_refl _)). discriminate.
Defined.
(** X7: where a report comes from.  A report is only produced in real mode,
    on the chain named by [FLARE_CHAIN_ID], for a transaction that the node
    knows together with its receipt and whose receipt target is the
    address in [FDC_ATTESTATION_CONTRACT]; its block number is the one of
    the receipt and its log count is the number of logs of the contract in
    that block that carry the transaction hash. *)
Theorem report_provenance
    (rt : Runtime) (env : Env) (p : Provider) (fs : Files) (att : Attestation) :
  checkAttestation rt env p fs = inr att ->
  exists expected contract receipt blockLogs,
    configured rt env expected contract /\
    getNetwork p = inr expected /\
    getTransaction p (txHash att) = inr true /\
    getTransactionReceipt p (txHash att) = inr (Some receipt) /\
    getAddress rt (receipt_to receipt) = Some contract /\
    blockNumber att = receipt_blockNumber receipt /\
    getLogs p (blockNumber att) = inr blockLogs /\
    attestationLogsInBlock att =
      length (List.filter (String.eqb (txHash att)) blockLogs).
Proof.
  intros H. unfold checkAttestation in H. invert_binds H.
  injection H as <-. simpl.
  repeat match goal with
         | E : await _ = inr _ |- _ => apply await_inr in E
         | E : must _ _ = inr _ |- _ => apply must_inr in E
         | E : assertRealMode _ _ = inr _ |- _ => apply assertRealMode_inr in E
         | E : mustEnv _ _ = inr _ |- _ => apply mustEnv_inr in E
         | E : throwIf _ _ = inr _ |- _ =>
             apply throwIf_inr, negb_false_iff, Z.eqb_eq in E
         end.
  match goal with
  | E : (if ?tx then _ else None) = Some _ |- _ => destruct tx; [|discriminate]
  end.
  subst.
  match goal with
  | Hn : getNetwork p = inr ?e, Ha : getAddress rt (receipt_to ?r) = Some ?c
    |- _ => exists e, c, r
  end.
  eexists. repeat split; eauto; unfold configured; try congruence.
Qed.

Lemma report_provenance_witness :
  checkAttestation Fixture.rt Fixture.env_execute
    (Fixture.provider 120 (inr true) (inr true)) (Fixture.files None)
  = inr (Fixture.report 120) /\
  exists expected,
    getNetwork (Fixture.provider 120 (inr true) (inr true)) = inr expected.
Proof.
  assert (H : checkAttestation Fixture.rt Fixture.env_execute
                (Fixture.provider 120 (inr true) (inr true))
                (Fixture.files None)
              = inr (Fixture.report 120)) by (vm_compute; reflexivity).
  split; [exact H|].
  destruct (report_provenance _ _ _ _ _ H)
    as (expected & _ & _ & _ & _ & Hnet & _).
  exists expected. exact Hnet.
Defined.
(** X8: which transaction is checked.  A non-empty [ATTESTATION_TX_HASH]
    wins over the hash recorded in [request_submission.json]; without it
    the recorded hash is taken; the hash of a report is never empty.  With
    the configuration in place but neither source giving a hash, the checker
    throws its missing-hash error without asking the node anything. *)
Theorem checked_transaction_hash
    (rt : Runtime) (env : Env) (p : Provider) (fs : Files) :
  (forall att,
      checkAttestation rt env p fs = inr att ->
      txHash att <> EmptyString /\
      (forall h, env !! "ATTESTATION_TX_HASH" = Some h -> h <> EmptyString ->
                 txHash att = h) /\
      (nonempty (env !! "ATTESTATION_TX_HASH") = None ->
       exists record,
         requestSubmission fs = Some record /\
         sub_txHash record = Some (txHash att))) /\
  (forall expected contract,
      configured rt env expected contract ->
      nonempty (env !! "ATTESTATION_TX_HASH") = None ->
      (forall record, requestSubmission fs = Some record ->
                      nonempty (sub_txHash record) = None) ->
      forall p', checkAttestation rt env p' fs = inl TxHashMissing).
Proof.
  assert (Hne : forall v s, nonempty v = Some s ->
                            v = Some s /\ s <> EmptyString).
  { intros [t|] s0; simpl; [|discriminate].
    destruct (String.eqb t EmptyString) eqn:He; [discriminate|].
    intros [= ->]. apply String.eqb_neq in He. auto. }
  split.
  - intros att H.
    apply checkAttestation_inr in H as (? & ? & ? & ? & ? & _ & Hhash & _).
    unfold txHashOf in Hhash.
    destruct (nonempty (env !! "ATTESTATION_TX_HASH")) as [h0|] eqn:Henv.
    + injection Hhash as <-. apply Hne in Henv as [Henv Hnz].
      split; [exact Hnz|]. split; [|discriminate].
      intros h Hh _. congruence.
    + destruct (requestSubmission fs) as [record|]; simpl in Hhash;
        [|discriminate].
      apply Hne in Hhash as [Hrec Hnz].
      split; [exact Hnz|]. split.
      * intros h Hh Hhz. rewrite Hh in Henv. simpl in Henv.
        apply String.eqb_neq in Hhz. rewrite Hhz in Henv. discriminate.
      * intros _. exists record. auto.
  - intros expected contract Hconf Hnone Hfile p'.
    rewrite (checkAttestation_configured _ _ _ _ _ _ Hconf).
    unfold txHashOf. rewrite Hnone.
    destruct (requestSubmission fs) as [record|]; simpl; [|reflexivity].
    rewrite (Hfile record eq_refl). reflexivity.
Qed.

Lemma checked_transaction_hash_witness :
  configured Fixture.rt (delete "ATTESTATION_TX_HASH" Fixture.env_execute) 114 77 /\
  checkAttestation Fixture.rt (delete "ATTESTATION_TX_HASH" Fixture.env_execute)
    Fixture.provider_chain16 (mkFiles None None None) = inl TxHashMissing.
Proof.
  assert (Hconf : configured Fixture.rt
                    (delete "ATTESTATION_TX_HASH" Fixture.env_execute) 114 77).
  { unfold configured. split; [vm_compute; reflexivity|].
    split; [vm_compute; discriminate|].
    split; [exists "114"; split; vm_compute; reflexivity|].
    split; [exists "77"; split; vm_compute; reflexivity|].
    vm_compute. discriminate. }
  split; [exact Hconf|].
  refine (proj2 (checked_transaction_hash Fixture.rt
                   (delete "ATTESTATION_TX_HASH" Fixture.env_execute)
                   Fixture.provider_chain16 (mkFiles None None None))
                114 77 Hconf _ _ Fixture.provider_chain16).
  - vm_compute. reflexivity.
  - intros record Hr. discriminate Hr.
Defined.

(** X9: confirmations only grow with the chain.  When the same
    attestation is checked against a node at height [h1] and against one
    at a height [h2 >= h1] that gives the same receipt, the second report
    has at least as many confirmations (exactly [h2 - h1] more), and when
    the first report is confirmed so is the second. *)
Theorem confirmations_grow_with_height
    (rt : Runtime) (env : Env) (p1 p2 : Provider) (fs : Files)
    (att1 att2 : Attestation) (h1 h2 : Z) :
  checkAttestation rt env p1 fs = inr att1 ->
  checkAttestation rt env p2 fs = inr att2 ->
  getTransactionReceipt p1 (txHash att1) = getTransactionReceipt p2 (txHash att1) ->
  getBlockNumber p1 = inr h1 -> getBlockNumber p2 = inr h2 ->
  h1 <= h2 ->
  txHash att2 = txHash att1 /\
  confirmations att2 = confirmations att1 + (h2 - h1) /\
  confirmations att1 <= confirmations att2 /\
  (confirmed att1 = Some true -> confirmed att2 = Some true).
Proof.
  intros Hc1 Hc2 Hsame Hh1 Hh2 Hle.
  apply checkAttestation_inr in Hc1
    as (r1 & l1 & ? & ? & ? & _ & Hx1 & Hr1 & Hl1 & _ & _ & _ & _ & _ & Hn1
        & Hd1 & _).
  apply checkAttestation_inr in Hc2
    as (r2 & l2 & ? & ? & ? & _ & Hx2 & Hr2 & Hl2 & _ & _ & _ & _ & _ & Hn2
        & Hd2 & _).
  assert (Hhash : txHash att2 = txHash att1) by congruence.
  rewrite Hhash in Hr2. rewrite Hsame in Hr1.
  assert (r1 = r2) by congruence. subst r2.
  assert (l1 = h1) by congruence. assert (l2 = h2) by congruence. subst.
  unfold confirmationsOf in *.
  split; [exact Hhash|]. split; [lia|]. split; [lia|].
  rewrite Hd1, Hd2. unfold confirmedOf, ge.
  destruct (CheckAttestation.confirmationsRequiredOf rt env) as [n|];
    [|discriminate].
  intros [= Hge]. f_equal. apply Z.leb_le in Hge. apply Z.leb_le. lia.
Qed.

Lemma confirmations_grow_with_height_witness :
  105 <= 120 /\
  confirmations (Fixture.report 120) = confirmations (Fixture.report 105) + 15.
Proof.
  split; [lia|].
  refine (proj1 (proj2 (confirmations_grow_with_height Fixture.rt
            Fixture.env_execute
            (Fixture.provider 105 (inr true) (inr true))
            (Fixture.provider 120 (inr true) (inr true))
            (Fixture.files None) (Fixture.report 105) (Fixture.report 120)
            105 120 _ _ _ _ _ _))); try reflexivity; try lia;
    vm_compute; reflexivity.
Defined.

End CheckerProperties.

(** ** The request range *)

Module RangeFacts.
Import Js CheckAttestation Configured.

Lemma append_cons c (a b : string) :
  (String c a ++ b)%string = String c (a ++ b)%string.
Proof. reflexivity. Qed.

Lemma prefix_and_slice k : forall s,
  String.length (substring 0 k s) = k ->
  s = (substring 0 k s ++ slice k s)%string.
Proof.
  induction k as [|k IH]; intros s Hlen.
  - destruct s; reflexivity.
  - destruct s as [|c s]; [discriminate|].
    simpl in *. rewrite append_cons. f_equal. apply IH. lia.
Qed.

Lemma cut_at n : forall s k,
  String.length (substring n k s) = k ->
  s = (substring 0 n s ++ substring n k s ++ slice (n + k) s)%string.
Proof.
  induction n as [|n IH]; intros s k Hlen.
  - replace (substring 0 0 s) with EmptyString by (destruct s; reflexivity).
    simpl. apply prefix_and_slice, Hlen.
  - destruct s as [|c s].
    + simpl in *. subst k. reflexivity.
    + simpl in *. rewrite append_cons. f_equal. apply IH, Hlen.
Qed.

Lemma marker_found url idx :
  String.index 0 marker url = Some idx ->
  url = (substring 0 idx url ++ marker
         ++ slice (idx + String.length marker) url)%string.
Proof.
  intros Hidx. pose proof (String.index_correct1 _ _ _ _ Hidx) as Hsub.
  rewrite <- Hsub at 1. apply cut_at. rewrite Hsub. reflexivity.
Qed.

(** The first chunk of a split, and what follows it. *)
Lemma split_head sep : forall s c0 tl,
  split sep s = c0 :: tl ->
  has_char sep c0 = false /\
  ((tl = [] /\ s = c0) \/
   (exists s', s = (c0 ++ String sep s')%string /\ split sep s' = tl)).
Proof.
  induction s as [|c s IH]; intros c0 tl Hsplit; simpl in Hsplit.
  - injection Hsplit as <- <-. split; [reflexivity|]. left. auto.
  - destruct (split sep s) as [|cur rest] eqn:Hs.
    + injection Hsplit as <- <-. split; [reflexivity|].
      destruct s; simpl in Hs; [discriminate|].
      destruct (split sep s); [discriminate|].
      destruct (Ascii.eqb _ sep); discriminate.
    + destruct (IH cur rest eq_refl) as (Hno & Hshape).
      destruct (Ascii.eqb c sep) eqn:Hc.
      * injection Hsplit as <- <-. apply Ascii.eqb_eq in Hc. subst c.
        split; [reflexivity|]. right. exists s. split; [reflexivity|exact Hs].
      * injection Hsplit as <- <-. split; [simpl; rewrite Hc; exact Hno|].
        destruct Hshape as [[-> ->]|(s' & -> & Hs')].
        -- left. auto.
        -- right. exists s'. split; [reflexivity|exact Hs'].
Qed.

Lemma split_nonempty sep s : split sep s <> [].
Proof.
  destruct s as [|c s]; simpl; [discriminate|].
  destruct (split sep s); [discriminate|].
  destruct (Ascii.eqb c sep); discriminate.
Qed.

Lemma append_empty_r (a : string) : (a ++ EmptyString)%string = a.
Proof.
  induction a as [|x a IH]; [reflexivity|]. rewrite append_cons. by rewrite IH.
Qed.

(** The first two chunks of a split. *)
Lemma split_two sep s c0 c1 rest :
  split sep s = c0 :: c1 :: rest ->
  has_char sep c0 = false /\ has_char sep c1 = false /\
  exists post,
    s = (c0 ++ String sep (c1 ++ post))%string /\
    (post = EmptyString \/ exists post', post = String sep post').
Proof.
  intros Hsplit.
  destruct (split_head sep s c0 _ Hsplit) as (H0 & [[Hnil _]|(s' & -> & Hs')]);
    [discriminate|].
  destruct (split_head sep s' c1 _ Hs') as (H1 & Hshape).
  split; [exact H0|]. split; [exact H1|].
  destruct Hshape as [[-> ->]|(s'' & -> & _)].
  - exists EmptyString. split; [|left; reflexivity].
    by rewrite append_empty_r.
  - exists (String sep s''). split; [reflexivity|]. right. eauto.
Qed.

End RangeFacts.

Section RangeProperties.
Import Js CheckAttestation Configured RangeFacts.

(** X10: a parsed range is read off the URL.  When [parseRequestRange]
    returns a range, the URL consists of some prefix, the marker
    ["/intensity/"], the start text, a slash, the end text and then either
    nothing or a further slash-led tail; the start and end texts contain no
    slash, they are the texts that [Date.parse] turned into the start and
    end instants, and [valid] says whether the end is strictly later. *)
Theorem range_is_read_off_the_url (rt : Runtime) (url : string) (r : Range) :
  parseRequestRange rt url = Some r ->
  exists pre post,
    url = (pre ++ marker ++ startIso r ++ String "/" (endIso r ++ post))%string /\
    (post = EmptyString \/ exists post', post = String "/" post') /\
    has_char "/" (startIso r) = false /\
    has_char "/" (endIso r) = false /\
    Date_parse rt (startIso r) = Some (startMs r) /\
    Date_parse rt (endIso r) = Some (endMs r) /\
    valid r = (startMs r <? endMs r).
Proof.
  unfold parseRequestRange.
  destruct (String.index 0 marker url) as [idx|] eqn:Hidx; [|discriminate].
  destruct (split "/" (slice (idx + String.length marker) url))
    as [|c0 [|c1 rest]] eqn:Hseg; try discriminate.
  destruct (Date_parse rt c0) as [start|] eqn:Hs; [|discriminate].
  destruct (Date_parse rt c1) as [end_|] eqn:He; [|discriminate].
  intros [= <-]. simpl.
  destruct (split_two _ _ _ _ _ Hseg) as (H0 & H1 & post & Htail & Hpost).
  exists (substring 0 idx url), post.
  split; [|auto 10].
  rewrite <- Htail. apply marker_found, Hidx.
Qed.

Lemma range_is_read_off_the_url_witness :
  parseRequestRange Fixture.rt Fixture.url_ok =
    Some (mkRange "2024-01-01T00:00Z" "2024-01-02T00:00Z"
                  1704067200000 1704153600000 true) /\
  exists pre post,
    Fixture.url_ok =
      (pre ++ marker ++ "2024-01-01T00:00Z"
       ++ String "/" ("2024-01-02T00:00Z" ++ post))%string.
Proof.
  assert (H : parseRequestRange Fixture.rt Fixture.url_ok =
              Some (mkRange "2024-01-01T00:00Z" "2024-01-02T00:00Z"
                            1704067200000 1704153600000 true)) by reflexivity.
  split; [exact H|].
  destruct (range_is_read_off_the_url _ _ _ H) as (pre & post & Hurl & _).
  exists pre, post. exact Hurl.
Defined.

End RangeProperties.

(** ** The reward flow: what is sent, by whom, and when nothing is *)

Module FlowShapeFacts.
Import Js Errors CheckAttestation RewardFlow FlowShape.
Import CheckAttestationFacts RewardFlowFacts CheckerOrder.

Lemma yields_lift_eq {A} q (r : Result A) :
  yields q (fun a => r = inr a) (fun L _ => lift (L:=L) r).
Proof.
  exists [], r. split; [constructor|]. split; [trivial|]. intros.
  unfold lift. by rewrite extend_nil.
Qed.

Lemma yields_perform_eq {A} q (st : Step) (r : Rpc_ A) :
  q st = true ->
  yields q (fun a => r = inr a) (fun L _ => perform (L:=L) st r).
Proof.
  intros Hq. exists [st], (await r).
  split; [repeat constructor; exact Hq|].
  split; [intros a Ha; apply await_inr, Ha|]. reflexivity.
Qed.

Lemma yields_attempt_eq {A} q (st : Step) (r : Rpc_ A) :
  q st = true ->
  yields q (fun o => o = match r with inl _ => None | inr a => Some a end)
         (fun L _ => attempt (L:=L) st r).
Proof.
  intros Hq.
  exists [st], (inr (match r with inl _ => None | inr a => Some a end)).
  split; [repeat constructor; exact Hq|].
  split; [by intros ? [= <-]|]. reflexivity.
Qed.

Lemma yields_record_eq q (st : Step) :
  q st = true -> yields q (fun _ => True) (fun L _ => record (L:=L) st).
Proof. apply yields_record. Qed.

(** Sequencing, with what the first part returned known in the second. *)
Lemma yields_bind_with {A B} q (P : A -> Prop) (Q : B -> Prop)
    (m : forall L, LedgerClient L -> Flow L A)
    (k : A -> forall L, LedgerClient L -> Flow L B) :
  yields q P m -> (forall a, P a -> yields q Q (k a)) ->
  yields q Q (fun L c => m L c ≫= (fun a => k a L c)).
Proof.
  intros (steps & r & Hq & HP & Hm) Hk. destruct r as [e|a].
  - exists steps, (inl e). split; [exact Hq|]. split; [discriminate|].
    intros L c s. unfold mbind, Flow_bind. rewrite Hm. reflexivity.
  - destruct (Hk a (HP a eq_refl)) as (steps' & r' & Hq' & HQ & Hk').
    exists (steps ++ steps'), r'. split; [by apply all_steps_app|].
    split; [exact HQ|].
    intros L c s. unfold mbind, Flow_bind. rewrite Hm, Hk'.
    by rewrite extend_extend.
Qed.

Lemma sends_such_bind {A} (T : SentTx -> Prop) (P : A -> Prop)
    (Q : RewardOutcome -> Prop)
    (m : forall L, LedgerClient L -> Flow L A)
    (k : A -> forall L, LedgerClient L -> Flow L RewardOutcome) att :
  yields is_quiet P m ->
  (forall a, P a -> yields is_quiet Q (k a) \/ sends_such T (k a) att) ->
  yields is_quiet Q (fun L c => m L c ≫= (fun a => k a L c)) \/
  sends_such T (fun L c => m L c ≫= (fun a => k a L c)) att.
Proof.
  intros (steps & r & Hq & HP & Hm) Hk. destruct r as [e|a].
  - left. exists steps, (inl e). split; [exact Hq|]. split; [discriminate|].
    intros L c s. unfold mbind, Flow_bind. rewrite Hm. reflexivity.
  - destruct (Hk a (HP a eq_refl))
      as [(steps' & r' & Hq' & HQ & Hk')|(steps' & tx & Hq' & HT & Hk')].
    + left. exists (steps ++ steps'), r'. split; [by apply all_steps_app|].
      split; [exact HQ|].
      intros L c s. unfold mbind, Flow_bind. rewrite Hm, Hk'.
      by rewrite extend_extend.
    + right. exists (steps ++ steps'), tx. split; [by apply all_steps_app|].
      split; [exact HT|].
      intros L c s. unfold mbind, Flow_bind. rewrite Hm, Hk'.
      unfold sent, extend. simpl.
      destruct (sendTransaction c (ledger s) tx) as [[e|hash] l'];
        by rewrite <- !app_assoc.
Qed.

Lemma sends_such_tail (T : SentTx -> Prop) att tx :
  T tx ->
  sends_such T
    (fun L c =>
       send c tx ≫= (fun hash =>
       waitFor c hash ≫= (fun rewardBlock =>
       pure (LiveOutcome att (Some hash) (Some rewardBlock))))) att.
Proof.
  intros HT. destruct (sends_tail att tx) as (steps & tx' & Hq & Hm).
  exists [], tx. split; [constructor|]. split; [exact HT|].
  intros L c s.
  unfold mbind, Flow_bind, send, waitFor, pure, sent. simpl.
  destruct (sendTransaction c (ledger s) tx) as [[e|hash] l']; simpl;
    [reflexivity|].
  rewrite <- app_assoc. destruct (wait c l' hash); reflexivity.
Qed.

Ltac head_tracked :=
  first [ apply yields_lift_eq
        | apply yields_perform_eq; reflexivity
        | apply yields_attempt_eq; reflexivity
        | apply yields_record_eq; reflexivity ].

(** Turns what was returned along the way into plain facts. *)
Ltac plain_facts :=
  repeat match goal with
         | E : await _ = inr _ |- _ => apply await_inr in E
         | E : must _ _ = inr _ |- _ => apply must_inr in E
         | E : mustEnv _ _ = inr _ |- _ => apply mustEnv_inr in E
         | E : throwIf _ _ = inr _ |- _ => apply throwIf_inr in E
         end.

(** Walks down a flow, keeping what each part returned; [leaf_send] settles
    what is asked of the transaction at a send, [leaf_value] what is asked
    of a value that is returned. *)
Ltac track leaf_send leaf_value :=
  cbv beta zeta;
  lazymatch goal with
  | |- _ \/ sends_such _ (fun L c => mbind _ (send _ _)) _ =>
      right; apply sends_such_tail; plain_facts; leaf_send
  | |- _ \/ sends_such _ (fun L c => mbind (@?k L c) (@?m L c)) _ =>
      eapply (sends_such_bind _ _ _ m (fun a L c => k L c a));
      [head_tracked | intros ? ?; track leaf_send leaf_value]
  | |- _ \/ sends_such _ (fun L c => if ?b then _ else _) _ =>
      destruct b eqn:?; track leaf_send leaf_value
  | |- _ \/ sends_such _ (fun L c => match ?x with _ => _ end) _ =>
      destruct x eqn:?; track leaf_send leaf_value
  | |- _ \/ sends_such _ (fun L c => pure _) _ =>
      left; apply yields_pure; plain_facts; leaf_value
  end.

Ltac settle_chain :=
  cbv beta in *; plain_facts;
  repeat match goal with
         | E : negb (_ =? _) = false |- _ =>
             apply negb_false_iff, Z.eqb_eq in E; subst
         | E : negb _ = false |- _ => apply negb_false_iff in E
         end.

Ltac settle_pieces := repeat first [eassumption | reflexivity | split | eexists].

Lemma proceed_tracked rt env p required att :
  yields is_quiet (quiet_outcome rt env p required att)
         (fun L c => proceed rt env p c required att) \/
  sends_such (ready_to_send rt env p)
             (fun L c => proceed rt env p c required att) att.
Proof.
  unfold proceed.
  track ltac:(settle_chain; unfold ready_to_send, is_reward_call; simpl;
              settle_pieces)
        ltac:(settle_chain; unfold quiet_outcome, is_dry_run_of;
              first [ left; split; [assumption|]; settle_pieces
                    | right; split; [assumption|]; split; [assumption|];
                      first [ left; split; [assumption|reflexivity]
                            | right; subst; settle_pieces ] ]).
Qed.

Lemma sends_such_ext T (m m' : forall L, LedgerClient L -> Flow L RewardOutcome)
    att :
  (forall L c s, m L c s = m' L c s) -> sends_such T m' att -> sends_such T m att.
Proof.
  intros Heq (steps & tx & Hq & HT & Hm). exists steps, tx.
  split; [exact Hq|]. split; [exact HT|]. intros L c s. rewrite Heq. apply Hm.
Qed.

(** A whole run either returns without sending, or passes the gate and
    sends the reward call. *)
Lemma runRewardFlow_tracked rt env p fs :
  yields is_quiet
         (fun out => exists att,
              checkAttestation rt env p fs = inr att /\
              passes (confirmationsRequiredOf rt env) att /\
              quiet_outcome rt env p (confirmationsRequiredOf rt env) att out)
         (fun L c => runRewardFlow rt env p fs c) \/
  exists att,
    checkAttestation rt env p fs = inr att /\
    passes (confirmationsRequiredOf rt env) att /\
    sends_such (ready_to_send rt env p)
               (fun L c => runRewardFlow rt env p fs c) att.
Proof.
  destruct (assertRealMode env "run_reward_flow.js") as [e|u] eqn:Hmode.
  { left. apply (yields_ext _ (fun _ => False) _ _
                            (fun L _ => lift (L:=L) (inl e)));
      [|tauto|apply yields_throw].
    intros. rewrite runRewardFlow_eq, Hmode. reflexivity. }
  destruct (checkAttestation rt env p fs) as [e|att] eqn:Hcheck.
  { left. apply (yields_ext _ (fun _ => False) _ _
                            (fun L _ => lift (L:=L) (inl e)));
      [|tauto|apply yields_throw].
    intros. rewrite runRewardFlow_eq, Hmode, Hcheck. reflexivity. }
  destruct (gate (confirmationsRequiredOf rt env) att) as [e|[]] eqn:Hgate.
  { left. apply (yields_ext _ (fun _ => False) _ _
                            (fun L _ => lift (L:=L) (inl e)));
      [|tauto|apply yields_throw].
    intros. rewrite runRewardFlow_eq, Hmode, Hcheck.
    apply rewardAttestation_blocked, Hgate. }
  assert (Heq : forall L (c : LedgerClient L) s,
             runRewardFlow rt env p fs c s =
             proceed rt env p c (confirmationsRequiredOf rt env) att s).
  { intros. rewrite runRewardFlow_eq, Hmode, Hcheck.
    apply rewardAttestation_passed, Hgate. }
  destruct (proceed_tracked rt env p (confirmationsRequiredOf rt env) att)
    as [Hquiet|Hsends].
  - left. eapply yields_ext; [exact Heq| |exact Hquiet].
    intros out Hout. exists att. split; [reflexivity|].
    split; [apply gate_inr, Hgate|exact Hout].
  - right. exists att. split; [reflexivity|].
    split; [apply gate_inr, Hgate|].
    exact (sends_such_ext _ _ _ _ Heq Hsends).
Qed.

(** What a run that sends leaves behind. *)
Lemma sent_effect {L} (c : LedgerClient L) att steps tx0 (s : FlowState L) :
  quiet_steps steps ->
  ledger (snd (sent c att steps tx0 s)) =
    snd (sendTransaction c (ledger s) tx0) /\
  In (StepSend tx0) (trace (snd (sent c att steps tx0 s))) /\
  (forall tx, In (StepSend tx) (trace (snd (sent c att steps tx0 s))) ->
              In (StepSend tx) (trace s) \/ tx = tx0).
Proof.
  intros Hq. unfold sent.
  destruct (sendTransaction c (ledger s) tx0) as [[e|hash] l']; simpl.
  - split; [reflexivity|]. split.
    + apply in_or_app. right. apply in_or_app. right. left. reflexivity.
    + intros tx Hin. apply in_app_or in Hin as [Hin|Hin]; [auto|].
      apply in_app_or in Hin as [Hin|[Hin|[]]].
      * exfalso. exact (quiet_not_sent _ _ Hq Hin).
      * right. congruence.
  - split; [reflexivity|]. split.
    + apply in_or_app. right. apply in_or_app. right. left. reflexivity.
    + intros tx Hin. apply in_app_or in Hin as [Hin|Hin]; [auto|].
      apply in_app_or in Hin as [Hin|[Hin|[Hin|[]]]].
      * exfalso. exact (quiet_not_sent _ _ Hq Hin).
      * right. congruence.
      * discriminate.
Qed.

Lemma proceed_relabel {L} rt env p (c : LedgerClient L) required att att' s :
  proceed rt env p c required att s =
  relabel att (proceed rt env p c required att' s).
Proof.
  unfold proceed, relabel, mbind, Flow_bind, lift, perform, record, attempt,
    pure, send, waitFor.
  repeat match goal with
         | |- context [match ?x with _ => _ end] => destruct x; simpl
         end;
    reflexivity.
Qed.

Lemma functionArgsOf_inr rt env items :
  functionArgsOf rt env = inr items ->
  exists text,
    nonempty (env !! "REWARD_FUNCTION_ARGS_JSON") = Some text /\
    JSON_parse rt text = Some (JArr items).
Proof.
  unfold functionArgsOf.
  destruct (nonempty (env !! "REWARD_FUNCTION_ARGS_JSON")) as [text|];
    simpl; [|discriminate].
  destruct (JSON_parse rt text) as [[]|] eqn:Hparse; simpl; try discriminate.
  intros [= <-]. exists text. split; [reflexivity|exact Hparse].
Qed.

(** The flow asks the node nothing before its configuration is complete. *)
Lemma proceed_needs_configuration {L} rt env p (c : LedgerClient L)
    required att s :
  trace (snd (proceed rt env p c required att s)) <> trace s ->
  reward_configured rt env.
Proof.
  unfold proceed, mbind, Flow_bind, lift.
  destruct (mustEnv env "FLARE_RPC_URL") as [e|rpc] eqn:Hrpc;
    [intros H; exfalso; apply H; reflexivity|].
  destruct (mustEnv env "FLARE_CHAIN_ID") as [e|chainText] eqn:Hchain;
    [intros H; exfalso; apply H; reflexivity|].
  destruct (must (BigInt rt chainText) (BadBigInt chainText))
    as [e|expected] eqn:Hbig; [intros H; exfalso; apply H; reflexivity|].
  destruct (mustEnv env "REWARD_CONTRACT_ADDRESS") as [e|addrText] eqn:Haddr;
    [intros H; exfalso; apply H; reflexivity|].
  destruct (must (getAddress rt addrText) (BadAddress addrText))
    as [e|address] eqn:Hget; [intros H; exfalso; apply H; reflexivity|].
  destruct (functionAbiOf rt env) as [e|abi] eqn:Habi;
    [intros H; exfalso; apply H; reflexivity|].
  destruct (functionArgsOf rt env) as [e|items] eqn:Hargs;
    [intros H; exfalso; apply H; reflexivity|].
  intros _. plain_facts.
  destruct (functionArgsOf_inr _ _ _ Hargs) as (text & Htext & Hparse).
  unfold reward_configured. rewrite Hrpc.
  split; [discriminate|]. repeat split; eauto 10.
Qed.

Lemma proceed_without_arguments {L} rt env p (c : LedgerClient L)
    required att s e :
  functionArgsOf rt env = inl e ->
  snd (proceed rt env p c required att s) = s.
Proof.
  intros Hargs. unfold proceed, mbind, Flow_bind, lift.
  destruct (mustEnv env "FLARE_RPC_URL") as [?|rpc]; [reflexivity|].
  destruct (mustEnv env "FLARE_CHAIN_ID") as [?|chainText]; [reflexivity|].
  destruct (must (BigInt rt chainText) (BadBigInt chainText))
    as [?|expected]; [reflexivity|].
  destruct (mustEnv env "REWARD_CONTRACT_ADDRESS") as [?|addrText];
    [reflexivity|].
  destruct (must (getAddress rt addrText) (BadAddress addrText))
    as [?|address]; [reflexivity|].
  destruct (functionAbiOf rt env) as [?|abi]; [reflexivity|].
  rewrite Hargs. reflexivity.
Qed.

End FlowShapeFacts.

Section FlowProperties.
Import Js Errors CheckAttestation RewardFlow FlowShape.
Import CheckAttestationFacts RewardFlowFacts FlowShapeFacts.

(** X11: in MetaMask signer mode the flow never sends.  Whatever [DRY_RUN]
    says, a run with [SIGNER_MODE] set to metamask (in any letter case,
    padded or not) leaves the ledger as it was and adds no send to the
    trace.  When it succeeds live it gives back either no reward hash, when
    [REWARD_TX_HASH] is not set, or that very hash with the block of its
    receipt, and then only if the receipt exists and has at least the
    required confirmations. *)
Theorem metamask_mode_only_polls {L}
    (rt : Runtime) (env : Env) (p : Provider) (fs : Files)
    (client : LedgerClient L) (s : FlowState L) :
  String.eqb (signerModeOf env) "metamask" = true ->
  let run := runRewardFlow rt env p fs client s in
  ledger (snd run) = ledger s /\
  (forall tx, In (StepSend tx) (trace (snd run)) -> In (StepSend tx) (trace s)) /\
  (forall out,
      fst run = inr out ->
      exists att,
        checkAttestation rt env p fs = inr att /\
        passes (confirmationsRequiredOf rt env) att /\
        quiet_outcome rt env p (confirmationsRequiredOf rt env) att out).
Proof.
  intros Hmeta run. subst run.
  destruct (runRewardFlow_tracked rt env p fs)
    as [(steps & r & Hq & Hr & Hm)|(att & _ & _ & steps & tx & _ & Hready & _)].
  - rewrite Hm. simpl. split; [reflexivity|]. split; [|exact Hr].
    intros tx Hin. apply in_app_or in Hin as [Hin|Hin]; [exact Hin|].
    exfalso. exact (quiet_not_sent _ _ Hq Hin).
  - destruct Hready as (_ & _ & Hnot & _). congruence.
Qed.

Lemma metamask_mode_only_polls_witness :
  String.eqb (signerModeOf Fixture.env_metamask) "metamask" = true /\
  ledger (snd (runRewardFlow Fixture.rt Fixture.env_metamask
                 (Fixture.provider 120 (inr true) (inr true))
                 (Fixture.files None) (ExecutorNode.client Fixture.node)
                 (start Fixture.ledger7)))
  = Fixture.ledger7.
Proof.
  assert (Hmeta : String.eqb (signerModeOf Fixture.env_metamask) "metamask"
                  = true) by (vm_compute; reflexivity).
  split; [exact Hmeta|].
  exact (proj1 (metamask_mode_only_polls Fixture.rt Fixture.env_metamask
                  (Fixture.provider 120 (inr true) (inr true))
                  (Fixture.files None) (ExecutorNode.client Fixture.node)
                  (start Fixture.ledger7) Hmeta)).
Defined.

(** X12: what a run sends.  When a run adds a send to the trace, the run is
    live ([DRY_RUN] is "0") and not in MetaMask mode, the checker's report
    passed the gate, the node is on the chain of [FLARE_CHAIN_ID], and the
    transaction goes from the wallet of [FLARE_SIGNER_KEY] to
    [REWARD_CONTRACT_ADDRESS], calling [REWARD_FUNCTION_NAME] (by default
    [executeReward]) with the array of [REWARD_FUNCTION_ARGS_JSON].  It is
    the only send of the run, and the ledger after the run is the ledger
    after that one transaction. *)
Theorem what_a_run_sends {L}
    (rt : Runtime) (env : Env) (p : Provider) (fs : Files)
    (client : LedgerClient L) (s : FlowState L) (tx : SentTx) :
  let run := runRewardFlow rt env p fs client s in
  In (StepSend tx) (trace (snd run)) -> ~ In (StepSend tx) (trace s) ->
  ready_to_send rt env p tx /\
  (exists att,
      checkAttestation rt env p fs = inr att /\
      passes (confirmationsRequiredOf rt env) att) /\
  (forall tx', In (StepSend tx') (trace (snd run)) ->
               In (StepSend tx') (trace s) \/ tx' = tx) /\
  ledger (snd run) = snd (sendTransaction client (ledger s) tx).
Proof.
  intros run Hin Hnew. subst run.
  destruct (runRewardFlow_tracked rt env p fs)
    as [(steps & r & Hq & Hr & Hm)
       |(att & Hcheck & Hpass & steps & tx0 & Hq & Hready & Hm)].
  - rewrite Hm in Hin. simpl in Hin.
    apply in_app_or in Hin as [Hin|Hin]; [contradiction|].
    exfalso. exact (quiet_not_sent _ _ Hq Hin).
  - rewrite Hm in Hin |- *.
    destruct (sent_effect client att steps tx0 s Hq) as (Hledger & _ & Honly).
    destruct (Honly tx Hin) as [Hold| ->]; [contradiction|].
    split; [exact Hready|]. split; [eauto|]. split; [exact Honly|exact Hledger].
Qed.

Lemma what_a_run_sends_witness :
  In (StepSend Fixture.reward_tx)
     (trace (snd (runRewardFlow Fixture.rt Fixture.env_execute
                    (Fixture.provider 120 (inr true) (inr true))
                    (Fixture.files None) (ExecutorNode.client Fixture.node)
                    (start Fixture.ledger7)))) /\
  ready_to_send Fixture.rt Fixture.env_execute
    (Fixture.provider 120 (inr true) (inr true)) Fixture.reward_tx.
Proof.
  assert (Hin : In (StepSend Fixture.reward_tx)
                   (trace (snd (runRewardFlow Fixture.rt Fixture.env_execute
                      (Fixture.provider 120 (inr true) (inr true))
                      (Fixture.files None) (ExecutorNode.client Fixture.node)
                      (start Fixture.ledger7)))))
    by (vm_compute; auto 10).
  split; [exact Hin|].
  refine (proj1 (what_a_run_sends Fixture.rt Fixture.env_execute
                   (Fixture.provider 120 (inr true) (inr true))
                   (Fixture.files None) (ExecutorNode.client Fixture.node)
                   (start Fixture.ledger7) Fixture.reward_tx Hin _)).
  simpl. tauto.
Defined.

(** X13: the reward call does not depend on the report beyond the gate.
    For any two reports that pass the gate, the flow takes the same steps,
    sends the same transaction and leaves the same ledger; the two results
    differ only in the report that the outcome echoes.  In particular
    nothing ties the [attestationTxHash] argument of the call to the
    transaction hash of the attestation that was verified. *)
Theorem reward_call_ignores_the_report {L}
    (rt : Runtime) (env : Env) (p : Provider) (client : LedgerClient L)
    (att att' : Attestation) (s : FlowState L) :
  passes (confirmationsRequiredOf rt env) att ->
  passes (confirmationsRequiredOf rt env) att' ->
  rewardAttestation rt env p client att s =
    relabel att (rewardAttestation rt env p client att' s) /\
  snd (rewardAttestation rt env p client att s) =
    snd (rewardAttestation rt env p client att' s).
Proof.
  intros Hp Hp'. apply gate_inr in Hp, Hp'.
  rewrite !rewardAttestation_passed by assumption.
  rewrite (proceed_relabel rt env p client _ att att' s).
  split; reflexivity.
Qed.

Lemma reward_call_ignores_the_report_witness :
  passes (confirmationsRequiredOf Fixture.rt Fixture.env_execute)
         Fixture.report_other /\
  txHash Fixture.report_other <> txHash (Fixture.report 120) /\
  snd (rewardAttestation Fixture.rt Fixture.env_execute
         (Fixture.provider 120 (inr true) (inr true))
         (ExecutorNode.client Fixture.node) Fixture.report_other
         (start Fixture.ledger7)) =
  snd (rewardAttestation Fixture.rt Fixture.env_execute
         (Fixture.provider 120 (inr true) (inr true))
         (ExecutorNode.client Fixture.node) (Fixture.report 120)
         (start Fixture.ledger7)).
Proof.
  assert (H1 : passes (confirmationsRequiredOf Fixture.rt Fixture.env_execute)
                      Fixture.report_other)
    by (vm_compute; repeat split; reflexivity).
  assert (H2 : passes (confirmationsRequiredOf Fixture.rt Fixture.env_execute)
                      (Fixture.report 120))
    by (vm_compute; repeat split; reflexivity).
  split; [exact H1|]. split; [discriminate|].
  exact (proj2 (reward_call_ignores_the_report Fixture.rt Fixture.env_execute
                  (Fixture.provider 120 (inr true) (inr true))
                  (ExecutorNode.client Fixture.node)
                  Fixture.report_other (Fixture.report 120)
                  (start Fixture.ledger7) H1 H2)).
Defined.

(** X14: the flow asks the node nothing before its configuration is
    complete.  A run on a report that adds any step to the trace had a
    report that passes the gate, [FLARE_RPC_URL] set, a [FLARE_CHAIN_ID]
    that is a big integer, a [REWARD_CONTRACT_ADDRESS] that is an address,
    an ABI fragment, and a [REWARD_FUNCTION_ARGS_JSON] that is set and
    parses to an array; when that variable is not set the arguments are
    refused as not an array. *)
Theorem no_step_before_configuration {L}
    (rt : Runtime) (env : Env) (p : Provider) (client : LedgerClient L)
    (att : Attestation) (s : FlowState L) :
  (trace (snd (rewardAttestation rt env p client att s)) <> trace s ->
   passes (confirmationsRequiredOf rt env) att /\ reward_configured rt env) /\
  (nonempty (env !! "REWARD_FUNCTION_ARGS_JSON") = None ->
   functionArgsOf rt env = inl ArgsNotArray /\
   trace (snd (rewardAttestation rt env p client att s)) = trace s /\
   ledger (snd (rewardAttestation rt env p client att s)) = ledger s).
Proof.
  assert (Hsteps : trace (snd (rewardAttestation rt env p client att s))
                   <> trace s ->
                   passes (confirmationsRequiredOf rt env) att /\
                   reward_configured rt env).
  { destruct (gate (confirmationsRequiredOf rt env) att) as [e|[]] eqn:Hg.
    - rewrite (rewardAttestation_blocked _ _ _ _ _ _ _ Hg). simpl.
      intros H. exfalso. apply H. reflexivity.
    - rewrite (rewardAttestation_passed _ _ _ _ _ _ Hg). intros Hne.
      split; [apply gate_inr, Hg|].
      exact (proceed_needs_configuration _ _ _ _ _ _ _ Hne). }
  split; [exact Hsteps|].
  intros Hnone.
  assert (Hargs : functionArgsOf rt env = inl ArgsNotArray)
    by (unfold functionArgsOf; rewrite Hnone; reflexivity).
  split; [exact Hargs|].
  destruct (gate (confirmationsRequiredOf rt env) att) as [e|[]] eqn:Hg.
  - rewrite (rewardAttestation_blocked _ _ _ _ _ _ _ Hg).
    split; reflexivity.
  - rewrite (rewardAttestation_passed _ _ _ _ _ _ Hg).
    rewrite (proceed_without_arguments _ _ _ _ _ _ _ _ Hargs).
    split; reflexivity.
Qed.

Lemma no_step_before_configuration_witness :
  nonempty (delete "REWARD_FUNCTION_ARGS_JSON" Fixture.env_execute
            !! "REWARD_FUNCTION_ARGS_JSON") = None /\
  trace (snd (rewardAttestation Fixture.rt
                (delete "REWARD_FUNCTION_ARGS_JSON" Fixture.env_execute)
                (Fixture.provider 120 (inr true) (inr true))
                (ExecutorNode.client Fixture.node) (Fixture.report 120)
                (start Fixture.ledger7))) = [].
Proof.
  assert (Hnone : nonempty (delete "REWARD_FUNCTION_ARGS_JSON"
                              Fixture.env_execute
                            !! "REWARD_FUNCTION_ARGS_JSON") = None)
    by (vm_compute; reflexivity).
  split; [exact Hnone|].
  exact (proj1 (proj2 (proj2 (no_step_before_configuration Fixture.rt
           (delete "REWARD_FUNCTION_ARGS_JSON" Fixture.env_execute)
           (Fixture.provider 120 (inr true) (inr true))
           (ExecutorNode.client Fixture.node) (Fixture.report 120)
           (start Fixture.ledger7)) Hnone))).
Defined.

End FlowProperties.

(** ** The reward flow against the recorder *)

Module ExecutorNodeFacts.
Import Js Errors RewardFlow ExecutorNode.



End ExecutorNodeFacts.

Section ExecutorProperties.
Import Js Errors CheckAttestation RewardFlow FlowShape ExecutorNode.
Import RewardFlowFacts FlowShapeFacts ExecutorNodeFacts.





End ExecutorProperties.

(** ** The command lines *)

Module CliFacts.
Import Js Errors CheckAttestation RewardFlow.

(** Induction on a list two elements at a time, as the parsers consume
    their arguments. *)
Lemma pair_induction {A} (P : list A -> Prop) :
  P [] -> (forall a, P [a]) ->
  (forall a b l, P l -> P (b :: l) -> P (a :: b :: l)) ->
  forall l, P l.
Proof.
  intros Hnil Hone Hstep l.
  assert (H : P l /\ forall a, P (a :: l)); [|exact (proj1 H)].
  induction l as [|b l [IH1 IH2]]; [split; [exact Hnil|exact Hone]|].
  split; [apply IH2|]. intros a. apply Hstep; [exact IH1|apply IH2].
Qed.

Lemma last_cons_cons {A} (a b : A) l : last (a :: b :: l) = last (b :: l).
Proof. reflexivity. Qed.

Lemma dryRunOf_false env :
  dryRunOf env = false <-> env !! "DRY_RUN" = Some "0".
Proof.
  unfold dryRunOf. rewrite negb_false_iff, bool_decide_eq_true. reflexivity.
Qed.

Lemma flow_parse_app args :
  forall rest env,
    last args <> Some "--attestation" ->
    RewardFlowCli.parseCliArgs (args ++ rest) env =
    RewardFlowCli.parseCliArgs rest (RewardFlowCli.parseCliArgs args env).
Proof.
  induction args as [|a|a b l IHl IHbl] using pair_induction;
    intros rest env Hlast.
  - reflexivity.
  - cbn [app RewardFlowCli.parseCliArgs].
    destruct (String.eqb a "--attestation") eqn:Ha.
    + apply String.eqb_eq in Ha. subst a. exfalso. apply Hlast. reflexivity.
    + destruct (String.eqb a "--dry-run"); [reflexivity|].
      destruct (String.eqb a "--execute"); reflexivity.
  - rewrite last_cons_cons in Hlast.
    change ((a :: b :: l) ++ rest) with (a :: (b :: l) ++ rest).
    cbn [RewardFlowCli.parseCliArgs].
    destruct (String.eqb a "--attestation").
    + change ((b :: l) ++ rest) with (b :: l ++ rest) at 1. cbv iota.
      destruct (String.eqb b EmptyString) eqn:Hb.
      * apply IHbl, Hlast.
      * destruct l as [|c l]; [reflexivity|]. apply IHl.
        rewrite last_cons_cons in Hlast. exact Hlast.
    + destruct (String.eqb a "--dry-run"); [apply IHbl, Hlast|].
      destruct (String.eqb a "--execute"); apply IHbl, Hlast.
Qed.

Lemma flow_parse_frame args :
  forall env k,
    k <> "ATTESTATION_TX_HASH" -> k <> "DRY_RUN" ->
    RewardFlowCli.parseCliArgs args env !! k = env !! k.
Proof.
  induction args as [|a|a b l IHl IHbl] using pair_induction;
    intros env k Hk1 Hk2.
  - reflexivity.
  - cbn [RewardFlowCli.parseCliArgs].
    destruct (String.eqb a "--attestation"); [reflexivity|].
    destruct (String.eqb a "--dry-run");
      [rewrite lookup_insert_ne by congruence; reflexivity|].
    destruct (String.eqb a "--execute");
      [rewrite lookup_insert_ne by congruence; reflexivity|reflexivity].
  - cbn [RewardFlowCli.parseCliArgs].
    destruct (String.eqb a "--attestation").
    + destruct (String.eqb b EmptyString); [apply IHbl; assumption|].
      rewrite IHl by assumption. rewrite lookup_insert_ne by congruence.
      reflexivity.
    + destruct (String.eqb a "--dry-run");
        [etransitivity; [apply IHbl; assumption|];
         apply lookup_insert_ne; congruence|].
      destruct (String.eqb a "--execute");
        [etransitivity; [apply IHbl; assumption|];
         apply lookup_insert_ne; congruence|].
      apply IHbl; assumption.
Qed.

Lemma flow_parse_live args :
  forall env,
    RewardFlowCli.parseCliArgs args env !! "DRY_RUN" = Some "0" ->
    In "--execute" args \/ env !! "DRY_RUN" = Some "0".
Proof.
  induction args as [|a|a b l IHl IHbl] using pair_induction; intros env.
  - auto.
  - cbn [RewardFlowCli.parseCliArgs].
    destruct (String.eqb a "--attestation"); [auto|].
    destruct (String.eqb a "--dry-run").
    { rewrite lookup_insert_eq. discriminate. }
    destruct (String.eqb a "--execute") eqn:He; [|auto].
    apply String.eqb_eq in He. subst a. left. left. reflexivity.
  - cbn [RewardFlowCli.parseCliArgs].
    destruct (String.eqb a "--attestation").
    + destruct (String.eqb b EmptyString).
      * intros H. destruct (IHbl _ H) as [Hin|Henv]; [left; right; exact Hin|auto].
      * intros H. destruct (IHl _ H) as [Hin|Henv];
          [left; right; right; exact Hin|].
        rewrite lookup_insert_ne in Henv by discriminate. auto.
    + destruct (String.eqb a "--dry-run").
      { intros H. destruct (IHbl _ H) as [Hin|Henv]; [left; right; exact Hin|].
        rewrite lookup_insert_eq in Henv. discriminate. }
      destruct (String.eqb a "--execute") eqn:He.
      { apply String.eqb_eq in He. subst a. left. left. reflexivity. }
      intros H. destruct (IHbl _ H) as [Hin|Henv]; [left; right; exact Hin|auto].
Qed.

Lemma check_parse_app args :
  forall rest env,
    last args <> Some "--id" ->
    CheckAttestationCli.parseCliArgs (args ++ rest) env =
    CheckAttestationCli.parseCliArgs rest
      (CheckAttestationCli.parseCliArgs args env).
Proof.
  induction args as [|a|a b l IHl IHbl] using pair_induction;
    intros rest env Hlast.
  - reflexivity.
  - cbn [app CheckAttestationCli.parseCliArgs].
    destruct (String.eqb a "--id") eqn:Ha; [|reflexivity].
    apply String.eqb_eq in Ha. subst a. exfalso. apply Hlast. reflexivity.
  - rewrite last_cons_cons in Hlast.
    change ((a :: b :: l) ++ rest) with (a :: (b :: l) ++ rest).
    cbn [CheckAttestationCli.parseCliArgs].
    destruct (String.eqb a "--id"); [|apply IHbl, Hlast].
    change ((b :: l) ++ rest) with (b :: l ++ rest) at 1. cbv iota.
    destruct (String.eqb b EmptyString) eqn:Hb.
    + apply IHbl, Hlast.
    + destruct l as [|c l]; [reflexivity|]. apply IHl.
      rewrite last_cons_cons in Hlast. exact Hlast.
Qed.

Lemma check_parse_frame args :
  forall env k,
    k <> "ATTESTATION_TX_HASH" ->
    CheckAttestationCli.parseCliArgs args env !! k = env !! k.
Proof.
  induction args as [|a|a b l IHl IHbl] using pair_induction; intros env k Hk.
  - reflexivity.
  - cbn [CheckAttestationCli.parseCliArgs].
    destruct (String.eqb a "--id"); reflexivity.
  - cbn [CheckAttestationCli.parseCliArgs].
    destruct (String.eqb a "--id"); [|apply IHbl; assumption].
    destruct (String.eqb b EmptyString); [apply IHbl; assumption|].
    rewrite IHl by assumption. rewrite lookup_insert_ne by congruence.
    reflexivity.
Qed.

End CliFacts.

Section CliProperties.
Import Js Errors CheckAttestation RewardFlow FlowShape.
Import CheckAttestationFacts RewardFlowFacts FlowShapeFacts CliFacts.

(** X17: the arguments of run_reward_flow.js are read left to right and
    touch two variables only.  Whatever the arguments, every variable other
    than [ATTESTATION_TX_HASH] and [DRY_RUN] reads as before; and when a
    first part of the arguments does not end in [--attestation], parsing the
    whole line is parsing the rest in the environment that the first part
    gives. *)
Theorem flow_arguments_read_in_order
    (args rest : list string) (env : Env) :
  (forall k, k <> "ATTESTATION_TX_HASH" -> k <> "DRY_RUN" ->
             RewardFlowCli.parseCliArgs args env !! k = env !! k) /\
  (last args <> Some "--attestation" ->
   RewardFlowCli.parseCliArgs (args ++ rest) env =
   RewardFlowCli.parseCliArgs rest (RewardFlowCli.parseCliArgs args env)).
Proof.
  split.
  - intros k Hk1 Hk2. apply flow_parse_frame; assumption.
  - apply flow_parse_app.
Qed.

Lemma flow_arguments_read_in_order_witness :
  RewardFlowCli.parseCliArgs (["--execute"; "--attestation"; "0xb01d"]
                              ++ ["--dry-run"]) Fixture.env_default =
  RewardFlowCli.parseCliArgs ["--dry-run"]
    (RewardFlowCli.parseCliArgs ["--execute"; "--attestation"; "0xb01d"]
       Fixture.env_default).
Proof.
  apply (proj2 (flow_arguments_read_in_order
                  ["--execute"; "--attestation"; "0xb01d"] ["--dry-run"]
                  Fixture.env_default)).
  simpl. discriminate.
Defined.

(** X18: the last mode flag wins, unless [--attestation] takes it as its
    value.  After arguments that do not end in [--attestation], a final
    [--execute] makes the run live and a final [--dry-run] makes it a dry
    run, whatever [DRY_RUN] was and whatever flags came before; but
    [--attestation --execute] stores the text of the flag as the attestation
    hash and leaves the mode as it was. *)
Theorem last_mode_flag_wins (args : list string) (env : Env) :
  last args <> Some "--attestation" ->
  dryRunOf (RewardFlowCli.parseCliArgs (args ++ ["--execute"]) env) = false /\
  dryRunOf (RewardFlowCli.parseCliArgs (args ++ ["--dry-run"]) env) = true /\
  RewardFlowCli.parseCliArgs (args ++ ["--attestation"; "--execute"]) env =
    <["ATTESTATION_TX_HASH" := "--execute"]>
      (RewardFlowCli.parseCliArgs args env) /\
  dryRunOf (RewardFlowCli.parseCliArgs
              (args ++ ["--attestation"; "--execute"]) env) =
    dryRunOf (RewardFlowCli.parseCliArgs args env).
Proof.
  intros Hlast.
  rewrite !(flow_parse_app args _ env Hlast).
  cbn [RewardFlowCli.parseCliArgs String.eqb Ascii.eqb Bool.eqb].
  unfold dryRunOf. rewrite !lookup_insert_eq.
  rewrite lookup_insert_ne by discriminate.
  repeat split; reflexivity.
Qed.

Lemma last_mode_flag_wins_witness :
  dryRunOf (RewardFlowCli.parseCliArgs (["--execute"] ++ ["--dry-run"])
              Fixture.env_execute) = true /\
  dryRunOf (RewardFlowCli.parseCliArgs
              ([] ++ ["--attestation"; "--execute"]) Fixture.env_default)
  = true.
Proof.
  split.
  - apply (last_mode_flag_wins ["--execute"] Fixture.env_execute).
    simpl. discriminate.
  - rewrite (proj2 (proj2 (proj2 (last_mode_flag_wins [] Fixture.env_default
                                    ltac:(simpl; discriminate))))).
    vm_compute. reflexivity.
Defined.

(** X19: from the command line the reward flow sends only when told to.
    When a run of run_reward_flow.js changed the ledger or sent a
    transaction, then [--execute] was among its arguments or [DRY_RUN] was 0
    in its environment. *)
Theorem command_line_sends_only_on_execute {L}
    (rt : Runtime) (args : list string) (env : Env) (p : Provider)
    (fs : Files) (client : LedgerClient L) (s : FlowState L) :
  let run := RewardFlowCli.main rt args env p fs client s in
  (ledger (snd run) <> ledger s \/
   exists tx, In (StepSend tx) (trace (snd run)) /\
              ~ In (StepSend tx) (trace s)) ->
  In "--execute" args \/ env !! "DRY_RUN" = Some "0".
Proof.
  intros run Hdid. subst run. unfold RewardFlowCli.main in Hdid.
  destruct (runRewardFlow_tracked rt (RewardFlowCli.parseCliArgs args env) p fs)
    as [(steps & r & Hq & _ & Hm)
       |(att & _ & _ & steps & tx & _ & Hready & _)].
  - exfalso. rewrite Hm in Hdid. simpl in Hdid.
    destruct Hdid as [Hl|(tx & Hin & Hnew)]; [apply Hl; reflexivity|].
    apply in_app_or in Hin as [Hin|Hin]; [exact (Hnew Hin)|].
    exact (quiet_not_sent _ _ Hq Hin).
  - destruct Hready as (_ & Hlive & _).
    apply flow_parse_live, dryRunOf_false, Hlive.
Qed.

Lemma command_line_sends_only_on_execute_witness :
  In "--execute" ["--attestation"; "0xb01d"; "--execute"] \/
  Fixture.env_default !! "DRY_RUN" = Some "0".
Proof.
  apply (command_line_sends_only_on_execute Fixture.rt
           ["--attestation"; "0xb01d"; "--execute"] Fixture.env_default
           (Fixture.provider 120 (inr true) (inr true)) (Fixture.files None)
           (ExecutorNode.client Fixture.node) (start Fixture.ledger7)).
  right. exists Fixture.reward_tx. split.
  - vm_compute. auto 10.
  - simpl. tauto.
Defined.

(** X20: [--id] chooses the transaction that check_attestation.js checks.
    The arguments touch no variable but [ATTESTATION_TX_HASH]; and when the
    line ends in [--id h] with [h] not empty, after arguments that do not
    end in [--id], every report is a report on [h], whatever the
    environment and the submission record say. *)
Theorem id_option_chooses_the_transaction
    (rt : Runtime) (args : list string) (env : Env) (p : Provider)
    (fs : Files) (h : string) :
  (forall k, k <> "ATTESTATION_TX_HASH" ->
             CheckAttestationCli.parseCliArgs args env !! k = env !! k) /\
  (last args <> Some "--id" -> h <> EmptyString ->
   forall att,
     CheckAttestationCli.main rt (args ++ ["--id"; h]) env p fs = inr att ->
     txHash att = h).
Proof.
  split; [intros k Hk; apply check_parse_frame; exact Hk|].
  intros Hlast Hh att Hrun. unfold CheckAttestationCli.main in Hrun.
  rewrite (check_parse_app args _ env Hlast) in Hrun.
  apply checkAttestation_inr in Hrun as (? & ? & ? & ? & ? & _ & Hhash & _).
  cbn [CheckAttestationCli.parseCliArgs String.eqb Ascii.eqb Bool.eqb] in Hhash.
  apply String.eqb_neq in Hh. rewrite Hh in Hhash.
  unfold txHashOf in Hhash. rewrite lookup_insert_eq in Hhash.
  simpl in Hhash. rewrite Hh in Hhash. congruence.
Qed.

Lemma id_option_chooses_the_transaction_witness :
  exists att,
    CheckAttestationCli.main Fixture.rt (["--quiet"] ++ ["--id"; "0xb01d"])
      Fixture.env_execute (Fixture.provider 120 (inr true) (inr true))
      (Fixture.files None) = inr att /\
    txHash att = "0xb01d".
Proof.
  destruct (CheckAttestationCli.main Fixture.rt
              (["--quiet"] ++ ["--id"; "0xb01d"]) Fixture.env_execute
              (Fixture.provider 120 (inr true) (inr true))
              (Fixture.files None)) as [e|att] eqn:Hrun;
    [vm_compute in Hrun; discriminate|].
  exists att. split; [reflexivity|].
  apply (proj2 (id_option_chooses_the_transaction Fixture.rt ["--quiet"]
                  Fixture.env_execute
                  (Fixture.provider 120 (inr true) (inr true))
                  (Fixture.files None) "0xb01d"));
    [simpl; discriminate|discriminate|exact Hrun].
Defined.

End CliProperties.

(** ** The proof document *)

Module DaProofFacts.
Import Js Errors DaProofJson.

Lemma get_Some v name x : get v name = Some x -> truthy v = true.
Proof. destruct v; simpl; solve [discriminate | reflexivity]. Qed.

Lemma sub_Some v name : truthy v = true -> sub (Some v) name = get v name.
Proof. intros H. unfold sub. simpl. rewrite H. reflexivity. Qed.

Lemma sub_inv v name x :
  sub v name = Some x -> exists y, v = Some y /\ get y name = Some x.
Proof.
  destruct v as [y|]; simpl; [|discriminate].
  destruct (truthy y); [|discriminate]. eauto.
Qed.

Lemma the_Some v : the v = true -> exists x, v = Some x /\ truthy x = true.
Proof. destruct v as [x|]; simpl; [eauto|discriminate]. Qed.

Lemma hasNonEmptyProof_inv data :
  hasNonEmptyProof data = true ->
  truthy data = true /\
  exists item items, get data "proof" = Some (JArr (item :: items)).
Proof.
  unfold hasNonEmptyProof. intros H. apply andb_true_iff in H as [Ht Hp].
  split; [exact Ht|].
  destruct (get data "proof") as [[| | | |[|item items]|]|]; try discriminate.
  eauto.
Qed.

Lemma proofDocument_response v rb db ep t data :
  get (proofDocument v rb db ep t data) "response" = Some data.
Proof. reflexivity. Qed.

Lemma proofsOf_truthy p proof :
  get p "proof" = Some proof -> truthy proof = true -> proofsOf p = proof.
Proof. intros Hg Ht. unfold proofsOf. rewrite Hg, Ht. reflexivity. Qed.

(** Where the proof sits inside the response, both scripts take the
    response. *)
Lemma wrapped_proof doc r :
  get doc "response" = Some r -> the (get r "proof") = true ->
  extractDaProofPayload doc = inr r /\ extractProofPayload doc = inr r.
Proof.
  intros Hr Hp.
  assert (Hdoc : truthy doc = true) by exact (get_Some _ _ _ Hr).
  assert (Htr : truthy r = true).
  { apply the_Some in Hp as (x & Hx & _). exact (get_Some _ _ _ Hx). }
  unfold extractDaProofPayload, extractProofPayload.
  rewrite (sub_Some doc "response" Hdoc), Hr.
  rewrite (sub_Some r "proof" Htr), Hp.
  simpl. rewrite Htr. simpl. split; reflexivity.
Qed.

End DaProofFacts.

Section DaProofProperties.
Import Js Errors DaProofJson DaProofFacts.

(** X21: what fetch_da_proof.js writes, both readers find.  For an answer
    of the data-availability layer that the fetch script accepts (a
    non-empty proof array), the checker and the verification script extract
    exactly that answer from the written document, whatever the round, the
    request bytes, the endpoint and the time stamp around it; and the proof
    list passed to the verifier is that non-empty array, not the empty
    default. *)
Theorem fetched_proof_is_found
    (votingRoundId : Json) (requestBytes daBase endpoint fetchedAtIso : string)
    (data : Json) :
  hasNonEmptyProof data = true ->
  let document :=
    proofDocument votingRoundId requestBytes daBase endpoint fetchedAtIso data in
  extractDaProofPayload document = inr data /\
  extractProofPayload document = inr data /\
  exists item items, proofsOf data = JArr (item :: items).
Proof.
  intros Hproof document.
  apply hasNonEmptyProof_inv in Hproof as (Ht & item & items & Hp).
  assert (Hboth := wrapped_proof document data
                     (proofDocument_response _ _ _ _ _ _)).
  rewrite Hp in Hboth. destruct (Hboth eq_refl) as [H1 H2].
  split; [exact H1|]. split; [exact H2|].
  exists item, items. apply proofsOf_truthy; [exact Hp|reflexivity].
Qed.

Lemma fetched_proof_is_found_witness :
  extractDaProofPayload
    (proofDocument (JNum 1200) "0xabcd" "https://da" "/proof" "2026-02-07"
       (JObj [("response", JObj [("votingRound", JNum 1200)]);
              ("proof", JArr [JStr "0x01"])]))
  = inr (JObj [("response", JObj [("votingRound", JNum 1200)]);
               ("proof", JArr [JStr "0x01"])]).
Proof.
  apply (fetched_proof_is_found (JNum 1200) "0xabcd" "https://da" "/proof"
           "2026-02-07"
           (JObj [("response", JObj [("votingRound", JNum 1200)]);
                  ("proof", JArr [JStr "0x01"])])).
  reflexivity.
Defined.

(** X22: when the checker finds a payload, the payload carries its proof.
    A payload that [extractDaProofPayload] returns is the [response] field
    of the document or the document itself, and its [proof] field is there
    and truthy, so that the proof list given to the verifier is that field
    and never the empty default; the extraction succeeds exactly when the
    document has a truthy [response] and a truthy [proof] in it or beside
    it, and the only error is that no payload was found. *)
Theorem found_payload_carries_its_proof (daProofJson : Json) :
  (forall payload,
      extractDaProofPayload daProofJson = inr payload ->
      (get daProofJson "response" = Some payload \/ payload = daProofJson) /\
      exists proof,
        get payload "proof" = Some proof /\ truthy proof = true /\
        proofsOf payload = proof) /\
  ((exists payload, extractDaProofPayload daProofJson = inr payload) <->
   the (get daProofJson "response") = true /\
   (the (sub (get daProofJson "response") "proof") = true \/
    the (get daProofJson "proof") = true)) /\
  (forall e, extractDaProofPayload daProofJson = inl e ->
             e = DaProofPayloadNotFound).
Proof.
  unfold extractDaProofPayload.
  destruct (get daProofJson "response") as [r|] eqn:Hr.
  2:{ assert (Hsub : sub (Some daProofJson) "response" = None).
      { unfold sub. simpl. destruct (truthy daProofJson); [exact Hr|reflexivity]. }
      rewrite Hsub. simpl. rewrite andb_false_r.
      split; [discriminate|]. split; [|intros e [= <-]; reflexivity].
      split; [intros [? ?]; discriminate|intros [? _]; discriminate]. }
  assert (Hdoc : truthy daProofJson = true) by exact (get_Some _ _ _ Hr).
  rewrite !(sub_Some daProofJson _ Hdoc), Hr. simpl.
  destruct (truthy r) eqn:Htr; simpl.
  2:{ rewrite andb_false_r.
      split; [discriminate|]. split; [|intros e [= <-]; reflexivity].
      split; [intros [? ?]; discriminate|intros [? _]; discriminate]. }
  rewrite andb_true_r.
  destruct (the (get r "proof")) eqn:Hp; simpl.
  - split; [|split; [|discriminate]].
    + intros payload [= <-]. split; [left; reflexivity|].
      apply the_Some in Hp as (proof & Hg & Ht).
      exists proof. split; [exact Hg|]. split; [exact Ht|].
      apply proofsOf_truthy; assumption.
    + split; [auto|eauto].
  - rewrite andb_false_r.
    destruct (the (get daProofJson "proof")) eqn:Hq; simpl.
    + split; [|split; [|discriminate]].
      * intros payload [= <-]. split; [right; reflexivity|].
        apply the_Some in Hq as (proof & Hg & Ht).
        exists proof. split; [exact Hg|]. split; [exact Ht|].
        apply proofsOf_truthy; assumption.
      * split; [auto|eauto].
    + split; [discriminate|]. split; [|intros e [= <-]; reflexivity].
      split; [intros [? ?]; discriminate|].
      intros [_ [?|?]]; discriminate.
Qed.

Lemma found_payload_carries_its_proof_witness :
  exists proof,
    get (JObj [("proof", JArr [JStr "0x01"]);
               ("response", JObj [("votingRound", JNum 7)])]) "proof"
    = Some proof /\ truthy proof = true.
Proof.
  destruct (proj1 (found_payload_carries_its_proof
                     (JObj [("proof", JArr [JStr "0x01"]);
                            ("response", JObj [("votingRound", JNum 7)])]))
                  (JObj [("proof", JArr [JStr "0x01"]);
                         ("response", JObj [("votingRound", JNum 7)])])
                  eq_refl) as (_ & proof & Hg & Ht & _).
  exists proof. split; assumption.
Defined.

(** X23: the two readers of the proof document agree where the proof sits
    inside the response, and only there.  When [response.proof] is truthy
    the checker and verify_with_fdc_verification.js both take [response];
    for a document with the proof beside a response that wraps another
    response, both succeed with different payloads: the checker takes the
    document, the verification script the inner response. *)
Theorem readers_agree_on_wrapped_proofs :
  (forall doc response,
      get doc "response" = Some response ->
      the (get response "proof") = true ->
      extractDaProofPayload doc = inr response /\
      extractProofPayload doc = inr response) /\
  (forall proof inner,
      truthy proof = true -> truthy inner = true ->
      let doc := JObj [("proof", proof);
                       ("response", JObj [("response", inner)])] in
      extractDaProofPayload doc = inr doc /\
      extractProofPayload doc = inr inner).
Proof.
  split; [exact wrapped_proof|].
  intros proof inner Hp Hi doc. subst doc.
  unfold extractDaProofPayload, extractProofPayload, sub, the. simpl.
  rewrite Hp, Hi. simpl. split; reflexivity.
Qed.

Lemma readers_agree_on_wrapped_proofs_witness :
  extractProofPayload
    (JObj [("proof", JArr [JStr "0x01"]);
           ("response", JObj [("response", JObj [("votingRound", JNum 7)])])])
  = inr (JObj [("votingRound", JNum 7)]).
Proof.
  apply (proj2 readers_agree_on_wrapped_proofs (JArr [JStr "0x01"])
               (JObj [("votingRound", JNum 7)]) eq_refl eq_refl).
Defined.

End DaProofProperties.

(** ** The request script *)

Module RequestFacts.
Import Js CheckAttestation DaProofJson RequestAttestation.

Lemma script_bind_inr {A B} (m : Script A) (k : A -> Script B) effects b :
  m ≫= k = (effects, inr b) ->
  exists e1 a e2, m = (e1, inr a) /\ k a = (e2, inr b) /\ effects = e1 ++ e2.
Proof.
  unfold mbind, Script_bind. destruct m as [e1 [e|a]]; [discriminate|].
  destruct (k a) as [e2 r] eqn:Hk. intros [= <- ->]. eauto 10.
Qed.

Lemma effect_answered {A} what (answer : option A) effects a :
  effect what answer = (effects, inr a) ->
  answer = Some a /\ effects = [what].
Proof.
  unfold effect. destruct answer; intros [= <- ?].
  split; congruence.
Qed.

Lemma must_set env name effects value :
  must env name = (effects, inr value) ->
  nonempty (env !! name) = Some value /\ effects = [].
Proof.
  unfold must. destruct (nonempty (env !! name)); intros [= <- ?].
  split; congruence.
Qed.

Lemma post_inr host url key body effects res data :
  post host url key body = (effects, inr (res, data)) ->
  fetch host url key body = Some res /\ res_json res = Some data /\
  effects = [Posted url key body].
Proof.
  unfold post. intros H.
  apply script_bind_inr in H as (e1 & r & e2 & He & Hk & ->).
  apply effect_answered in He as [Hf ->].
  destruct (res_json r) as [d|] eqn:Hj; [|discriminate].
  injection Hk as <- <- <-. auto.
Qed.

Lemma prepareRequest_inr host base key url jq sig effects request data :
  prepareRequest host base key url jq sig = (effects, inr (request, data)) ->
  exists res,
    fetch host (base ++ "/verifier/web2/Web2Json/prepareRequest") key
          (buildWeb2JsonRequest url jq sig) = Some res /\
    res_ok res = true /\ res_json res = Some data /\
    get data "abiEncodedRequest" = Some (JStr request) /\
    String.prefix "0x" request = true /\
    effects = [Posted (base ++ "/verifier/web2/Web2Json/prepareRequest") key
                      (buildWeb2JsonRequest url jq sig)].
Proof.
  unfold prepareRequest. intros H.
  apply script_bind_inr in H as (e1 & [res d] & e2 & Hpost & Hk & ->).
  apply post_inr in Hpost as (Hf & Hj & ->).
  destruct (res_ok res) eqn:Hok; simpl in Hk; [|discriminate].
  destruct (truthy d); simpl in Hk; [|discriminate].
  destruct (get d "abiEncodedRequest") as [[| | |s| |]|] eqn:Hg;
    try discriminate;
    try (destruct (truthy _); discriminate).
  destruct (String.eqb s EmptyString); simpl in Hk; [discriminate|].
  destruct (String.prefix "0x" s) eqn:Hp; simpl in Hk; [|discriminate].
  injection Hk as <- <- <-. exists res. auto 10.
Qed.

Lemma fetchVerifierMic_inr host base key payload effects data :
  fetchVerifierMic host base key payload = (effects, inr data) ->
  exists res,
    fetch host (base ++ "/verifier/web2/Web2Json/mic") key payload = Some res /\
    res_ok res = true /\ res_json res = Some data /\
    get data "status" = Some (JStr "VALID") /\
    the (get data "messageIntegrityCode") = true /\
    effects = [Posted (base ++ "/verifier/web2/Web2Json/mic") key payload].
Proof.
  unfold fetchVerifierMic. intros H.
  apply script_bind_inr in H as (e1 & [res d] & e2 & Hpost & Hk & ->).
  apply post_inr in Hpost as (Hf & Hj & ->).
  destruct (res_ok res) eqn:Hok; simpl in Hk; [|discriminate].
  assert (Hk' :
            match get d "status" with
            | Some (JStr status) =>
                if negb (String.eqb status "VALID")
                then throw (MicStatusNotValid d)
                else if the (get d "messageIntegrityCode") then pure d
                     else throw MicCodeMissing
            | _ => throw (MicStatusNotValid d)
            end = (e2, inr data))
    by (destruct d; solve [discriminate | exact Hk]).
  clear Hk.
  destruct (get d "status") as [[| | |status| |]|] eqn:Hs; try discriminate.
  destruct (String.eqb status "VALID") eqn:Hv; simpl in Hk'; [|discriminate].
  apply String.eqb_eq in Hv. subst status.
  destruct (the (get d "messageIntegrityCode")) eqn:Hc; [|discriminate].
  injection Hk' as <- <-. exists res. auto 10.
Qed.

Lemma strictCheck_inr strict expected code effects u :
  strictCheck strict expected code = (effects, inr u) ->
  effects = [] /\
  (strict = true -> forall e, expected = Some e ->
   exists text, code = Some (JStr text) /\ toLowerCase e = toLowerCase text).
Proof.
  unfold strictCheck.
  destruct strict; [|intros [= <-]; split; [reflexivity|discriminate]].
  destruct expected as [e|];
    [|intros [= <-]; split; [reflexivity|discriminate]].
  destruct code as [[| | |text| |]|]; try discriminate.
  destruct (String.eqb (toLowerCase e) (toLowerCase text)) eqn:Heq;
    [|discriminate].
  intros [= <-]. split; [reflexivity|].
  intros _ e' [= <-]. apply String.eqb_eq in Heq. eauto.
Qed.

Lemma feeOf_inr host rpc hub fallback effects fee :
  feeOf host rpc hub fallback = (effects, inr fee) ->
  effects = [AskedFee rpc hub] /\
  (requestFee host rpc hub = Some fee \/
   requestFee host rpc hub = None /\ parseEther host fallback = Some fee).
Proof.
  unfold feeOf. destruct (requestFee host rpc hub) as [f|]; intros H;
    apply effect_answered in H as [Ha ->].
  - split; [reflexivity|]. left. exact Ha.
  - split; [reflexivity|]. right. auto.
Qed.


(** What a run that returns has gone through. *)
Lemma main_inr rt host env effects out :
  main rt host env = (effects, inr out) ->
  let base := or_else (env !! "VERIFIER_BASE") DEFAULT_verifierBase in
  let payload :=
    buildWeb2JsonRequest (or_else (env !! "API_URL") DEFAULT_apiUrl)
      (or_else (env !! "POST_PROCESS_JQ") DEFAULT_jq)
      (or_else (env !! "ABI_SIGNATURE") "string") in
  exists privateKey apiKey bytes signer,
    nonempty (env !! "PRIVATE_KEY") = Some privateKey /\
    nonempty (env !! "VERIFIER_API_KEY") = Some apiKey /\
    readFile host (apiResponsePath out) = Some bytes /\
    apiResponsePath out =
      or_else (env !! "API_RESPONSE_PATH") (defaultApiResponsePath host) /\
    computedMic out = sha256Hex rt bytes /\
    expectedMic out = nonempty (env !! "EXPECTED_MIC") /\
    (forall e, expectedMic out = Some e ->
               toLowerCase e = toLowerCase (computedMic out)) /\
    prepareRequest host base apiKey (or_else (env !! "API_URL") DEFAULT_apiUrl)
      (or_else (env !! "POST_PROCESS_JQ") DEFAULT_jq)
      (or_else (env !! "ABI_SIGNATURE") "string")
    = ([Posted (base ++ "/verifier/web2/Web2Json/prepareRequest") apiKey payload],
       inr (abiEncodedRequest out, prepareResponse out)) /\
    fetchVerifierMic host base apiKey payload
    = ([Posted (base ++ "/verifier/web2/Web2Json/mic") apiKey payload],
       inr (micResponse out)) /\
    verifierMic out = get (micResponse out) "messageIntegrityCode" /\
    strictVerifierMicCheck out =
      bool_decide (env !! "STRICT_VERIFIER_MIC" = Some "1") /\
    (strictVerifierMicCheck out = true ->
     forall e, expectedMic out = Some e ->
     exists text, verifierMic out = Some (JStr text) /\
                  toLowerCase e = toLowerCase text) /\
    walletAddress rt privateKey = Some signer /\
    (requestFee host (rpcUrl out) (fdcHubAddress out) = Some (requestFeeWei out) \/
     requestFee host (rpcUrl out) (fdcHubAddress out) = None /\
     parseEther host (or_else (env !! "FDC_FEE_C2FLR") "0.01")
     = Some (requestFeeWei out)) /\
    rpcUrl out = or_else (env !! "RPC_URL") DEFAULT_rpcUrl /\
    fdcHubAddress out = or_else (env !! "FDC_HUB_ADDRESS") DEFAULT_fdcHubAddress /\
    requestAttestation host (rpcUrl out) (fdcHubAddress out) signer
      (abiEncodedRequest out) (requestFeeWei out) = Some (txHash out) /\
    wait host (txHash out) = Some (blockNumber out, blockHash out) /\
    effects =
      [ Posted (base ++ "/verifier/web2/Web2Json/prepareRequest") apiKey payload;
        Posted (base ++ "/verifier/web2/Web2Json/mic") apiKey payload;
        AskedFee (rpcUrl out) (fdcHubAddress out);
        Submitted (rpcUrl out) (fdcHubAddress out) signer
                  (abiEncodedRequest out) (requestFeeWei out);
        Waited (txHash out);
        Wrote (or_else (env !! "OUT_PATH") (defaultOutPath host)) ].
Proof.
  intros H base payload. unfold main in H.
  apply script_bind_inr in H as (e1 & privateKey & ? & Hkey & H & ->).
  apply must_set in Hkey as [Hkey ->].
  apply script_bind_inr in H as (e1 & apiKey & ? & Hapi & H & ->).
  apply must_set in Hapi as [Hapi ->].
  apply script_bind_inr in H as (e1 & bytes & ? & Hfile & H & ->).
  destruct (readFile host _) as [b|] eqn:Hread; [|discriminate].
  injection Hfile as <- <-.
  apply script_bind_inr in H as (e1 & [] & ? & Hgate & H & ->).
  assert (Hexp : forall e, nonempty (env !! "EXPECTED_MIC") = Some e ->
                           toLowerCase e = toLowerCase (sha256Hex rt b) /\
                           e1 = []).
  { intros e He. rewrite He in Hgate.
    destruct (String.eqb (toLowerCase e) (toLowerCase (sha256Hex rt b)))
      eqn:Heq; [|discriminate].
    apply String.eqb_eq in Heq. injection Hgate as <-. auto. }
  assert (He1 : e1 = []).
  { destruct (nonempty (env !! "EXPECTED_MIC")) as [e|];
      [exact (proj2 (Hexp e eq_refl))|].
    injection Hgate as <-. reflexivity. }
  subst e1. clear Hgate.
  apply script_bind_inr in H as (e1 & [request prep] & ? & Hprep & H & ->).
  pose proof Hprep as Hprep'.
  apply prepareRequest_inr in Hprep' as (_ & _ & _ & _ & _ & _ & He1).
  subst e1.
  apply script_bind_inr in H as (e1 & mic & ? & Hmic & H & ->).
  pose proof Hmic as Hmic'.
  apply fetchVerifierMic_inr in Hmic' as (_ & _ & _ & _ & _ & _ & He1).
  subst e1.
  apply script_bind_inr in H as (e1 & [] & ? & Hstrict & H & ->).
  apply strictCheck_inr in Hstrict as [-> Hstrict].
  apply script_bind_inr in H as (e1 & signer & ? & Hsigner & H & ->).
  destruct (walletAddress rt privateKey) as [w|] eqn:Hw; [|discriminate].
  injection Hsigner as <- <-.
  apply script_bind_inr in H as (e1 & fee & ? & Hfee & H & ->).
  apply feeOf_inr in Hfee as [-> Hfee].
  apply script_bind_inr in H as (e1 & hash & ? & Hsub & H & ->).
  apply effect_answered in Hsub as [Hsub ->].
  apply script_bind_inr in H as (e1 & [number bhash] & ? & Hwait & H & ->).
  apply effect_answered in Hwait as [Hwait ->].
  apply script_bind_inr in H as (e1 & [] & ? & Hwrite & H & ->).
  apply effect_answered in Hwrite as [Hwrite ->].
  injection H as <- <-. simpl.
  exists privateKey, apiKey, b, w.
  repeat lazymatch goal with
         | |- _ /\ _ => split
         end;
    try reflexivity; try assumption.
  intros e He. exact (proj1 (Hexp e He)).
Qed.

Lemma nonempty_not_empty v s : nonempty v = Some s -> s <> EmptyString.
Proof.
  destruct v as [t|]; simpl; [|discriminate].
  destruct (String.eqb t EmptyString) eqn:He; [discriminate|].
  intros [= <-]. apply String.eqb_neq, He.
Qed.

Lemma nonempty_Some s : s <> EmptyString -> nonempty (Some s) = Some s.
Proof.
  intros Hs. simpl. apply String.eqb_neq in Hs. rewrite Hs. reflexivity.
Qed.

(** Every case of the script, with what was found on the way. *)
Ltac every_case :=
  unfold main, mbind, Script_bind, must, prepareRequest, fetchVerifierMic,
    post, strictCheck, feeOf, effect, pure, throw;
  repeat match goal with
         | |- context [match ?x with _ => _ end] =>
             lazymatch x with
             | context [match _ with _ => _ end] => fail
             | _ => destruct x eqn:?; simpl
             end
         end.

Ltac which_effect :=
  repeat match goal with
         | H : _ \/ _ |- _ => destruct H
         | H : False |- _ => destruct H
         | H : Posted _ _ _ = Submitted _ _ _ _ _ |- _ => discriminate H
         | H : AskedFee _ _ = Submitted _ _ _ _ _ |- _ => discriminate H
         | H : Waited _ = Submitted _ _ _ _ _ |- _ => discriminate H
         | H : Wrote _ = Submitted _ _ _ _ _ |- _ => discriminate H
         | H : Submitted _ _ _ _ _ = Submitted _ _ _ _ _ |- _ =>
             injection H as <- <- <- <- <-
         end.

End RequestFacts.

Section RequestProperties.
Import Js CheckAttestation DaProofJson RequestAttestation RequestShape.
Import RequestFacts.

(** X24: a file that does not have the expected digest is not submitted.
    When [EXPECTED_MIC] is set and differs (letter case aside) from the
    digest of the attested file, the request script ends with an error
    before it contacts the verifier or the hub: it has no effect at all, and
    with both keys set the error is the digest mismatch. *)
Theorem mismatching_file_is_not_submitted
    (rt : Runtime) (host : Host) (env : Env) (expected bytes : string) :
  nonempty (env !! "EXPECTED_MIC") = Some expected ->
  readFile host
    (or_else (env !! "API_RESPONSE_PATH") (defaultApiResponsePath host))
  = Some bytes ->
  toLowerCase expected <> toLowerCase (sha256Hex rt bytes) ->
  fst (main rt host env) = [] /\
  (exists e, snd (main rt host env) = inl e) /\
  (nonempty (env !! "PRIVATE_KEY") <> None ->
   nonempty (env !! "VERIFIER_API_KEY") <> None ->
   snd (main rt host env) = inl (MicMismatch expected (sha256Hex rt bytes))).
Proof.
  intros Hexp Hfile Hne. apply String.eqb_neq in Hne.
  unfold main, must.
  destruct (nonempty (env !! "PRIVATE_KEY")) as [key|];
    [|split; [reflexivity|]; split; [eexists; reflexivity|];
      intros H; exfalso; apply H; reflexivity].
  destruct (nonempty (env !! "VERIFIER_API_KEY")) as [apiKey|];
    [|split; [reflexivity|]; split; [eexists; reflexivity|];
      intros _ H; exfalso; apply H; reflexivity].
  unfold mbind, Script_bind, pure, throw. simpl.
  rewrite Hfile, Hexp, Hne. simpl.
  split; [reflexivity|]. split; [eexists; reflexivity|]. reflexivity.
Qed.

Lemma mismatching_file_is_not_submitted_witness :
  fst (main RequestFixture.rt RequestFixture.host
         (<["EXPECTED_MIC" := "0xCD"]> RequestFixture.env)) = [].
Proof.
  apply (mismatching_file_is_not_submitted RequestFixture.rt
           RequestFixture.host (<["EXPECTED_MIC" := "0xCD"]> RequestFixture.env)
           "0xCD" "AB").
  - vm_compute. reflexivity.
  - vm_compute. reflexivity.
  - vm_compute. discriminate.
Defined.

(** X25: the record that the request script writes passes the checker's
    digest comparison, and a changed file fails it.  After a run that
    returns, with the attested file as it was, [validatePayloadHash] on the
    written record finds the digest equal to the recorded one, whatever
    digest the checker expects, and with the [EXPECTED_MIC] of the run the
    whole verdict is valid; for a file whose digest differs (letter case
    aside) from the recorded one the verdict is invalid.  The digest text is
    taken to be non-empty, as a text that starts with 0x is. *)
Theorem written_submission_passes_the_checker
    (rt : Runtime) (host : Host) (env : Env) (effects : list Effect)
    (out : Output) :
  main rt host env = (effects, inr out) ->
  computedMic out <> EmptyString ->
  exists bytes,
    readFile host (apiResponsePath out) = Some bytes /\
    sub_txHash (submissionOf out) = Some (txHash out) /\
    (forall expected,
        micMatchesSubmission
          (validatePayloadHash rt (Some bytes) expected
                               (Some (submissionOf out))) = Some true) /\
    validatePayloadHash rt (Some bytes) (nonempty (env !! "EXPECTED_MIC"))
                        (Some (submissionOf out))
    = mkPayloadHash (Some (computedMic out))
        match nonempty (env !! "EXPECTED_MIC") with
        | Some _ => Some true
        | None => None
        end
        (Some true) true /\
    (forall changed expected,
        toLowerCase (sha256Hex rt changed) <> toLowerCase (computedMic out) ->
        payloadHashValid
          (validatePayloadHash rt (Some changed) expected
                               (Some (submissionOf out))) = false).
Proof.
  intros Hrun Hdigest.
  destruct (main_inr _ _ _ _ _ Hrun)
    as (_ & _ & bytes & _ & _ & _ & Hread & _ & Hmic & Hexpected & Hgate & _).
  exists bytes. split; [exact Hread|]. split; [reflexivity|].
  unfold validatePayloadHash, submissionOf. simpl.
  rewrite <- Hmic.
  apply String.eqb_neq in Hdigest. rewrite Hdigest, String.eqb_refl.
  split; [|split].
  - intros expected. reflexivity.
  - rewrite Hexpected in Hgate.
    destruct (nonempty (env !! "EXPECTED_MIC")) as [e|] eqn:He.
    + rewrite (nonempty_Some e (nonempty_not_empty _ _ He)).
      rewrite (Hgate e eq_refl), String.eqb_refl. reflexivity.
    + reflexivity.
  - intros changed expected Hne. apply String.eqb_neq in Hne. rewrite Hne.
    simpl. rewrite orb_true_r. reflexivity.
Qed.

Lemma written_submission_passes_the_checker_witness :
  exists out,
    snd (main RequestFixture.rt RequestFixture.host RequestFixture.env)
    = inr out /\
    micMatchesSubmission
      (validatePayloadHash RequestFixture.rt (Some "AB") None
                           (Some (submissionOf out))) = Some true /\
    payloadHashValid
      (validatePayloadHash RequestFixture.rt (Some "ABC") None
                           (Some (submissionOf out))) = false.
Proof.
  destruct (main RequestFixture.rt RequestFixture.host RequestFixture.env)
    as [effects [e|out]] eqn:Hrun; [vm_compute in Hrun; discriminate|].
  assert (Hmic : computedMic out = "0xAB")
    by (vm_compute in Hrun; injection Hrun as _ <-; reflexivity).
  exists out. split; [reflexivity|].
  destruct (written_submission_passes_the_checker _ _ _ _ _ Hrun)
    as (bytes & Hread & _ & Hsame & _ & Hchanged).
  { rewrite Hmic. discriminate. }
  assert (Hbytes : bytes = "AB").
  { assert (Hpath : apiResponsePath out = "api_response.json")
      by (vm_compute in Hrun; injection Hrun as _ <-; reflexivity).
    rewrite Hpath in Hread. vm_compute in Hread. congruence. }
  subst bytes. split; [apply Hsame|].
  apply Hchanged. rewrite Hmic. vm_compute. discriminate.
Defined.

(** X26: what reaches the hub.  In any run, ended well or not,
    [requestAttestation] is called at most once; and when it is called, it
    is by the wallet of [PRIVATE_KEY] on the hub of [FDC_HUB_ADDRESS] over
    [RPC_URL],
    with the encoded request that the verifier returned for the request of
    the run, after the verifier also answered the integrity call with a
    VALID status and a code, the attested file is there with the expected
    digest if one is set, and the value sent is the fee of the hub or, when
    the hub gives none, the configured fallback. *)
Theorem submitted_request_is_the_verifiers
    (rt : Runtime) (host : Host) (env : Env) :
  (length (List.filter is_submitted (fst (main rt host env))) <= 1)%nat /\
  forall rpcUrl fdcHubAddress signer data value,
    In (Submitted rpcUrl fdcHubAddress signer data value)
       (fst (main rt host env)) ->
    rpcUrl = or_else (env !! "RPC_URL") DEFAULT_rpcUrl /\
    fdcHubAddress = or_else (env !! "FDC_HUB_ADDRESS") DEFAULT_fdcHubAddress /\
    (exists privateKey,
        nonempty (env !! "PRIVATE_KEY") = Some privateKey /\
        walletAddress rt privateKey = Some signer) /\
    verifier_accepted host env data /\
    file_as_expected rt host env /\
    (requestFee host rpcUrl fdcHubAddress = Some value \/
     requestFee host rpcUrl fdcHubAddress = None /\
     parseEther host (or_else (env !! "FDC_FEE_C2FLR") "0.01") = Some value).
Proof.
  unfold verifier_accepted, file_as_expected, verifierBaseOf, requestPayloadOf.
  every_case;
    (split; [lia|]);
    intros rpcUrl fdcHubAddress signer data value Hin;
    which_effect;
    repeat match goal with
           | H : negb _ = false |- _ => apply negb_false_iff in H
           | H : (_ || _) = false |- _ => apply orb_false_iff in H as [? ?]
           | H : String.eqb _ _ = true |- _ => apply String.eqb_eq in H
           end;
    subst;
    (split; [reflexivity|]); (split; [reflexivity|]);
    (split; [eexists; split; [reflexivity|eassumption]|]);
    (split; [do 5 eexists; repeat split;
             solve [ reflexivity | eassumption
                   | simpl;
                     repeat match goal with
                            | H : field_of ?n ?f = _
                              |- context [field_of ?n ?f] => rewrite H
                            end;
                     solve [reflexivity | assumption] ]
            |]);
    (split; [eexists; split; [reflexivity|]; intros ? [= <-];
             solve [reflexivity | assumption]
            |]);
    solve [ left; assumption
          | right; split; solve [assumption | reflexivity] ].
Qed.

Lemma submitted_request_is_the_verifiers_witness :
  requestFee RequestFixture.host DEFAULT_rpcUrl DEFAULT_fdcHubAddress = Some 10 \/
  requestFee RequestFixture.host DEFAULT_rpcUrl DEFAULT_fdcHubAddress = None /\
  parseEther RequestFixture.host
    (or_else (RequestFixture.env !! "FDC_FEE_C2FLR") "0.01") = Some 10.
Proof.
  refine (proj2 (proj2 (proj2 (proj2 (proj2
            (proj2 (submitted_request_is_the_verifiers RequestFixture.rt
                      RequestFixture.host RequestFixture.env)
                   DEFAULT_rpcUrl DEFAULT_fdcHubAddress 7 "0x5e" 10 _)))))).
  vm_compute. auto 10.
Defined.

(** X27: the digests of a written record agree as far as they were
    compared.  In the record of a run that returned, the integrity code of
    the verifier is there and truthy; an expected digest, when set, equals
    the computed one (letter case aside); and in strict mode with an
    expected digest the verifier's code is a text equal to both.  Without
    strict mode the verifier's code is recorded and compared with nothing. *)
Theorem recorded_digests_agree
    (rt : Runtime) (host : Host) (env : Env) (effects : list Effect)
    (out : Output) :
  main rt host env = (effects, inr out) ->
  the (verifierMic out) = true /\
  (forall expected,
      expectedMic out = Some expected ->
      toLowerCase expected = toLowerCase (computedMic out) /\
      (strictVerifierMicCheck out = true ->
       exists code,
         verifierMic out = Some (JStr code) /\
         toLowerCase code = toLowerCase (computedMic out))) /\
  (strictVerifierMicCheck out = true <->
   env !! "STRICT_VERIFIER_MIC" = Some "1").
Proof.
  intros Hrun.
  destruct (main_inr _ _ _ _ _ Hrun)
    as (_ & apiKey & _ & _ & _ & _ & _ & _ & _ & _ & Hgate & _ & Hmic & Hcode
        & Hstrict & Hcheck & _).
  apply fetchVerifierMic_inr in Hmic as (_ & _ & _ & _ & _ & Hthe & _).
  split; [rewrite Hcode; exact Hthe|]. split.
  - intros expected He. split; [exact (Hgate _ He)|].
    intros Hs. destruct (Hcheck Hs _ He) as (code & Hc & Heq).
    exists code. split; [exact Hc|]. rewrite <- Heq. exact (Hgate _ He).
  - rewrite Hstrict. apply bool_decide_eq_true.
Qed.

Lemma recorded_digests_agree_witness :
  exists out,
    snd (main RequestFixture.rt RequestFixture.host RequestFixture.env)
    = inr out /\
    the (verifierMic out) = true.
Proof.
  destruct (main RequestFixture.rt RequestFixture.host RequestFixture.env)
    as [effects [e|out]] eqn:Hrun; [vm_compute in Hrun; discriminate|].
  exists out. split; [reflexivity|].
  exact (proj1 (recorded_digests_agree _ _ _ _ _ Hrun)).
Defined.

End RequestProperties.

(** ** The fetch script *)

Module FetchFacts.
Import Js DaProofJson DaProofFacts FetchDaProof FetchShape.

Lemma posts_app a b : posts (a ++ b) = (posts a + posts b)%nat.
Proof. unfold posts. rewrite List.filter_app, length_app. reflexivity. Qed.

Lemma adds_pure {W A} (a : A) (P : A -> list Request -> Prop) bound :
  P a [] -> adds (pure (W:=W) a) P bound.
Proof.
  intros HP s. exists []. simpl. rewrite app_nil_r.
  split; [reflexivity|]. split; [unfold posts; simpl; lia|].
  intros a' [= <-]. exact HP.
Qed.

Lemma adds_throw {W A} e (P : A -> list Request -> Prop) bound :
  adds (throw (W:=W) (A:=A) e) P bound.
Proof.
  intros s. exists []. simpl. rewrite app_nil_r.
  split; [reflexivity|]. split; [unfold posts; simpl; lia|]. discriminate.
Qed.

Lemma adds_ask {W A} what (call : W -> option A * W) :
  adds (ask what call) (fun _ added => added = [what])
       (if is_post what then 1 else 0).
Proof.
  intros s. exists [what]. unfold ask.
  destruct (call (world s)) as [answer w]. simpl.
  split; [reflexivity|].
  split; [unfold posts; simpl; destruct (is_post what); simpl; lia|].
  reflexivity.
Qed.

Lemma adds_bind {W A B} (m : Poll W A) (k : A -> Poll W B)
    (P : A -> list Request -> Prop) (Q : A -> B -> list Request -> Prop)
    (R : B -> list Request -> Prop) n1 n2 n :
  adds m P n1 ->
  (forall a, adds (k a) (Q a) n2) ->
  (n1 + n2 <= n)%nat ->
  (forall a b r1 r2, P a r1 -> Q a b r2 -> R b (r1 ++ r2)) ->
  adds (m ≫= k) R n.
Proof.
  intros Hm Hk Hn HR s. unfold mbind, Poll_bind.
  destruct (Hm s) as (r1 & Hr1 & Hc1 & HP).
  destruct (m s) as [[e|a] s1] eqn:Hms; simpl in *.
  - exists r1. split; [exact Hr1|]. split; [lia|]. discriminate.
  - destruct (Hk a s1) as (r2 & Hr2 & Hc2 & HQ).
    exists (r1 ++ r2). rewrite Hr2, Hr1, app_assoc.
    split; [reflexivity|]. split; [rewrite posts_app; lia|].
    intros b Hb. apply HR with a; [apply HP; reflexivity|apply HQ; exact Hb].
Qed.

Lemma adds_weaken {W A} (m : Poll W A) (P Q : A -> list Request -> Prop) n n' :
  adds m P n -> (n <= n')%nat -> (forall a r, P a r -> Q a r) -> adds m Q n'.
Proof.
  intros Hm Hn HPQ s. destruct (Hm s) as (r & Hr & Hc & HP).
  exists r. split; [exact Hr|]. split; [lia|]. intros a Ha. apply HPQ, HP, Ha.
Qed.


Lemma adds_save {W} rt (host : Host W) outPath v requestBytes daBase endpoint
    last :
  adds (save rt host outPath v requestBytes daBase endpoint last)
       (fun found added =>
          forall doc, found = Some doc ->
                      written requestBytes daBase outPath doc added) 0.
Proof.
  unfold save.
  destruct (da_ok last && hasNonEmptyProof (dataOf rt last)) eqn:Hok;
    [|apply adds_pure; discriminate].
  apply andb_true_iff in Hok as [_ Hproof].
  intros s. unfold mbind, Poll_bind, ask, pure.
  destruct (writeFile host outPath _ (world s)) as [[u|] w]; simpl.
  - eexists. split; [reflexivity|]. split; [unfold posts; simpl; lia|].
    intros found [= <-] doc [= <-].
    exists v, endpoint, (now host (world s)), (dataOf rt last), [].
    split; [reflexivity|]. split; [exact Hproof|reflexivity].
  - eexists. split; [reflexivity|]. split; [unfold posts; simpl; lia|].
    discriminate.
Qed.

Lemma adds_fetchOnceRound {W} (host : Host W) daBase endpoint round bytes :
  adds (fetchOnceRound host daBase endpoint round bytes) (fun _ _ => True) 1.
Proof.
  unfold fetchOnceRound.
  eapply adds_weaken; [apply adds_ask|simpl; lia|trivial].
Qed.

Lemma adds_fetchOnceLatest {W} (host : Host W) daBase endpoint bytes :
  adds (fetchOnceLatest host daBase endpoint bytes) (fun _ _ => True) 1.
Proof.
  unfold fetchOnceLatest.
  eapply adds_weaken; [apply adds_ask|simpl; lia|trivial].
Qed.

Lemma adds_fetchLatestVotingRound {W} (host : Host W) daBase :
  adds (fetchLatestVotingRound host daBase) (fun _ _ => True) 0.
Proof.
  unfold fetchLatestVotingRound.
  eapply (adds_bind _ _ (fun _ _ => True) (fun _ _ _ => True) _ 0 0);
    [eapply adds_weaken; [apply adds_ask|simpl; lia|trivial]| |lia|trivial].
  intros [[] [[]|]];
    solve [apply adds_pure; trivial | apply adds_throw].
Qed.

Lemma written_later bytes base out doc r1 r2 :
  written bytes base out doc r2 -> written bytes base out doc (r1 ++ r2).
Proof.
  intros (v & ep & t & data & before & Hd & Hp & ->).
  exists v, ep, t, data, (r1 ++ before).
  split; [exact Hd|]. split; [exact Hp|]. apply app_assoc.
Qed.

(** An answer that is asked for and, when it is accepted, saved. *)
Lemma adds_asked_and_saved {W} rt (host : Host W) outPath v bytes base endpoint
    (asked : Poll W DaAnswer) :
  adds asked (fun _ _ => True) 1 ->
  adds (last ← asked; save rt host outPath v bytes base endpoint last)
       (fun found added =>
          forall doc, found = Some doc -> written bytes base outPath doc added)
       1.
Proof.
  intros Hasked.
  eapply (adds_bind _ _ (fun _ _ => True)
            (fun _ found added =>
               forall doc, found = Some doc ->
                           written bytes base outPath doc added) _ 1 0);
    [exact Hasked|intros last; apply adds_save|lia|].
  intros last found r1 r2 _ Hsaved doc Hdoc.
  apply written_later, Hsaved, Hdoc.
Qed.

(** After a step that may have saved: done when it has, else [next]. *)
Lemma adds_or_else {W} bytes base outPath (first next : Poll W (option Json))
    n1 n2 n :
  adds first
       (fun found added =>
          forall doc, found = Some doc -> written bytes base outPath doc added)
       n1 ->
  adds next
       (fun found added =>
          forall doc, found = Some doc -> written bytes base outPath doc added)
       n2 ->
  (n1 + n2 <= n)%nat ->
  adds (found ← first;
        match found with
        | Some output => pure (Some output)
        | None => next
        end)
       (fun found added =>
          forall doc, found = Some doc -> written bytes base outPath doc added)
       n.
Proof.
  intros Hfirst Hnext Hn.
  eapply (adds_bind _ _ _
            (fun found later added =>
               match found with
               | Some doc => later = Some doc /\ added = []
               | None => forall doc, later = Some doc ->
                                     written bytes base outPath doc added
               end) _ n1 n2);
    [exact Hfirst| |exact Hn|].
  - intros [doc|]; [|exact Hnext].
    apply adds_pure. split; reflexivity.
  - intros [doc|] later r1 r2 H1 H2 doc' Hdoc'.
    + destruct H2 as [-> ->]. rewrite app_nil_r. apply H1. exact Hdoc'.
    + apply written_later, H2, Hdoc'.
Qed.

Lemma adds_tryRounds {W} rt (host : Host W) outPath bytes base endpoint rounds :
  adds (tryRounds rt host outPath bytes base endpoint rounds)
       (fun found added =>
          forall doc, found = Some doc -> written bytes base outPath doc added)
       (length rounds).
Proof.
  induction rounds as [|round rest IH]; [apply adds_pure; discriminate|].
  cbn [tryRounds length].
  eapply (adds_bind _ _ (fun _ _ => True)
            (fun _ found added =>
               forall doc, found = Some doc ->
                           written bytes base outPath doc added)
            _ 1 (length rest));
    [apply adds_fetchOnceRound| |lia|].
  - intros last. eapply adds_or_else; [apply adds_save|exact IH|lia].
  - intros _ found r1 r2 _ H doc Hdoc. apply written_later, H, Hdoc.
Qed.

Lemma adds_attempt {W} rt (host : Host W) env outPath bytes base endpointLatest
    endpointRound :
  adds (attempt rt host env outPath bytes base endpointLatest endpointRound)
       (fun found added =>
          forall doc, found = Some doc -> written bytes base outPath doc added)
       (postsPerTurn env).
Proof.
  unfold attempt, postsPerTurn.
  destruct (nonempty (env !! "VOTING_ROUND_ID")) as [votingRoundId|].
  { apply adds_asked_and_saved, adds_fetchOnceRound. }
  eapply (adds_bind _ _ (fun _ _ => True)
            (fun _ found added =>
               forall doc, found = Some doc ->
                           written bytes base outPath doc added)
            _ 0 5);
    [apply adds_fetchLatestVotingRound| |lia|].
  - intros latestRound.
    eapply (adds_or_else _ _ _ _ _ 4 1); [| |lia].
    + destruct latestRound as [[latest|]|];
        [apply (adds_tryRounds rt host outPath bytes base endpointRound
                  [latest - 2; latest - 1; latest; latest + 1])
        |apply adds_pure; discriminate..].
    + apply adds_asked_and_saved, adds_fetchOnceLatest.
  - intros _ found r1 r2 _ H doc Hdoc. apply written_later, H, Hdoc.
Qed.

Lemma adds_poll {W} rt (host : Host W) env outPath bytes base endpointLatest
    endpointRound maxAttempts intervalMs left :
  adds (poll rt host env outPath bytes base endpointLatest endpointRound
             maxAttempts intervalMs left)
       (fun doc added => written bytes base outPath doc added)
       (left * postsPerTurn env).
Proof.
  induction left as [|left IH]; [apply adds_throw|].
  cbn [poll].
  eapply (adds_bind _ _ _
            (fun found doc added =>
               match found with
               | Some output => doc = output /\ added = []
               | None => written bytes base outPath doc added
               end) _ (postsPerTurn env) (left * postsPerTurn env));
    [apply adds_attempt| |simpl; lia|].
  - intros [output|]; [apply adds_pure; split; reflexivity|].
    eapply (adds_bind _ _ (fun _ _ => True)
              (fun _ doc added => written bytes base outPath doc added)
              _ 0 (left * postsPerTurn env));
      [eapply adds_weaken; [apply adds_ask|simpl; lia|trivial]
      |intros _; exact IH|lia|].
    intros _ doc r1 r2 _ H. apply written_later, H.
  - intros [output|] doc r1 r2 H1 H2.
    + destruct H2 as [-> ->]. rewrite app_nil_r. apply H1. reflexivity.
    + apply written_later, H2.
Qed.


Lemma adds_main {W} rt (host : Host W) env :
  adds (main rt host env)
       (fun doc added =>
          exists text requestJson requestBytes,
            readFile host
              (or_else (env !! "REQUEST_SUBMISSION_PATH")
                       (defaultRequestPath host)) = Some text /\
            JSON_parse rt text = Some requestJson /\
            get requestJson "abiEncodedRequest" = Some (JStr requestBytes) /\
            String.prefix "0x" requestBytes = true /\
            written requestBytes (or_else (env !! "DA_BASE") DEFAULT_daBase)
                    (or_else (env !! "OUT_PATH") (defaultOutPath host))
                    doc added)
       (turns (numberEnv rt env "MAX_ATTEMPTS" DEFAULT_maxAttempts)
        * postsPerTurn env).
Proof.
  match goal with
  | |- adds _ ?P _ => remember P as found eqn:Hfound
  end.
  unfold main.
  destruct (readFile host _) as [text|] eqn:Hread; [|apply adds_throw].
  destruct (JSON_parse rt text) as [requestJson|] eqn:Hparse;
    [|apply adds_throw].
  assert (Hrest :
            forall failed,
              adds
                match get requestJson "abiEncodedRequest" with
                | Some (JStr requestBytes) =>
                    if String.eqb requestBytes EmptyString
                       || negb (String.prefix "0x" requestBytes)
                    then throw failed
                    else poll rt host env
                           (or_else (env !! "OUT_PATH") (defaultOutPath host))
                           requestBytes
                           (or_else (env !! "DA_BASE") DEFAULT_daBase)
                           (or_else (env !! "DA_ENDPOINT_LATEST")
                                    DEFAULT_endpointLatest)
                           (or_else (env !! "DA_ENDPOINT_ROUND")
                                    DEFAULT_endpointRound)
                           (numberEnv rt env "MAX_ATTEMPTS" DEFAULT_maxAttempts)
                           (numberEnv rt env "INTERVAL_MS" DEFAULT_intervalMs)
                           (turns (numberEnv rt env "MAX_ATTEMPTS"
                                             DEFAULT_maxAttempts))
                | Some other =>
                    if truthy other then throw Thrown else throw failed
                | None => throw failed
                end
                found
                (turns (numberEnv rt env "MAX_ATTEMPTS" DEFAULT_maxAttempts)
                 * postsPerTurn env)).
  { intros failed.
    destruct (get requestJson "abiEncodedRequest")
      as [[| | |requestBytes| |]|] eqn:Hget;
      try apply adds_throw;
      try (destruct (truthy _); apply adds_throw).
    destruct (String.eqb requestBytes EmptyString); simpl; [apply adds_throw|].
    destruct (String.prefix "0x" requestBytes) eqn:Hprefix; simpl;
      [|apply adds_throw].
    eapply adds_weaken; [apply adds_poll|lia|].
    intros doc added Hw. subst found.
    exists text, requestJson, requestBytes. auto. }
  destruct requestJson; solve [apply adds_throw | apply Hrest].
Qed.


End FetchFacts.

Section FetchProperties.
Import Js Errors DaProofJson DaProofFacts FetchDaProof FetchShape FetchFacts.

(** X28: what fetch_da_proof.js writes, the checker accepts.  When the
    script returns it has written, as the last thing it did, a document
    around an answer of the layer with a non-empty proof array, for the
    encoded request of the submission record, which starts with 0x; and
    from that document [extractDaProofPayload] of the checker and
    [extractProofPayload] of the verification script return exactly that
    answer. *)
Theorem fetched_document_is_accepted {W}
    (rt : Runtime) (host : Host W) (env : Env) (s s' : PollState W)
    (document : Json) :
  main rt host env s = (inr document, s') ->
  exists text requestJson requestBytes votingRoundId endpoint fetchedAtIso
         data before,
    readFile host
      (or_else (env !! "REQUEST_SUBMISSION_PATH") (defaultRequestPath host))
    = Some text /\
    JSON_parse rt text = Some requestJson /\
    get requestJson "abiEncodedRequest" = Some (JStr requestBytes) /\
    String.prefix "0x" requestBytes = true /\
    document =
      proofDocument votingRoundId requestBytes
        (or_else (env !! "DA_BASE") DEFAULT_daBase) endpoint fetchedAtIso data /\
    hasNonEmptyProof data = true /\
    requests s' =
      requests s ++ before
      ++ [WriteProof (or_else (env !! "OUT_PATH") (defaultOutPath host))
                     document] /\
    extractDaProofPayload document = inr data /\
    extractProofPayload document = inr data.
Proof.
  intros Hrun.
  destruct (adds_main rt host env s) as (added & Hlog & _ & Hdone).
  rewrite Hrun in Hlog, Hdone. simpl in Hlog, Hdone.
  destruct (Hdone document eq_refl)
    as (text & requestJson & requestBytes & Hread & Hparse & Hget & Hprefix
        & votingRoundId & endpoint & fetchedAtIso & data & before & Hdoc
        & Hproof & ->).
  exists text, requestJson, requestBytes, votingRoundId, endpoint,
    fetchedAtIso, data, before.
  split; [exact Hread|]. split; [exact Hparse|]. split; [exact Hget|].
  split; [exact Hprefix|]. split; [exact Hdoc|]. split; [exact Hproof|].
  split; [exact Hlog|].
  apply hasNonEmptyProof_inv in Hproof as (_ & item & items & Hp).
  subst document. apply wrapped_proof; [reflexivity|].
  rewrite Hp. reflexivity.
Qed.

Lemma fetched_document_is_accepted_witness :
  exists document,
    fst (main FetchFixture.rt FetchFixture.host FetchFixture.env (start O))
    = inr document /\
    extractDaProofPayload document
    = inr (JObj [("response", JObj [("votingRound", JNum 1200)]);
                 ("proof", JArr [JStr "0x01"])]).
Proof.
  destruct (main FetchFixture.rt FetchFixture.host FetchFixture.env (start O))
    as [[e|document] s'] eqn:Hrun; [vm_compute in Hrun; discriminate|].
  exists document. split; [reflexivity|].
  destruct (fetched_document_is_accepted _ _ _ _ _ _ Hrun)
    as (text & requestJson & requestBytes & votingRoundId & endpoint
        & fetchedAtIso & data & before & _ & _ & _ & _ & Hdoc & _ & _
        & Hfound & _).
  rewrite Hfound. vm_compute in Hrun.
  assert (Hd := f_equal (fun r => fst r) Hrun). simpl in Hd.
  injection Hd as Hd.
  apply (f_equal (fun d => get d "response")) in Hdoc.
  rewrite <- Hd in Hdoc. vm_compute in Hdoc.
  injection Hdoc as <-. reflexivity.
Defined.



End FetchProperties.

(** ** The log of the recorder *)

Module RecorderLogFacts.
Import RewardExecutor RewardExecutorFacts.

(** One transaction adds no event, or one event for an attestation that
    was not flagged before and is flagged after. *)
Lemma step_events l c :
  events (step l c) = events l \/
  exists e,
    events (step l c) = events l ++ [e] /\
    executed (storage l) (ev_attestationTxHash e) = false /\
    executed (storage (step l c)) (ev_attestationTxHash e) = true.
Proof.
  unfold step.
  destruct (call l c) as [r|l'] eqn:Hc; [left; reflexivity|].
  destruct c as [sender o|sender h p s part kw]; simpl in Hc.
  - destruct (setOwner sender o (storage l)) as [r|st'] eqn:Hs;
      simpl in Hc; [discriminate|].
    injection Hc as <-. left. reflexivity.
  - destruct (executeReward sender h p s part kw (storage l))
      as [r|[st' evs]] eqn:He; simpl in Hc; [discriminate|].
    injection Hc as <-.
    apply executeReward_inr in He as (_ & Hfresh & -> & ->).
    right. exists (mkRewardExecuted h p s part kw). simpl.
    split; [reflexivity|]. split; [exact Hfresh|]. apply executed_insert_eq.
Qed.

Lemma not_executed_before l c h :
  executed (storage (step l c)) h = false -> executed (storage l) h = false.
Proof.
  intros Hafter. destruct (executed (storage l) h) eqn:Hbefore; [|reflexivity].
  rewrite (step_executed l c h Hbefore) in Hafter. discriminate.
Qed.

End RecorderLogFacts.

Section RecorderLog.
Import RewardExecutor RewardExecutorFacts RecorderLogFacts.

(** X30: the log of the recorder is append-only.  Whatever calls are made,
    by whomever, on any ledger: the events before are still there, in
    order, in front of the events added; a flag that was set stays set;
    every event added is for an attestation that was not flagged before and
    is flagged after; and no two events added are for the same
    attestation. *)
Theorem reward_log_is_append_only (cs : list Call) :
  forall l : Ledger,
  exists added,
    events (run l cs) = events l ++ added /\
    (forall h, executed (storage l) h = true ->
               executed (storage (run l cs)) h = true) /\
    (forall e, In e added ->
               executed (storage l) (ev_attestationTxHash e) = false /\
               executed (storage (run l cs)) (ev_attestationTxHash e) = true) /\
    List.NoDup (map ev_attestationTxHash added).
Proof.
  induction cs as [|c cs IH]; intros l.
  - exists []. simpl. rewrite app_nil_r.
    split; [reflexivity|]. split; [auto|]. split; [tauto|constructor].
  - destruct (IH (step l c)) as (added & Hev & Hkeep & Hnew & Hnd).
    change (run l (c :: cs)) with (run (step l c) cs).
    assert (Hflags : forall h, executed (storage l) h = true ->
                               executed (storage (run (step l c) cs)) h = true)
      by (intros h Hh; apply Hkeep, step_executed, Hh).
    destruct (step_events l c) as [Hsame|(e & Hone & Hfresh & Hset)].
    + exists added. rewrite Hev, Hsame.
      split; [reflexivity|]. split; [exact Hflags|]. split; [|exact Hnd].
      intros e Hin. destruct (Hnew e Hin) as [Hb Ha].
      split; [exact (not_executed_before l c _ Hb)|exact Ha].
    + exists (e :: added). rewrite Hev, Hone, <- app_assoc.
      split; [reflexivity|]. split; [exact Hflags|]. split.
      * intros e' [<-|Hin].
        -- split; [exact Hfresh|]. apply Hkeep, Hset.
        -- destruct (Hnew e' Hin) as [Hb Ha].
           split; [exact (not_executed_before l c _ Hb)|exact Ha].
      * simpl. constructor; [|exact Hnd].
        intros Hin. apply in_map_iff in Hin as (e' & Heq & Hin).
        destruct (Hnew e' Hin) as [Hb _]. rewrite Heq in Hb. congruence.
Qed.

Lemma reward_log_is_append_only_witness :
  executed (storage (run Fixture.ledger_recorded Fixture.twice)) 1 = true.
Proof.
  destruct (reward_log_is_append_only Fixture.twice Fixture.ledger_recorded)
    as (added & _ & Hkeep & _).
  apply Hkeep. vm_compute. reflexivity.
Defined.

End RecorderLog.
